(** * IBKR CSV trading system: the order-batch processor and its guardrails

    A shallow embedding of [ib_auto_trader.py] and [ib_autotrade_realtest.py]:
    the connection check, the CSV reader, contract and order creation, the
    placement loop, the position report and the session workflow, followed by
    the properties of the written specification settled on that embedding.

    The gateway ([ib_insync.IB]), the file system, [pandas.read_csv] and
    the interpreter's reading of text ([int], [float] and [strip] of a
    [str], which follow the interpreter's version and its Unicode tables) are
    the environment: the gateway is a state machine whose answers are
    arbitrary, a file name is mapped to what [read_csv] makes of it, and the
    properties hold for every reading of text.  Python exceptions are values
    of [exn]; every function that can raise returns a [result]; logging and
    gateway calls are events of one chronological trace. *)

From Stdlib Require Import ZArith List String Ascii Bool Lia.
From Stdlib Require Import Floats.SpecFloat.
Import ListNotations.

Local Open Scope string_scope.
Local Open Scope list_scope.
Local Open Scope Z_scope.

(* ================================================================== *)
(** * Python values and builtins *)
(* ================================================================== *)

Module Py.

(** Python's [float] is IEEE binary64; [spec_float] is the Standard
    Library's specification of it. *)
Definition float := spec_float.
Definition prec : Z := 53.
Definition emax : Z := 1024.

Definition fadd : float -> float -> float := SFadd prec emax.
Definition fsub : float -> float -> float := SFsub prec emax.
Definition fmul : float -> float -> float := SFmul prec emax.
Definition float_of_Z (z : Z) : float := binary_normalize prec emax z 0 false.

Definition is_nan (f : float) : bool :=
  match f with S754_nan => true | _ => false end.

Definition is_finite (f : float) : bool :=
  match f with S754_zero _ | S754_finite _ _ _ => true | _ => false end.

Definition is_zero (f : float) : bool :=
  match f with S754_zero _ => true | _ => false end.

(** The exceptions the modelled code can meet.  All of them are instances
    of Python's [Exception], which is what every handler of the program
    catches.  An interrupt of the user ([KeyboardInterrupt], which is no
    [Exception]) can arrive at any moment and is outside this model. *)
Inductive exn :=
| KeyError (key : string)
| AttributeError (attr : string)
| TypeError
| ValueError
| OverflowError
| FileNotFoundError
| OtherError (msg : string).

Inductive result (A : Type) :=
| Ok (a : A)
| Raise (e : exn).
Arguments Ok {A} a.
Arguments Raise {A} e.

Definition rbind {A B} (r : result A) (k : A -> result B) : result B :=
  match r with Ok a => k a | Raise e => Raise e end.

(** ** [str] methods on the letters A to Z, which is where the words the
    program compares with (['LMT'], ['STP'], ['paper'], ['yes']) live *)

Definition is_upper_char (c : ascii) : bool :=
  ((65 <=? Z.of_N (N_of_ascii c)) && (Z.of_N (N_of_ascii c) <=? 90))%bool.
Definition is_lower_char (c : ascii) : bool :=
  ((97 <=? Z.of_N (N_of_ascii c)) && (Z.of_N (N_of_ascii c) <=? 122))%bool.

Definition upper_char (c : ascii) : ascii :=
  if is_lower_char c then ascii_of_N (N_of_ascii c - 32) else c.
Definition lower_char (c : ascii) : ascii :=
  if is_upper_char c then ascii_of_N (N_of_ascii c + 32) else c.

Fixpoint str_map (f : ascii -> ascii) (s : string) : string :=
  match s with
  | EmptyString => EmptyString
  | String c s' => String (f c) (str_map f s')
  end.

Definition upper : string -> string := str_map upper_char.
Definition lower : string -> string := str_map lower_char.

(** [needle in hay] *)
Fixpoint contains (needle hay : string) : bool :=
  if prefix needle hay then true
  else match hay with
       | EmptyString => false
       | String _ hay' => contains needle hay'
       end.

(** [s.split(sep)[0]]: the text before the first separator. *)
Fixpoint split_first (sep : ascii) (s : string) : string :=
  match s with
  | EmptyString => EmptyString
  | String c s' =>
      if Ascii.eqb c sep then EmptyString else String c (split_first sep s')
  end.

(** ** Reading ASCII text: [int(str)], [float(str)] and [str.strip()]

    One reading of text, used by the examples; the program is modelled
    over any reading (class [Text] below). *)

(** White space to [int] and [float] of ASCII text: the space and the
    controls 9 to 13. *)
Definition is_space (c : ascii) : bool :=
  let n := Z.of_N (N_of_ascii c) in
  ((n =? 32) || ((9 <=? n) && (n <=? 13)))%bool.

(** White space to [str.strip()]: the same and the separators 28 to 31. *)
Definition is_blank (c : ascii) : bool :=
  let n := Z.of_N (N_of_ascii c) in
  ((n =? 32) || ((9 <=? n) && (n <=? 13)) || ((28 <=? n) && (n <=? 31)))%bool.

Definition digit_of (c : ascii) : option Z :=
  let n := Z.of_N (N_of_ascii c) in
  if ((48 <=? n) && (n <=? 57))%bool then Some (n - 48) else None.

Fixpoint lstrip (blank : ascii -> bool) (l : list ascii) : list ascii :=
  match l with
  | c :: l' => if blank c then lstrip blank l' else l
  | [] => []
  end.

Definition strip (blank : ascii -> bool) (l : list ascii) : list ascii :=
  rev (lstrip blank (rev (lstrip blank l))).

(** An optional sign; [true] is minus. *)
Definition take_sign (l : list ascii) : bool * list ascii :=
  match l with
  | "-"%char :: l' => (true, l')
  | "+"%char :: l' => (false, l')
  | _ => (false, l)
  end.

(** The longest prefix [digit ("_"? digit)*], read onto the accumulator:
    the value, the number of digits read and the remaining text.  [first]
    tells that no digit has been read yet. *)
Fixpoint digitpart (first : bool) (acc : Z) (n : Z) (l : list ascii)
  : Z * Z * list ascii :=
  match l with
  | c :: l' =>
      match digit_of c with
      | Some d => digitpart false (acc * 10 + d) (n + 1) l'
      | None =>
          if (Ascii.eqb c "_" && negb first)%bool then
            match l' with
            | c' :: _ =>
                match digit_of c' with
                | Some _ => digitpart true acc n l'
                | None => (acc, n, l)
                end
            | [] => (acc, n, l)
            end
          else (acc, n, l)
      end
  | [] => (acc, n, l)
  end.

(** [int(s)] for a string of ASCII text, base ten, with no limit on the
    number of digits. *)
Definition int_of_str (s : string) : result Z :=
  let '(neg, l) := take_sign (strip is_space (list_ascii_of_string s)) in
  match digitpart true 0 0 l with
  | (v, n, []) => if 0 <? n then Ok (if neg then - v else v) else Raise ValueError
  | _ => Raise ValueError
  end.

(** The float nearest to [m * 10 ^ e10] with sign [neg], [m >= 0]. *)
Definition float_of_decimal (neg : bool) (m e10 : Z) : float :=
  match m with
  | Zpos p =>
      if 0 <=? e10 then binary_round prec emax neg (p * Z.to_pos (10 ^ e10)) 0
      else
        let '(q, e, l) := SFdiv_core_binary prec emax m 0 (10 ^ (- e10)) 0 in
        binary_round_aux prec emax neg q e l
  | _ => S754_zero neg
  end.

(** [float(s)] for a string of ASCII text. *)
Definition float_of_str (s : string) : result float :=
  let '(neg, l) := take_sign (strip is_space (list_ascii_of_string s)) in
  let word := lower (string_of_list_ascii l) in
  if ((word =? "inf") || (word =? "infinity"))%string%bool then Ok (S754_infinity neg)
  else if (word =? "nan")%string then Ok S754_nan
  else
    let '(m1, n1, r1) := digitpart true 0 0 l in
    let '(m2, n2, r2) :=
      match r1 with
      | "."%char :: r => digitpart true m1 0 r
      | _ => (m1, 0, r1)
      end in
    if (n1 + n2 =? 0) then Raise ValueError
    else
      match r2 with
      | [] => Ok (float_of_decimal neg m2 (- n2))
      | c :: r =>
          if Ascii.eqb (lower_char c) "e" then
            let '(eneg, r') := take_sign r in
            match digitpart true 0 0 r' with
            | (ev, en, []) =>
                if 0 <? en
                then Ok (float_of_decimal neg m2 ((if eneg then - ev else ev) - n2))
                else Raise ValueError
            | _ => Raise ValueError
            end
          else Raise ValueError
      end.

(** [s.strip()] for a string of ASCII text. *)
Definition str_strip (s : string) : string :=
  string_of_list_ascii (strip is_blank (list_ascii_of_string s)).

(** [int(x)] for a float: truncation toward zero. *)
Definition int_of_float (f : float) : result Z :=
  match f with
  | S754_zero _ => Ok 0
  | S754_nan => Raise ValueError
  | S754_infinity _ => Raise OverflowError
  | S754_finite s m e =>
      let a := if 0 <=? e then Z.shiftl (Zpos m) e else Z.shiftr (Zpos m) (- e) in
      Ok (if s then - a else a)
  end.

End Py.
Export Py.

(** The interpreter's reading of text: [int(s)], [float(s)] and
    [s.strip()] of a [str].  The white space and the digits they know
    follow the interpreter's Unicode tables, and [int] has a limit on the
    number of digits in some versions, so the program is modelled over any
    such reading. *)
Class Text := {
  int_of_text : string -> result Z;
  float_of_text : string -> result float;
  strip_text : string -> string
}.

Declare Scope result_scope.
Delimit Scope result_scope with res.
Notation "x <- r ;; k" := (rbind r (fun x => k))
  (at level 61, r at next level, right associativity) : result_scope.

(* ================================================================== *)
(** * pandas: cells, rows and data frames *)
(* ================================================================== *)

(** A cell is the scalar [iterrows] hands to the program: text, an integer,
    a float (a missing value is the float NaN) or a boolean. *)
Inductive cell :=
| CStr (s : string)
| CInt (z : Z)
| CFloat (f : float)
| CBool (b : bool).

(** A row is a [Series]: the column labels with the row's values. *)
Definition Series := list (string * cell).

Fixpoint lookup (k : string) (row : Series) : option cell :=
  match row with
  | [] => None
  | (k', v) :: row' => if (k =? k')%string then Some v else lookup k row'
  end.

(** [row[k]] *)
Definition getitem (row : Series) (k : string) : result cell :=
  match lookup k row with
  | Some v => Ok v
  | None => Raise (KeyError k)
  end.

(** [row.get(k)], [None] when the label is absent *)
Definition get (row : Series) (k : string) : option cell := lookup k row.

(** [row.get(k, default)] *)
Definition get_default (row : Series) (k : string) (default : cell) : cell :=
  match lookup k row with
  | Some v => v
  | None => default
  end.

(** [pd.notna(x)] for a scalar or [None] *)
Definition notna (x : option cell) : bool :=
  match x with
  | None => false
  | Some (CFloat f) => negb (is_nan f)
  | Some _ => true
  end.

(** [x.upper()]: only text has the method. *)
Definition cell_upper (x : cell) : result string :=
  match x with
  | CStr s => Ok (upper s)
  | _ => Raise (AttributeError "upper")
  end.

(** [x.split('/')[0]] *)
Definition cell_split_first (x : cell) : result string :=
  match x with
  | CStr s => Ok (split_first "/" s)
  | _ => Raise (AttributeError "split")
  end.

(** [int(x)] *)
Definition py_int {py : Text} (x : cell) : result Z :=
  match x with
  | CStr s => int_of_text s
  | CInt z => Ok z
  | CFloat f => int_of_float f
  | CBool b => Ok (if b then 1 else 0)
  end.

(** [float(x)] *)
Definition py_float {py : Text} (x : cell) : result float :=
  match x with
  | CStr s => float_of_text s
  | CInt z => let f := float_of_Z z in
              if is_finite f then Ok f else Raise OverflowError
  | CFloat f => Ok f
  | CBool b => Ok (if b then float_of_Z 1 else S754_zero false)
  end.

(** An index label, the [idx] of [iterrows].  [read_csv] numbers the lines
    0, 1, ... when they have as many fields as the header; when they have
    more, the leading fields are taken as the labels: one field gives a
    scalar, several give a tuple. *)
Inductive label :=
| Label (c : cell)
| MultiLabel (cs : list cell).

(** [idx + 1]: defined on numbers, a [TypeError] on text and on tuples. *)
Definition plus_one (idx : label) : result cell :=
  match idx with
  | Label (CInt z) => Ok (CInt (z + 1))
  | Label (CFloat f) => Ok (CFloat (fadd f (float_of_Z 1)))
  | Label (CBool b) => Ok (CInt (if b then 2 else 1))
  | Label (CStr _) => Raise TypeError
  | MultiLabel _ => Raise TypeError
  end.

(** A frame: the column labels and the lines, each with its index label
    and its values. *)
Record DataFrame := {
  columns : list string;
  lines : list (label * list cell)
}.

(** [df.index] and [df.values] *)
Definition index (df : DataFrame) : list label := map fst (lines df).
Definition values (df : DataFrame) : list (list cell) := map snd (lines df).

(** [len(df)] *)
Definition len (df : DataFrame) : Z := Z.of_nat (List.length (lines df)).

(** [df.empty]: some axis has length zero. *)
Definition empty (df : DataFrame) : bool :=
  match columns df, lines df with
  | _ :: _, _ :: _ => false
  | _, _ => true
  end.

(** The rows of a frame as [Series], in the order of the file. *)
Definition rows (df : DataFrame) : list Series :=
  map (combine (columns df)) (values df).

(** [df.iterrows()]: every row with its index label. *)
Definition iterrows (df : DataFrame) : list (label * Series) :=
  map (fun l => (fst l, combine (columns df) (snd l))) (lines df).

Fixpoint number_from (i : Z) (vs : list (list cell))
  : list (label * list cell) :=
  match vs with
  | [] => []
  | v :: vs' => (Label (CInt i), v) :: number_from (i + 1) vs'
  end.

(** The frame of a file whose lines have as many fields as the header:
    the lines are numbered from zero. *)
Definition frame (cols : list string) (vs : list (list cell)) : DataFrame :=
  {| columns := cols; lines := number_from 0 vs |}.

(* ================================================================== *)
(** * Gateway objects *)
(* ================================================================== *)

(** [Stock(symbol=..., exchange=..., currency=...)]; the constructor stores
    what it is given. *)
Record Contract := {
  symbol : cell;
  exchange : string;
  currency : cell
}.

(** [Order()]: a price or account the program does not set stays at the
    library's unset default, [None] here. *)
Record Order := {
  action : string;
  totalQuantity : Z;
  orderType : string;
  lmtPrice : option float;
  auxPrice : option float;
  tif : cell;
  account : option cell
}.

(** What [placeOrder] returns. *)
Record Trade := {
  trade_contract : Contract;
  trade_order : Order;
  orderId : Z;
  status : string
}.

Record Position := {
  contract : Contract;
  position : float;
  avgCost : float
}.

Record AccountValue := {
  tag : string;
  value : string;
  value_currency : string
}.

(* ================================================================== *)
(** * Configuration *)
(* ================================================================== *)

Definition IB_HOST : string := "127.0.0.1".
Definition IB_PORT : Z := 7497.
Definition CLIENT_ID : Z := 1.
Definition CSV_FILE : string :=
  "Alg_ETF_Trading_Strategy-vol-target-2-Final_20251031 (1).csv".
Definition PAPER_TRADING_ONLY : bool := true.
Definition MAX_ORDER_SIZE : Z := 1000.

(* ================================================================== *)
(** * The trace: log lines and calls *)
(* ================================================================== *)

Inductive level := INFO | WARNING | ERROR.

(** One constructor per logging statement, carrying the values its f-string
    interpolates.  A constructor names the statement, not its text: the two
    scripts decorate the same statement differently (a check mark in the
    first, a word in brackets such as [[SUCCESS]] in the second), and the
    line that ends the loop is worded differently in [run] of the second. *)
Inductive message :=
| MsgConnecting (host : string) (port : Z)
| MsgConnected
| MsgConnectedAccounts (accounts : list string)
| MsgNotPaperAccount
| MsgFailedToConnect (e : exn)
| MsgMakeSureRunning
| MsgDisconnected
| MsgErrorDisconnecting (e : exn)
| MsgReadingOrders (path : string)
| MsgFoundOrders (n : Z)
| MsgColumns (cols : list string)
| MsgCsvNotFound (file : string)
| MsgErrorReadingCsv (e : exn)
| MsgErrorCreatingContract (sym : cell) (e : exn)
| MsgOrderSizeExceeds (quantity limit : Z)
| MsgErrorCreatingOrder (e : exn)
| MsgRule (width : Z)
| MsgPlacing (act : string)
| MsgSymbol (sym : cell)
| MsgQuantity (q : Z)
| MsgOrderType (t : string)
| MsgLimitPrice (p : option float)
| MsgOrderPlaced (id : Z)
| MsgStatus (st : string)
| MsgErrorPlacing (sym : cell) (e : exn)
| MsgNoOrders
| MsgProcessingOrder (i : cell) (n : Z)
| MsgCompleted (placed n : Z)
| MsgFetchingPositions
| MsgNoOpenPositions
| MsgPositionsHeader
| MsgPositionRow (sym : cell) (qty avg market_value pnl : float)
| MsgErrorFetchingPositions (e : exn)
| MsgFetchingAccountSummary
| MsgAccountSummaryHeader
| MsgMetric (name val cur : string)
| MsgErrorFetchingAccountSummary (e : exn)
| MsgBeforeTrading
| MsgProcessingOrders
| MsgWaiting
| MsgAfterTrading
| MsgSummaryHeader
| MsgOrdersProcessed (n : Z)
| MsgLogFile
| MsgErrorDuringTrading (e : exn)
| MsgShuttingDown
| MsgShutdownComplete.

Inductive gateway_call :=
| CallConnect (host : string) (port client_id : Z)
| CallManagedAccounts
| CallDisconnect
| CallPlaceOrder (c : Contract) (o : Order)
| CallSleep (seconds : Z)
| CallPositions
| CallAccountSummary.

Inductive event :=
| Log (lvl : level) (m : message)
| Gateway (c : gateway_call)
| TimeSleep (milliseconds : Z).

(** The events of a trace that [f] selects, in order. *)
Fixpoint pick {A} (f : event -> option A) (tr : list event) : list A :=
  match tr with
  | [] => []
  | e :: tr' =>
      match f e with
      | Some a => a :: pick f tr'
      | None => pick f tr'
      end
  end.

Definition placement_of (e : event) : option (Contract * Order) :=
  match e with
  | Gateway (CallPlaceOrder c o) => Some (c, o)
  | _ => None
  end.

(** The placement requests of a trace, in order. *)
Definition placement_calls : list event -> list (Contract * Order) :=
  pick placement_of.

Definition level_eqb (a b : level) : bool :=
  match a, b with
  | INFO, INFO | WARNING, WARNING | ERROR, ERROR => true
  | _, _ => false
  end.

Definition logged_at (lvl : level) (e : event) : option message :=
  match e with
  | Log l m => if level_eqb l lvl then Some m else None
  | _ => None
  end.

(** The lines logged at a level, in order. *)
Definition logged (lvl : level) : list event -> list message :=
  pick (logged_at lvl).

(** The lines of a trace that report a number of orders: the line that
    ends the loop and the line of the summary block. *)
Definition count_of (e : event) : option message :=
  match e with
  | Log INFO (MsgCompleted placed n) => Some (MsgCompleted placed n)
  | Log INFO (MsgOrdersProcessed n) => Some (MsgOrdersProcessed n)
  | _ => None
  end.

Definition count_lines : list event -> list message := pick count_of.

(* ================================================================== *)
(** * The environment: gateway and files *)
(* ================================================================== *)

(** [ib_insync.IB] as the program uses it: each method answers from the
    gateway's state [G], by a value or by raising, and moves the state. *)
Record IB (G : Type) := {
  ib_connect : string -> Z -> Z -> G -> result unit * G;
  ib_managedAccounts : G -> result (list string) * G;
  ib_disconnect : G -> result unit * G;
  ib_placeOrder : Contract -> Order -> G -> result Trade * G;
  ib_sleep : Z -> G -> result unit * G;
  ib_positions : G -> result (list Position) * G;
  ib_accountSummary : G -> result (list AccountValue) * G
}.
Arguments ib_connect {G}.
Arguments ib_managedAccounts {G}.
Arguments ib_disconnect {G}.
Arguments ib_placeOrder {G}.
Arguments ib_sleep {G}.
Arguments ib_positions {G}.
Arguments ib_accountSummary {G}.

(** [pd.read_csv], [os.path.exists] and [os.path.join] on the files of
    the machine, and the directory of the script,
    [os.path.dirname(os.path.abspath(__file__))]. *)
Record FileSystem := {
  read_csv : string -> result DataFrame;
  path_exists : string -> bool;
  path_join : string -> string -> string;
  script_dir : string
}.

(* ================================================================== *)
(** * Programs: gateway state, exceptions and the trace *)
(* ================================================================== *)

(** A statement runs from a gateway state to an outcome (a value or a
    raised exception), the next state and the events it produced. *)
Definition M (G A : Type) : Type := G -> result A * G * list event.

Definition outcome {G A} (x : result A * G * list event) : result A :=
  fst (fst x).
Definition trace {G A} (x : result A * G * list event) : list event :=
  snd x.

Section Statements.
Context {G : Type}.

Definition ret {A} (a : A) : M G A := fun g => (Ok a, g, []).

Definition bind {A B} (m : M G A) (k : A -> M G B) : M G B :=
  fun g =>
    match m g with
    | (Ok a, g1, tr1) =>
        let '(r, g2, tr2) := k a g1 in (r, g2, tr1 ++ tr2)
    | (Raise e, g1, tr1) => (Raise e, g1, tr1)
    end.

(** A pure computation that may raise. *)
Definition lift {A} (r : result A) : M G A := fun g => (r, g, []).

(** [logger.info], [logger.warning], [logger.error] *)
Definition log (lvl : level) (m : message) : M G unit :=
  fun g => (Ok tt, g, [Log lvl m]).

(** [time.sleep] *)
Definition time_sleep (milliseconds : Z) : M G unit :=
  fun g => (Ok tt, g, [TimeSleep milliseconds]).

(** A call of a gateway method: the call is an event whether it returns
    or raises. *)
Definition call {A} (c : gateway_call) (method : G -> result A * G) : M G A :=
  fun g => let '(r, g1) := method g in (r, g1, [Gateway c]).

(** [try: body  except Exception as e: handler] *)
Definition try_except {A} (body : M G A) (handler : exn -> M G A) : M G A :=
  fun g =>
    match body g with
    | (Ok a, g1, tr1) => (Ok a, g1, tr1)
    | (Raise e, g1, tr1) =>
        let '(r, g2, tr2) := handler e g1 in (r, g2, tr1 ++ tr2)
    end.

(** [try: body  finally: cleanup] *)
Definition try_finally {A} (body : M G A) (cleanup : M G unit) : M G A :=
  fun g =>
    let '(r, g1, tr1) := body g in
    match cleanup g1 with
    | (Ok _, g2, tr2) => (r, g2, tr1 ++ tr2)
    | (Raise e, g2, tr2) => (Raise e, g2, tr1 ++ tr2)
    end.

(** [for x in xs: body], the loop's variables threaded as [s]. *)
Fixpoint for_each {A S} (body : A -> S -> M G S) (xs : list A) (s : S) : M G S :=
  match xs with
  | [] => ret s
  | x :: xs' => bind (body x s) (for_each body xs')
  end.

End Statements.

Declare Scope prog_scope.
Delimit Scope prog_scope with prog.
Notation "x <- m ;; k" := (bind m (fun x => k))
  (at level 61, m at next level, right associativity) : prog_scope.
Notation "m ;;; k" := (bind m (fun _ => k))
  (at level 61, right associativity) : prog_scope.

Definition is_nil {A} (l : list A) : bool :=
  match l with [] => true | _ => false end.

(* ================================================================== *)
(** * The code shared by both scripts *)
(* ================================================================== *)

(** The outcome of the body of [create_order]: the size guard returns
    before an order is built, or the order is built. *)
Inductive order_decision :=
| TooLarge (quantity : Z)
| Built (o : Order).

(** The account test of [connect]:
    ['paper' in acc.lower() or 'df' in acc.lower() or 'du' in acc.lower()] *)
Definition paper_pattern (acc : string) : bool :=
  (contains "paper" (lower acc) || contains "df" (lower acc)
   || contains "du" (lower acc))%bool.

(** The body of [create_contract]'s [try]. *)
Definition contract_of_row (row : Series) : result Contract :=
  (sym <- getitem row "Symbol" ;;
   exch <- (if notna (get row "Exchange")
            then (e <- getitem row "Exchange" ;; cell_split_first e)
            else Ok "SMART") ;;
   Ok {| symbol := sym;
         exchange := exch;
         currency := get_default row "Currency" (CStr "USD") |})%res.

(** [int(row['Quantity'])] *)
Definition quantity_of {py : Text} (row : Series) : result Z :=
  (q <- getitem row "Quantity" ;; py_int q)%res.

(** The part of [create_order] after the size guard: the order object and
    its optional fields. *)
Definition fill_order {py : Text} (row : Series) (act : string)
    (quantity : Z) (order_type : string) : result Order :=
  (lmt <- (if ((order_type =? "LMT")%string && notna (get row "LmtPrice"))%bool
           then (p <- getitem row "LmtPrice" ;; f <- py_float p ;; Ok (Some f))
           else Ok None) ;;
   aux <- (if (((order_type =? "STP")%string || (order_type =? "STP LMT")%string)
               && notna (get row "AuxPrice"))%bool
           then (p <- getitem row "AuxPrice" ;; f <- py_float p ;; Ok (Some f))
           else Ok None) ;;
   acct <- (if notna (get row "Account")
            then (a <- getitem row "Account" ;; Ok (Some a))
            else Ok None) ;;
   Ok {| action := act;
         totalQuantity := quantity;
         orderType := order_type;
         lmtPrice := lmt;
         auxPrice := aux;
         tif := get_default row "TimeInForce" (CStr "DAY");
         account := acct |})%res.

(** The body of [create_order]'s [try], up to the logging of the guard. *)
Definition order_of_row {py : Text} (row : Series)
  : result order_decision :=
  (act <- (a <- getitem row "Action" ;; cell_upper a) ;;
   quantity <- quantity_of row ;;
   order_type <- cell_upper (get_default row "OrderType" (CStr "MKT")) ;;
   if quantity >? MAX_ORDER_SIZE then Ok (TooLarge quantity)
   else
     o <- fill_order row act quantity order_type ;;
     Ok (Built o))%res.

(** The request a row leads to: none when either creation gives [None]. *)
Definition row_request {py : Text} (row : Series)
  : list (Contract * Order) :=
  match contract_of_row row, order_of_row row with
  | Ok c, Ok (Built o) => [(c, o)]
  | _, _ => []
  end.

Record IBConnectionManager := {
  host : string;
  port : Z;
  client_id : Z
}.

Section Shared.
Context {G : Type} (ib : IB G) {py : Text}.
Local Open Scope prog_scope.

(** [IBConnectionManager.connect] *)
Definition connect (self : IBConnectionManager) : M G bool :=
  try_except
    (log INFO (MsgConnecting (host self) (port self)) ;;;
     call (CallConnect (host self) (port self) (client_id self))
          (ib_connect ib (host self) (port self) (client_id self)) ;;;
     log INFO MsgConnected ;;;
     (if PAPER_TRADING_ONLY then
        accounts <- call CallManagedAccounts (ib_managedAccounts ib) ;;
        log INFO (MsgConnectedAccounts accounts) ;;;
        if (negb (is_nil accounts) && negb (existsb paper_pattern accounts))%bool
        then log WARNING MsgNotPaperAccount
        else ret tt
      else ret tt) ;;;
     ret true)
    (fun e =>
       log ERROR (MsgFailedToConnect e) ;;;
       log ERROR MsgMakeSureRunning ;;;
       ret false).

(** [IBConnectionManager.disconnect] *)
Definition disconnect : M G unit :=
  try_except
    (call CallDisconnect (ib_disconnect ib) ;;;
     log INFO MsgDisconnected)
    (fun e => log ERROR (MsgErrorDisconnecting e)).

(** [OrderProcessor.create_contract] *)
Definition create_contract (row : Series) : M G (option Contract) :=
  try_except
    (c <- lift (contract_of_row row) ;;
     ret (Some c))
    (fun e =>
       log ERROR (MsgErrorCreatingContract
                    (get_default row "Symbol" (CStr "UNKNOWN")) e) ;;;
       ret None).

(** [OrderProcessor.create_order] *)
Definition create_order (row : Series) : M G (option Order) :=
  try_except
    (d <- lift (order_of_row row) ;;
     match d with
     | TooLarge quantity =>
         log WARNING (MsgOrderSizeExceeds quantity MAX_ORDER_SIZE) ;;;
         ret None
     | Built o => ret (Some o)
     end)
    (fun e =>
       log ERROR (MsgErrorCreatingOrder e) ;;;
       ret None).

(** [OrderProcessor.place_order] *)
Definition place_order (c : Contract) (o : Order) (sym : cell)
  : M G (option Trade) :=
  try_except
    (log INFO (MsgRule 60) ;;;
     log INFO (MsgPlacing (action o)) ;;;
     log INFO (MsgSymbol sym) ;;;
     log INFO (MsgQuantity (totalQuantity o)) ;;;
     log INFO (MsgOrderType (orderType o)) ;;;
     (if (orderType o =? "LMT")%string
      then log INFO (MsgLimitPrice (lmtPrice o))
      else ret tt) ;;;
     log INFO (MsgRule 60) ;;;
     trade <- call (CallPlaceOrder c o) (ib_placeOrder ib c o) ;;
     call (CallSleep 1) (ib_sleep ib 1) ;;;
     log INFO (MsgOrderPlaced (orderId trade)) ;;;
     log INFO (MsgStatus (status trade)) ;;;
     ret (Some trade))
    (fun e =>
       log ERROR (MsgErrorPlacing sym e) ;;;
       ret None).

(** The body of the loop over [df.iterrows()], the same statements in
    [process_all_orders] of both scripts and in [run] of the second.  Its
    first line formats [idx + 1], outside every [try]; [continue] ends the
    body with [trades] unchanged. *)
Definition process_row (n : Z) (item : label * Series) (trades : list Trade)
  : M G (list Trade) :=
  let '(idx, row) := item in
  i <- lift (plus_one idx) ;;
  log INFO (MsgProcessingOrder i n) ;;;
  contract <- create_contract row ;;
  match contract with
  | None => ret trades
  | Some contract =>
      order <- create_order row ;;
      match order with
      | None => ret trades
      | Some order =>
          sym <- lift (getitem row "Symbol") ;;
          trade <- place_order contract order sym ;;
          let trades := match trade with
                        | Some t => trades ++ [t]
                        | None => trades
                        end in
          time_sleep 500 ;;;
          ret trades
      end
  end.

(** The loop, and the line logged after it. *)
Definition process_rows (df : DataFrame) : M G (list Trade) :=
  trades <- for_each (process_row (len df)) (iterrows df) [] ;;
  log INFO (MsgCompleted (Z.of_nat (List.length trades)) (len df)) ;;;
  ret trades.

(** [PositionManager.fetch_positions] *)
Definition fetch_positions : M G (list Position) :=
  try_except
    (log INFO MsgFetchingPositions ;;;
     positions <- call CallPositions (ib_positions ib) ;;
     if is_nil positions then
       log INFO MsgNoOpenPositions ;;;
       ret []
     else
       log INFO (MsgRule 80) ;;;
       log INFO MsgPositionsHeader ;;;
       log INFO (MsgRule 80) ;;;
       for_each
         (fun pos (_ : unit) =>
            log INFO (MsgPositionRow
                        (symbol (contract pos))
                        (position pos)
                        (avgCost pos)
                        (fmul (position pos) (avgCost pos))
                        (fmul (position pos)
                              (fsub (avgCost pos) (avgCost pos)))))
         positions tt ;;;
       log INFO (MsgRule 80) ;;;
       ret positions)
    (fun e =>
       log ERROR (MsgErrorFetchingPositions e) ;;;
       ret []).

Definition key_metrics : list string :=
  ["NetLiquidation"; "TotalCashValue"; "BuyingPower"; "GrossPositionValue"].

(** [PositionManager.fetch_account_summary] *)
Definition fetch_account_summary : M G (option (list AccountValue)) :=
  try_except
    (log INFO MsgFetchingAccountSummary ;;;
     summary <- call CallAccountSummary (ib_accountSummary ib) ;;
     (if negb (is_nil summary) then
        log INFO (MsgRule 60) ;;;
        log INFO MsgAccountSummaryHeader ;;;
        for_each
          (fun item (_ : unit) =>
             if existsb (String.eqb (tag item)) key_metrics
             then log INFO (MsgMetric (tag item) (value item) (value_currency item))
             else ret tt)
          summary tt ;;;
        log INFO (MsgRule 60)
      else ret tt) ;;;
     ret (Some summary))
    (fun e =>
       log ERROR (MsgErrorFetchingAccountSummary e) ;;;
       ret None).

(** [AutoTradingSystem.shutdown], for a system whose connection is set
    (which [initialize] did before [run] is called). *)
Definition shutdown : M G unit :=
  log INFO MsgShuttingDown ;;;
  disconnect ;;;
  log INFO MsgShutdownComplete.

(** The end of [run], after the loop: the settle delay, the second
    snapshot and the summary block. *)
Definition report (trades : list Trade) : M G unit :=
  (if negb (is_nil trades) then
     log INFO MsgWaiting ;;;
     time_sleep 3000
   else ret tt) ;;;
  log INFO MsgAfterTrading ;;;
  fetch_positions ;;;
  fetch_account_summary ;;;
  log INFO (MsgRule 80) ;;;
  log INFO MsgSummaryHeader ;;;
  log INFO (MsgOrdersProcessed (Z.of_nat (List.length trades))) ;;;
  log INFO MsgLogFile ;;;
  log INFO (MsgRule 80).

End Shared.

(* ================================================================== *)
(** * ib_auto_trader.py *)
(* ================================================================== *)

Module Trader.
Section Script.
Context {G : Type} (ib : IB G) (fs : FileSystem) {py : Text}.
Local Open Scope prog_scope.

(** [OrderProcessor.read_orders_from_csv] *)
Definition read_orders_from_csv (csv_file : string) : M G (option DataFrame) :=
  try_except
    (log INFO (MsgReadingOrders csv_file) ;;;
     df <- lift (read_csv fs csv_file) ;;
     log INFO (MsgFoundOrders (len df)) ;;;
     log INFO (MsgColumns (columns df)) ;;;
     ret (Some df))
    (fun e =>
       match e with
       | FileNotFoundError =>
           log ERROR (MsgCsvNotFound csv_file) ;;;
           ret None
       | _ =>
           log ERROR (MsgErrorReadingCsv e) ;;;
           ret None
       end).

(** [OrderProcessor.process_all_orders] *)
Definition process_all_orders (csv_file : string) : M G (list Trade) :=
  df <- read_orders_from_csv csv_file ;;
  match df with
  | None =>
      log WARNING MsgNoOrders ;;;
      ret []
  | Some df =>
      if empty df then
        log WARNING MsgNoOrders ;;;
        ret []
      else process_rows ib df
  end.

(** [AutoTradingSystem.run] *)
Definition run (csv_file : string) : M G unit :=
  try_finally
    (try_except
       (log INFO MsgBeforeTrading ;;;
        fetch_positions ib ;;;
        fetch_account_summary ib ;;;
        log INFO MsgProcessingOrders ;;;
        trades <- process_all_orders csv_file ;;
        report ib trades)
       (fun e => log ERROR (MsgErrorDuringTrading e)))
    (shutdown ib).

End Script.
End Trader.

(* ================================================================== *)
(** * ib_autotrade_realtest.py *)
(* ================================================================== *)

Module RealTest.
Section Script.
Context {G : Type} (ib : IB G) (fs : FileSystem) {py : Text}.
Local Open Scope prog_scope.

(** [find_csv_file]: the working directory, then the script's. *)
Definition find_csv_file (csv_filename : string) : option string :=
  if path_exists fs csv_filename then Some csv_filename
  else
    let csv_path := path_join fs (script_dir fs) csv_filename in
    if path_exists fs csv_path then Some csv_path else None.

(** [OrderProcessor.read_orders_from_csv] *)
Definition read_orders_from_csv (csv_file : string) : M G (option DataFrame) :=
  try_except
    (match find_csv_file csv_file with
     | None =>
         log ERROR (MsgCsvNotFound csv_file) ;;;
         ret None
     | Some csv_path =>
         log INFO (MsgReadingOrders csv_path) ;;;
         df <- lift (read_csv fs csv_path) ;;
         log INFO (MsgFoundOrders (len df)) ;;;
         log INFO (MsgColumns (columns df)) ;;;
         ret (Some df)
     end)
    (fun e =>
       log ERROR (MsgErrorReadingCsv e) ;;;
       ret None).

(** [OrderProcessor.process_all_orders] *)
Definition process_all_orders (csv_file : string) : M G (list Trade) :=
  df <- read_orders_from_csv csv_file ;;
  match df with
  | None =>
      log WARNING MsgNoOrders ;;;
      ret []
  | Some df =>
      if empty df then
        log WARNING MsgNoOrders ;;;
        ret []
      else process_rows ib df
  end.

(** [AutoTradingSystem.run], given the frame the preview read. *)
Definition run (csv_file : string) (df : option DataFrame) : M G unit :=
  try_finally
    (try_except
       (log INFO MsgBeforeTrading ;;;
        fetch_positions ib ;;;
        fetch_account_summary ib ;;;
        log INFO MsgProcessingOrders ;;;
        trades <- match df with
                  | None =>
                      log WARNING MsgNoOrders ;;;
                      ret []
                  | Some df =>
                      if empty df then
                        log WARNING MsgNoOrders ;;;
                        ret []
                      else process_rows ib df
                  end ;;
        report ib trades)
       (fun e => log ERROR (MsgErrorDuringTrading e)))
    (shutdown ib).

End Script.
End RealTest.

(* ================================================================== *)
(** * Vocabulary of the properties *)
(* ================================================================== *)

(** What [place_order] logs before it calls the gateway. *)
Definition placing_lines (o : Order) (sym : cell) : list event :=
  [Log INFO (MsgRule 60);
   Log INFO (MsgPlacing (action o));
   Log INFO (MsgSymbol sym);
   Log INFO (MsgQuantity (totalQuantity o));
   Log INFO (MsgOrderType (orderType o))]
  ++ (if (orderType o =? "LMT")%string
      then [Log INFO (MsgLimitPrice (lmtPrice o))]
      else [])
  ++ [Log INFO (MsgRule 60)].

(** A statement returns normally. *)
Definition returns {G A} (m : M G A) (g : G) (a : A) (g' : G) (tr : list event)
  : Prop :=
  m g = (Ok a, g', tr).

(** An event that is a log line: no call of the gateway, no pause. *)
Definition is_log (e : event) : Prop := exists lvl m, e = Log lvl m.

(** An event that is no placement request, no warning and no line that
    reports a number of orders. *)
Definition background (e : event) : Prop :=
  placement_of e = None /\ logged_at WARNING e = None /\ count_of e = None.

(** Splits a goal [Forall background tr] along the structure of [tr]. *)
Ltac background_list :=
  repeat first [ apply Forall_nil
               | apply Forall_cons; [repeat split; reflexivity|]
               | apply Forall_app; split ].




(** The elements of [l] at the positions [p], in the order of [p]; a
    permutation of [l] when [p] is one of its positions. *)
Definition reorder {A} (p : list nat) (l : list A) : list A :=
  flat_map (fun i => match nth_error l i with Some x => [x] | None => [] end) p.

(** A label that [idx + 1] is defined on. *)
Definition is_number (idx : label) : bool :=
  match plus_one idx with Ok _ => true | Raise _ => false end.

(** The items a loop over [iterrows] gets through: those before the first
    whose label is no number. *)
Fixpoint reached {A} (items : list (label * A)) : list (label * A) :=
  match items with
  | [] => []
  | item :: items' =>
      if is_number (fst item) then item :: reached items' else []
  end.

(** Every label is a number. *)
Definition all_numbers {A} (items : list (label * A)) : bool :=
  forallb (fun item => is_number (fst item)) items.

(** Every index label of the frame is a number, as the labels of the
    default index are. *)
Definition numbered (df : DataFrame) : bool := all_numbers (lines df).

(** The rows the loop of the frame gets through. *)
Definition processed (df : DataFrame) : list Series :=
  map snd (reached (iterrows df)).

(** The frame the reader of each script returns for a file name, if any. *)
Definition trader_frame (fs : FileSystem) (file : string) : option DataFrame :=
  match read_csv fs file with
  | Ok df => Some df
  | Raise _ => None
  end.

Definition realtest_frame (fs : FileSystem) (file : string)
  : option DataFrame :=
  match RealTest.find_csv_file fs file with
  | Some path =>
      match read_csv fs path with
      | Ok df => Some df
      | Raise _ => None
      end
  | None => None
  end.

(** What both scripts do with the frame they hold, if any: the statements
    of [process_all_orders] after the reading, which [run] of the second
    script repeats. *)
Definition process_frame {G} (ib : IB G) {py : Text} (df : option DataFrame)
  : M G (list Trade) :=
  match df with
  | None => bind (log WARNING MsgNoOrders) (fun _ => ret [])
  | Some df =>
      if empty df
      then bind (log WARNING MsgNoOrders) (fun _ => ret [])
      else process_rows ib df
  end.

(** The shape of both [run]s around the statement that yields the trades. *)
Definition workflow {G} (ib : IB G) (orders : M G (list Trade)) : M G unit :=
  try_finally
    (try_except
       (bind (log INFO MsgBeforeTrading) (fun _ =>
        bind (fetch_positions ib) (fun _ =>
        bind (fetch_account_summary ib) (fun _ =>
        bind (log INFO MsgProcessingOrders) (fun _ =>
        bind orders (fun trades => report ib trades))))))
       (fun e => log ERROR (MsgErrorDuringTrading e)))
    (shutdown ib).

(** The frame held is iterated and one of its labels is no number: the
    loop stops there. *)
Definition stops (df : option DataFrame) : bool :=
  match df with
  | Some d => (negb (empty d) && negb (numbered d))%bool
  | None => false
  end.

(** The rows of the frame held that the loop gets through: none when
    there is no frame or the frame is empty, which is then not iterated. *)
Definition taken (df : option DataFrame) : list Series :=
  match df with
  | Some d => if empty d then [] else processed d
  | None => []
  end.

(** A line that reports a number of trades that is not zero in the summary
    block. *)
Definition positive_report (m : message) : bool :=
  match m with
  | MsgOrdersProcessed k => 0 <? k
  | _ => false
  end.

(** The row of the position table that [fetch_positions] logs for [pos]. *)
Definition position_row (pos : Position) : message :=
  MsgPositionRow (symbol (contract pos)) (position pos) (avgCost pos)
    (fmul (position pos) (avgCost pos))
    (fmul (position pos) (fsub (avgCost pos) (avgCost pos))).

Definition position_row_of (e : event) : option message :=
  match e with
  | Log INFO (MsgPositionRow s q a v p) => Some (MsgPositionRow s q a v p)
  | _ => None
  end.

(** The gateway answers every placement, and the wait after it. *)
Definition accepts {G} (ib : IB G) : Prop :=
  (forall c o g, exists t g', ib_placeOrder ib c o g = (Ok t, g'))
  /\ (forall s g, exists u g', ib_sleep ib s g = (Ok u, g')).

(* ================================================================== *)
(** * Example environments and batches *)
(* ================================================================== *)

(** A gateway that accepts every request; its state is the next order
    identifier. *)
Definition accepting_ib : IB Z := {|
  ib_connect := fun _ _ _ g => (Ok tt, g);
  ib_managedAccounts := fun g => (Ok ["DU1234567"], g);
  ib_disconnect := fun g => (Ok tt, g);
  ib_placeOrder := fun c o g =>
    (Ok {| trade_contract := c; trade_order := o;
           orderId := g; status := "PreSubmitted" |}, g + 1);
  ib_sleep := fun _ g => (Ok tt, g);
  ib_positions := fun g => (Ok [], g);
  ib_accountSummary := fun g => (Ok [], g)
|}.

(** A gateway whose placement raises on every request; its state counts
    the requests it has seen. *)
Definition refusing_ib : IB Z := {|
  ib_connect := fun _ _ _ g => (Ok tt, g);
  ib_managedAccounts := fun g => (Ok ["U7654321"], g);
  ib_disconnect := fun g => (Ok tt, g);
  ib_placeOrder := fun _ _ g => (Raise (OtherError "order rejected"), g + 1);
  ib_sleep := fun _ g => (Ok tt, g);
  ib_positions := fun g => (Ok [], g);
  ib_accountSummary := fun g => (Ok [], g)
|}.

Definition required_columns : list string :=
  ["Symbol"; "Action"; "Quantity"; "OrderType"].

Definition buy_100_aapl : list cell :=
  [CStr "AAPL"; CStr "BUY"; CInt 100; CStr "MKT"].
Definition sell_2000_msft : list cell :=
  [CStr "MSFT"; CStr "SELL"; CInt 2000; CStr "MKT"].
Definition sell_50_ibm : list cell :=
  [CStr "IBM"; CStr "SELL"; CInt 50; CStr "MKT"].

(** [BUY 100 AAPL MKT, SELL 2000 MSFT MKT] *)
Definition example_batch : DataFrame :=
  frame required_columns [buy_100_aapl; sell_2000_msft].

(** The oversize instruction alone. *)
Definition oversize_batch : DataFrame :=
  frame required_columns [sell_2000_msft].

(** The contract and the order that [BUY 100 AAPL MKT] translates to. *)
Definition aapl_contract : Contract :=
  {| symbol := CStr "AAPL"; exchange := "SMART"; currency := CStr "USD" |}.
Definition aapl_order : Order :=
  {| action := "BUY"; totalQuantity := 100; orderType := "MKT";
     lmtPrice := None; auxPrice := None; tif := CStr "DAY"; account := None |}.

(** Those of [SELL 50 IBM MKT]. *)
Definition ibm_contract : Contract :=
  {| symbol := CStr "IBM"; exchange := "SMART"; currency := CStr "USD" |}.
Definition ibm_order : Order :=
  {| action := "SELL"; totalQuantity := 50; orderType := "MKT";
     lmtPrice := None; auxPrice := None; tif := CStr "DAY"; account := None |}.

(** The reading of ASCII text defined above. *)
#[global] Instance ascii_text : Text := {|
  int_of_text := int_of_str;
  float_of_text := float_of_str;
  strip_text := str_strip
|}.

(** [os.path.join] of two parts on a POSIX system. *)
Definition posix_join (dir name : string) : string :=
  match name, rev (list_ascii_of_string dir) with
  | String "/" _, _ => name
  | _, [] => name
  | _, "/"%char :: _ => (dir ++ name)%string
  | _, _ => (dir ++ "/" ++ name)%string
  end.

(** A file system holding one frame under [CSV_FILE]. *)
Definition fs_with (df : DataFrame) : FileSystem := {|
  read_csv := fun name =>
    if (name =? CSV_FILE)%string then Ok df else Raise FileNotFoundError;
  path_exists := fun name => (name =? CSV_FILE)%string;
  path_join := posix_join;
  script_dir := "."
|}.

(** A file system without the file. *)
Definition fs_without : FileSystem := {|
  read_csv := fun _ => Raise FileNotFoundError;
  path_exists := fun _ => false;
  path_join := posix_join;
  script_dir := "."
|}.

(** A quantity column read as text: the first quantity is no number, the
    second is negative. *)
Definition bad_quantity_batch : DataFrame :=
  frame required_columns
    [ [CStr "AAPL"; CStr "BUY"; CStr "abc"; CStr "MKT"];
      [CStr "MSFT"; CStr "SELL"; CStr "-5"; CStr "MKT"] ].

(** A file whose data lines have one field more than the header; the
    first field of each is taken as its index label, a text.

<<
    Symbol,Action,Quantity,OrderType
    x,AAPL,BUY,100,MKT
    y,IBM,SELL,50,MKT
>> *)
Definition text_labelled_batch : DataFrame := {|
  columns := required_columns;
  lines := [ (Label (CStr "x"), buy_100_aapl);
             (Label (CStr "y"), sell_50_ibm) ]
|}.

(** Such a file whose first label is empty (it is read as NaN, a float)
    and whose second is text.

<<
    Symbol,Action,Quantity,OrderType
    ,AAPL,BUY,100,MKT
    x,IBM,SELL,50,MKT
>> *)
Definition labelled_batch : DataFrame := {|
  columns := required_columns;
  lines := [ (Label (CFloat S754_nan), buy_100_aapl);
             (Label (CStr "x"), sell_50_ibm) ]
|}.

(** The same file with its two data lines exchanged. *)
Definition labelled_batch_swapped : DataFrame := {|
  columns := required_columns;
  lines := [ (Label (CStr "x"), sell_50_ibm);
             (Label (CFloat S754_nan), buy_100_aapl) ]
|}.

Definition msft_contract : Contract :=
  {| symbol := CStr "MSFT"; exchange := "SMART"; currency := CStr "USD" |}.

(** A limit order at the size limit whose limit price cell is empty. *)
Definition limit_without_price : Series :=
  [("Symbol", CStr "AAPL"); ("Action", CStr "buy"); ("Quantity", CInt 1000);
   ("OrderType", CStr "lmt"); ("LmtPrice", CFloat S754_nan)].

(** A gateway that holds two positions; the second average cost is
    [0.1]. *)
Definition two_positions : list Position :=
  [ {| contract := aapl_contract;
       position := float_of_Z 100;
       avgCost := float_of_Z 150 |};
    {| contract := msft_contract;
       position := S754_finite true 5 0;
       avgCost := S754_finite false 7205759403792794 (-56) |} ].

Definition holding_ib : IB Z := {|
  ib_connect := fun _ _ _ g => (Ok tt, g);
  ib_managedAccounts := fun g => (Ok ["DU1234567"], g);
  ib_disconnect := fun g => (Ok tt, g);
  ib_placeOrder := fun c o g =>
    (Ok {| trade_contract := c; trade_order := o;
           orderId := g; status := "PreSubmitted" |}, g + 1);
  ib_sleep := fun _ g => (Ok tt, g);
  ib_positions := fun g => (Ok two_positions, g);
  ib_accountSummary := fun g => (Ok [], g)
|}.

Definition default_manager : IBConnectionManager :=
  {| host := IB_HOST; port := IB_PORT; client_id := CLIENT_ID |}.

(* ================================================================== *)
(** * The entry points: console, banners and the preview *)
(* ================================================================== *)

(** What [print] writes on the console. *)
Inductive printed :=
| PrintRule (width : Z)
| PrintTitle
| PrintMode (paper : bool)
| PrintCsvFile (file : string)
| PrintConnection (host : string) (port : Z)
| PrintCancelled.

(** The log lines of [initialize], [display_orders_preview] and [main],
    one constructor per logging statement. *)
Inductive entry_message :=
| MsgTitle
| MsgSafetyMode
| MsgLiveMode
| MsgFailedToInitialize
| MsgSessionStarted
| MsgCancelled
| MsgNoTrades
| MsgTradesToProcess (n : Z)
| MsgTradeLine (i : cell) (act quantity sym order_type : cell)
    (limit : option cell).

(** The events of an entry point: those of the code it calls, its own log
    lines, what it prints, and the question it asks. *)
Inductive entry_event :=
| Core (e : event)
| EntryLog (lvl : level) (m : entry_message)
| Print (p : printed)
| Input.

(** A statement of an entry point. *)
Definition E (G A : Type) : Type := G -> result A * G * list entry_event.

Definition entry_trace {G A} (x : result A * G * list entry_event)
  : list entry_event :=
  snd x.

Section EntryStatements.
Context {G : Type}.

Definition eret {A} (a : A) : E G A := fun g => (Ok a, g, []).

Definition ebind {A B} (m : E G A) (k : A -> E G B) : E G B :=
  fun g =>
    match m g with
    | (Ok a, g1, tr1) =>
        let '(r, g2, tr2) := k a g1 in (r, g2, tr1 ++ tr2)
    | (Raise e, g1, tr1) => (Raise e, g1, tr1)
    end.

(** A call into the code modelled above. *)
Definition core {A} (m : M G A) : E G A :=
  fun g => let '(r, g1, tr) := m g in (r, g1, map Core tr).

Definition entry_log (lvl : level) (m : entry_message) : E G unit :=
  fun g => (Ok tt, g, [EntryLog lvl m]).

(** [print] *)
Definition print (p : printed) : E G unit :=
  fun g => (Ok tt, g, [Print p]).

(** [input(prompt)], the user typing [answer]; the end of the input, like
    an interrupt, is outside this model. *)
Definition input (answer : string) : E G string :=
  fun g => (Ok answer, g, [Input]).

Fixpoint efor_each {A S} (body : A -> S -> E G S) (xs : list A) (s : S)
  : E G S :=
  match xs with
  | [] => eret s
  | x :: xs' => ebind (body x s) (efor_each body xs')
  end.

End EntryStatements.

Declare Scope entry_scope.
Delimit Scope entry_scope with entry.
Notation "x <- m ;; k" := (ebind m (fun x => k))
  (at level 61, m at next level, right associativity) : entry_scope.
Notation "m ;;; k" := (ebind m (fun _ => k))
  (at level 61, right associativity) : entry_scope.

(** The events of the called code within those of an entry point. *)
Fixpoint core_events (tr : list entry_event) : list event :=
  match tr with
  | [] => []
  | Core e :: tr' => e :: core_events tr'
  | _ :: tr' => core_events tr'
  end.

(** [order_type == 'LMT'] on a cell: text equal to the word, as it is. *)
Definition is_LMT (order_type : cell) : bool :=
  match order_type with
  | CStr s => (s =? "LMT")%string
  | _ => false
  end.

(** The line [display_orders_preview] logs for a row, [i] being the
    value of [idx + 1]. *)
Definition trade_line (i : cell) (row : Series) : entry_message :=
  let act := get_default row "Action" (CStr "N/A") in
  let quantity := get_default row "Quantity" (CStr "N/A") in
  let sym := get_default row "Symbol" (CStr "N/A") in
  let order_type := get_default row "OrderType" (CStr "MKT") in
  MsgTradeLine i act quantity sym order_type
    (if (is_LMT order_type && notna (get row "LmtPrice"))%bool
     then get row "LmtPrice"
     else None).

Section EntryPoints.
Context {G : Type} (ib : IB G) (fs : FileSystem) {py : Text}.
Local Open Scope entry_scope.

(** [AutoTradingSystem.initialize], the same in both scripts. *)
Definition initialize : E G bool :=
  core (log INFO (MsgRule 80)) ;;;
  entry_log INFO MsgTitle ;;;
  core (log INFO (MsgRule 80)) ;;;
  (if PAPER_TRADING_ONLY
   then entry_log INFO MsgSafetyMode
   else entry_log WARNING MsgLiveMode) ;;;
  connected <- core (connect ib {| host := IB_HOST; port := IB_PORT;
                                   client_id := CLIENT_ID |}) ;;
  if negb connected then eret false
  else eret true.

(** [OrderProcessor.display_orders_preview] of the second script; the
    line of a row formats [idx + 1], and no [try] surrounds it. *)
Definition display_orders_preview (df : option DataFrame) : E G unit :=
  match df with
  | None => entry_log INFO MsgNoTrades
  | Some df =>
      if empty df then entry_log INFO MsgNoTrades
      else
        core (log INFO (MsgRule 80)) ;;;
        entry_log INFO (MsgTradesToProcess (len df)) ;;;
        core (log INFO (MsgRule 80)) ;;;
        efor_each
          (fun (item : label * Series) (_ : unit) =>
             let '(idx, row) := item in
             i <- core (lift (plus_one idx)) ;;
             entry_log INFO (trade_line i row))
          (iterrows df) tt ;;;
        core (log INFO (MsgRule 80))
  end.

(** [AutoTradingSystem.preview_trades] of the second script *)
Definition preview_trades (csv_file : string) : E G (option DataFrame) :=
  df <- core (RealTest.read_orders_from_csv fs csv_file) ;;
  display_orders_preview df ;;;
  eret df.

(** [main] of [ib_auto_trader.py] *)
Definition trader_main (answer : string) : E G unit :=
  print (PrintRule 80) ;;;
  print PrintTitle ;;;
  print (PrintRule 80) ;;;
  print (PrintMode PAPER_TRADING_ONLY) ;;;
  print (PrintCsvFile CSV_FILE) ;;;
  print (PrintConnection IB_HOST IB_PORT) ;;;
  print (PrintRule 80) ;;;
  typed <- input answer ;;
  let response := lower (strip_text typed) in
  if negb (response =? "yes")%string then
    print PrintCancelled
  else
    initialized <- initialize ;;
    if initialized then core (Trader.run ib fs CSV_FILE)
    else entry_log ERROR MsgFailedToInitialize.

(** [main] of [ib_autotrade_realtest.py] *)
Definition realtest_main (answer : string) : E G unit :=
  core (log INFO (MsgRule 80)) ;;;
  entry_log INFO MsgSessionStarted ;;;
  core (log INFO (MsgRule 80)) ;;;
  initialized <- initialize ;;
  if negb initialized then
    entry_log ERROR MsgFailedToInitialize
  else
    df <- preview_trades CSV_FILE ;;
    print (PrintRule 80) ;;;
    typed <- input answer ;;
    let response := lower (strip_text typed) in
    print (PrintRule 80) ;;;
    if negb (response =? "yes")%string then
      entry_log INFO MsgCancelled ;;;
      core (shutdown ib)
    else core (RealTest.run ib CSV_FILE df).

End EntryPoints.

(* ================================================================== *)
(** * More vocabulary: calls, pauses and metrics of a trace *)
(* ================================================================== *)

Definition gateway_of (e : event) : option gateway_call :=
  match e with
  | Gateway c => Some c
  | _ => None
  end.

(** The calls of gateway methods in a trace, in order. *)
Definition gateway_calls : list event -> list gateway_call := pick gateway_of.

Definition pause_of (e : event) : option Z :=
  match e with
  | TimeSleep ms => Some ms
  | _ => None
  end.

(** The pauses of [time.sleep] in a trace, in milliseconds. *)
Definition pauses : list event -> list Z := pick pause_of.

Definition metric_of (e : event) : option (string * string * string) :=
  match e with
  | Log INFO (MsgMetric name val cur) => Some (name, val, cur)
  | _ => None
  end.

(** What [fetch_account_summary] logs for an item: a line for a key
    metric, nothing for another tag. *)
Definition metric_line (item : AccountValue) : list event :=
  if existsb (String.eqb (tag item)) key_metrics
  then [Log INFO (MsgMetric (tag item) (value item) (value_currency item))]
  else [].

(** The lines of the rows in what the preview logged, in order. *)
Fixpoint preview_lines (tr : list entry_event) : list entry_message :=
  match tr with
  | [] => []
  | EntryLog INFO (MsgTradeLine i a q s t l) :: tr' =>
      MsgTradeLine i a q s t l :: preview_lines tr'
  | _ :: tr' => preview_lines tr'
  end.

(** The lines the preview logs for the items it gets through. *)
Definition row_lines (items : list (label * Series)) : list entry_message :=
  flat_map
    (fun item =>
       match plus_one (fst item) with
       | Ok i => [trade_line i (snd item)]
       | Raise _ => []
       end)
    (reached items).

(** The limit price a preview line shows, if it shows one. *)
Definition line_limit (m : entry_message) : option cell :=
  match m with
  | MsgTradeLine _ _ _ _ _ limit => limit
  | _ => None
  end.

(** The answer as [main] compares it: [input(...).strip().lower()]. *)
Definition response_of {py : Text} (answer : string) : string :=
  lower (strip_text answer).

(** A call of the placement loop: a placement or the wait after it. *)
Definition order_call (c : gateway_call) : Prop :=
  match c with
  | CallPlaceOrder _ _ | CallSleep _ => True
  | _ => False
  end.

(** A file system where the working directory holds the file. *)
Definition fs_here (df : DataFrame) : FileSystem := {|
  read_csv := fun name =>
    if (name =? CSV_FILE)%string then Ok df else Raise FileNotFoundError;
  path_exists := fun name => (name =? CSV_FILE)%string;
  path_join := posix_join;
  script_dir := "/opt/trader"
|}.

(** A gateway that cannot be reached. *)
Definition unreachable_ib : IB Z := {|
  ib_connect := fun _ _ _ g => (Raise (OtherError "connection refused"), g + 1);
  ib_managedAccounts := fun g => (Ok [], g);
  ib_disconnect := fun g => (Ok tt, g);
  ib_placeOrder := fun _ _ g => (Raise (OtherError "not connected"), g);
  ib_sleep := fun _ g => (Ok tt, g);
  ib_positions := fun g => (Raise (OtherError "not connected"), g);
  ib_accountSummary := fun g => (Raise (OtherError "not connected"), g)
|}.

(** A stop-limit row with both prices, and a limit row typed in lower
    case. *)
Definition stop_limit_row : Series :=
  [("Symbol", CStr "AAPL"); ("Action", CStr "sell"); ("Quantity", CInt 10);
   ("OrderType", CStr "stp lmt"); ("LmtPrice", CFloat (float_of_Z 99));
   ("AuxPrice", CFloat (float_of_Z 100)); ("Exchange", CStr "SMART/NYSE")].

Definition lower_case_limit_batch : DataFrame :=
  frame ["Symbol"; "Action"; "Quantity"; "OrderType"; "LmtPrice"]
    [ [CStr "AAPL"; CStr "buy"; CInt 10; CStr "lmt";
       CFloat (float_of_Z 150)] ].

(* ================================================================== *)
(** * Traces and statements *)
(* ================================================================== *)

Section Selectors.
Context {A : Type} (f : event -> option A).

Lemma pick_app (tr1 tr2 : list event) :
  pick f (tr1 ++ tr2) = pick f tr1 ++ pick f tr2.
Proof.
  induction tr1 as [|e tr1 IH]; simpl; [reflexivity|].
  destruct (f e); simpl; now rewrite IH.
Qed.

Lemma pick_nothing (tr : list event) :
  Forall (fun e => f e = None) tr -> pick f tr = [].
Proof.
  induction 1 as [|e tr He _ IH]; simpl; [reflexivity|].
  now rewrite He.
Qed.
End Selectors.

Lemma background_placement (tr : list event) :
  Forall background tr -> placement_calls tr = [].
Proof.
  intros H. apply pick_nothing.
  eapply Forall_impl; [|exact H]. now intros e (? & _).
Qed.

Lemma background_warnings (tr : list event) :
  Forall background tr -> logged WARNING tr = [].
Proof.
  intros H. apply pick_nothing.
  eapply Forall_impl; [|exact H]. now intros e (_ & ? & _).
Qed.

Lemma background_counts (tr : list event) :
  Forall background tr -> count_lines tr = [].
Proof.
  intros H. apply pick_nothing.
  eapply Forall_impl; [|exact H]. now intros e (_ & _ & ?).
Qed.

Section StatementFacts.
Context {G : Type}.

Lemma bind_returns {A B} (m : M G A) (k : A -> M G B) g a g1 tr1 :
  returns m g a g1 tr1 ->
  bind m k g = (let '(r, g2, tr2) := k a g1 in (r, g2, tr1 ++ tr2)).
Proof. unfold returns, bind. now intros ->. Qed.

Lemma returns_bind {A B} (m : M G A) (k : A -> M G B) g a g1 tr1 b g2 tr2 :
  returns m g a g1 tr1 ->
  returns (k a) g1 b g2 tr2 ->
  returns (bind m k) g b g2 (tr1 ++ tr2).
Proof.
  intros Hm Hk. unfold returns. rewrite (bind_returns _ _ _ _ _ _ Hm).
  now rewrite Hk.
Qed.

Lemma returns_log lvl m (g : G) : returns (log lvl m) g tt g [Log lvl m].
Proof. reflexivity. Qed.

Lemma returns_ret {A} (a : A) (g : G) : returns (ret a) g a g [].
Proof. reflexivity. Qed.

Lemma returns_try_except {A} (body : M G A) handler g a g1 tr :
  returns body g a g1 tr -> returns (try_except body handler) g a g1 tr.
Proof. unfold returns, try_except. now intros ->. Qed.

Lemma returns_try_finally {A} (body : M G A) cleanup g a g1 tr1 u g2 tr2 :
  returns body g a g1 tr1 ->
  returns cleanup g1 u g2 tr2 ->
  returns (try_finally body cleanup) g a g2 (tr1 ++ tr2).
Proof. unfold returns, try_finally. now intros -> ->. Qed.

Lemma bind_assoc {A B C} (m : M G A) (k : A -> M G B) (h : B -> M G C) g :
  bind (bind m k) h g = bind m (fun a => bind (k a) h) g.
Proof.
  unfold bind. destruct (m g) as [[[a|e] g1] tr1]; [|reflexivity].
  destruct (k a g1) as [[[b|e] g2] tr2]; [|reflexivity].
  destruct (h b g2) as [[r g3] tr3]. now rewrite app_assoc.
Qed.

Lemma bind_ext {A B} (m : M G A) (k k' : A -> M G B) g :
  (forall a g1, k a g1 = k' a g1) -> bind m k g = bind m k' g.
Proof.
  intros H. unfold bind. destruct (m g) as [[[a|e] g1] tr1]; [|reflexivity].
  now rewrite H.
Qed.

Lemma bind_ret_l {A B} (a : A) (k : A -> M G B) g : bind (ret a) k g = k a g.
Proof. unfold bind, ret. now destruct (k a g) as [[r g2] tr2]. Qed.

(** The loop over a concatenation is the two loops in sequence. *)
Lemma for_each_app {A S} (body : A -> S -> M G S) xs ys s g :
  for_each body (xs ++ ys) s g
  = bind (for_each body xs s) (for_each body ys) g.
Proof.
  revert s g. induction xs as [|x xs IH]; intros s g; simpl.
  - now rewrite bind_ret_l.
  - rewrite bind_assoc. apply bind_ext. intros; apply IH.
Qed.

(** A loop whose body always returns, returns. *)
Lemma for_each_Forall {A S} (P : event -> Prop) (body : A -> S -> M G S) :
  (forall x s g, exists s' g' tr,
      returns (body x s) g s' g' tr /\ Forall P tr) ->
  forall xs s g, exists s' g' tr,
    returns (for_each body xs s) g s' g' tr /\ Forall P tr.
Proof.
  intros Hbody. induction xs as [|x xs IH]; intros s g; simpl.
  - exists s, g, []. now split.
  - destruct (Hbody x s g) as (s1 & g1 & tr1 & H1 & P1).
    destruct (IH s1 g1) as (s2 & g2 & tr2 & H2 & P2).
    exists s2, g2, (tr1 ++ tr2). split.
    + eapply returns_bind; eauto.
    + apply Forall_app; now split.
Qed.

(** A statement that returns, then any outcome of what follows. *)
Lemma bind_run {A B} (m : M G A) (k : A -> M G B) g a g1 tr1 r g2 tr2 :
  m g = (Ok a, g1, tr1) ->
  k a g1 = (r, g2, tr2) ->
  bind m k g = (r, g2, tr1 ++ tr2).
Proof. unfold bind. now intros -> ->. Qed.

(** A pure computation, then what follows. *)
Lemma lift_bind {A B} (r : result A) (k : A -> M G B) g :
  bind (lift r) k g
  = match r with
    | Ok a => k a g
    | Raise e => (Raise e, g, [])
    end.
Proof.
  unfold bind, lift. destruct r as [a|e]; [|reflexivity].
  now destruct (k a g) as [[r g2] tr2].
Qed.

Lemma try_except_run {A} (body : M G A) handler g e g1 tr1 r g2 tr2 :
  body g = (Raise e, g1, tr1) ->
  handler e g1 = (r, g2, tr2) ->
  try_except body handler g = (r, g2, tr1 ++ tr2).
Proof. unfold try_except. now intros -> ->. Qed.

End StatementFacts.

(* ================================================================== *)
(** * Rows *)
(* ================================================================== *)

Lemma getitem_get row k :
  notna (get row k) = true -> exists v, getitem row k = Ok v /\ get row k = Some v.
Proof.
  unfold get, getitem. destruct (lookup k row) as [v|]; [|discriminate].
  intros _. now exists v.
Qed.

(** [row['Symbol']] after a contract was created is the contract's symbol. *)
Lemma contract_symbol row c :
  contract_of_row row = Ok c -> getitem row "Symbol" = Ok (symbol c).
Proof.
  unfold contract_of_row, rbind.
  destruct (getitem row "Symbol") as [sym|e]; [|discriminate].
  destruct (notna (get row "Exchange")).
  - destruct (getitem row "Exchange") as [x|]; [|discriminate].
    destruct (cell_split_first x); [|discriminate].
    now intros [= <-].
  - now intros [= <-].
Qed.

(** The guard compares the quantity with the limit and nothing else. *)
Lemma order_of_row_guard {py : Text} row a q t :
  getitem row "Action" = Ok (CStr a) ->
  quantity_of row = Ok q ->
  get_default row "OrderType" (CStr "MKT") = CStr t ->
  order_of_row row =
  if q >? MAX_ORDER_SIZE then Ok (TooLarge q)
  else rbind (fill_order row (upper a) q (upper t)) (fun o => Ok (Built o)).
Proof.
  intros Ha Hq Ht. unfold order_of_row. rewrite Ha, Hq, Ht. reflexivity.
Qed.

Lemma order_too_large {py : Text} row q :
  order_of_row row = Ok (TooLarge q) ->
  quantity_of row = Ok q /\ q > MAX_ORDER_SIZE.
Proof.
  unfold order_of_row, rbind.
  destruct (getitem row "Action") as [a|]; [|discriminate].
  destruct (cell_upper a); [|discriminate].
  destruct (quantity_of row) as [q'|]; [|discriminate].
  destruct (cell_upper _); [|discriminate].
  destruct (q' >? MAX_ORDER_SIZE) eqn:Hgt.
  - intros [= <-]. split; [reflexivity|]. now apply Z.gtb_gt.
  - destruct (fill_order _ _ _ _); discriminate.
Qed.

Lemma order_built {py : Text} row o :
  order_of_row row = Ok (Built o) ->
  quantity_of row = Ok (totalQuantity o) /\ totalQuantity o <= MAX_ORDER_SIZE.
Proof.
  unfold order_of_row, rbind.
  destruct (getitem row "Action") as [a|]; [|discriminate].
  destruct (cell_upper a) as [act|]; [|discriminate].
  destruct (quantity_of row) as [q|]; [|discriminate].
  destruct (cell_upper _) as [ot|]; [|discriminate].
  destruct (q >? MAX_ORDER_SIZE) eqn:Hgt; [discriminate|].
  destruct (fill_order row act q ot) as [o'|] eqn:Hfill; [|discriminate].
  intros [= <-].
  assert (totalQuantity o' = q) as ->.
  { unfold fill_order, rbind in Hfill.
    repeat match type of Hfill with
           | context [match ?x with _ => _ end] => destruct x; try discriminate
           end; now injection Hfill as <-. }
  split; [reflexivity|]. rewrite Z.gtb_ltb in Hgt. now apply Z.ltb_ge.
Qed.

(** A row whose quantity exceeds the limit leads to no request. *)
Lemma oversize_no_request {py : Text} row q :
  quantity_of row = Ok q -> q > MAX_ORDER_SIZE -> row_request row = [].
Proof.
  intros Hq Hgt. unfold row_request.
  destruct (contract_of_row row); [|reflexivity].
  destruct (order_of_row row) as [[q'|o]|] eqn:Ho; try reflexivity.
  apply order_built in Ho. destruct Ho as (Hq' & Hle).
  rewrite Hq in Hq'. injection Hq' as Heq. lia.
Qed.

(* ================================================================== *)
(** * Index labels *)
(* ================================================================== *)

(** [idx + 1] raises nothing but a [TypeError]. *)
Lemma plus_one_raises idx e : plus_one idx = Raise e -> e = TypeError.
Proof.
  destruct idx as [[s|z|f|b]|cs]; simpl; intros H;
    try discriminate; now injection H.
Qed.

Lemma is_number_ok idx i : plus_one idx = Ok i -> is_number idx = true.
Proof. unfold is_number. now intros ->. Qed.

Lemma is_number_raise idx e : plus_one idx = Raise e -> is_number idx = false.
Proof. unfold is_number. now intros ->. Qed.

Lemma reached_all {A} (items : list (label * A)) :
  all_numbers items = true -> reached items = items.
Proof.
  induction items as [|item items IH]; simpl; [reflexivity|].
  destruct (is_number (fst item)); [|discriminate].
  intros H. now rewrite (IH H).
Qed.

Lemma all_numbers_app {A} (xs ys : list (label * A)) :
  all_numbers (xs ++ ys) = (all_numbers xs && all_numbers ys)%bool.
Proof. apply forallb_app. Qed.

Lemma iterrows_snd df : map snd (iterrows df) = rows df.
Proof. unfold iterrows, rows, values. now rewrite !map_map. Qed.

Lemma iterrows_numbered df : all_numbers (iterrows df) = numbered df.
Proof.
  unfold iterrows, numbered, all_numbers.
  induction (lines df) as [|l ls IH]; simpl; [reflexivity|]. now rewrite IH.
Qed.

(** With numbers for labels the loop gets through every row. *)
Lemma processed_numbered df : numbered df = true -> processed df = rows df.
Proof.
  intros H. unfold processed.
  rewrite reached_all by now rewrite iterrows_numbered.
  apply iterrows_snd.
Qed.

(** The labels of the default index are numbers. *)
Lemma frame_numbered cols vs : numbered (frame cols vs) = true.
Proof.
  unfold numbered, frame, all_numbers. simpl. generalize 0.
  induction vs as [|v vs IH]; intros i; simpl; [reflexivity|]. apply IH.
Qed.

Lemma empty_no_request {py : Text} df :
  empty df = true -> flat_map row_request (processed df) = [].
Proof.
  unfold empty, processed, iterrows. destruct (columns df) as [|k ks].
  - intros _. induction (lines df) as [|l ls IH]; [reflexivity|].
    simpl. destruct (is_number (fst l)); [exact IH|reflexivity].
  - destruct (lines df); [reflexivity|discriminate].
Qed.

(** The requests of the rows taken are those of the rows the loop would
    get through: an empty frame has no row that leads to a request. *)
Lemma taken_requests {py : Text} d :
  flat_map row_request (taken (Some d)) = flat_map row_request (processed d).
Proof.
  unfold taken. destruct (empty d) eqn:He; [|reflexivity].
  now rewrite (empty_no_request _ He).
Qed.

(* ================================================================== *)
(** * Creation, placement and the loop *)
(* ================================================================== *)

Lemma pick_logs {A} (f : event -> option A) (tr : list event) :
  (forall lvl m, f (Log lvl m) = None) -> Forall is_log tr -> pick f tr = [].
Proof.
  intros Hf H. apply pick_nothing.
  eapply Forall_impl; [|exact H]. intros e (lvl & m & ->). apply Hf.
Qed.

Lemma logs_no_calls (tr : list event) :
  Forall is_log tr -> gateway_calls tr = [] /\ pauses tr = [].
Proof.
  intros H. split; apply pick_logs; auto.
Qed.

Lemma is_log_intro lvl m : is_log (Log lvl m).
Proof. now exists lvl, m. Qed.

(** Splits a goal [Forall is_log tr] along the structure of [tr]. *)
Ltac log_list :=
  repeat first [ apply Forall_nil
               | apply Forall_cons; [apply is_log_intro|]
               | apply Forall_app; split ].

Lemma placing_lines_logs o sym : Forall is_log (placing_lines o sym).
Proof.
  unfold placing_lines. destruct (orderType o =? "LMT")%string; log_list.
Qed.

Lemma placing_lines_background o sym : Forall background (placing_lines o sym).
Proof.
  unfold placing_lines. destruct (orderType o =? "LMT")%string; background_list.
Qed.

Section LoopFacts.
Context {G : Type} (ib : IB G) {py : Text}.

Lemma create_contract_run row (g : G) :
  create_contract row g =
  match contract_of_row row with
  | Ok c => (Ok (Some c), g, [])
  | Raise e =>
      (Ok None, g,
       [Log ERROR (MsgErrorCreatingContract
                     (get_default row "Symbol" (CStr "UNKNOWN")) e)])
  end.
Proof.
  unfold create_contract, try_except, bind, lift, ret, log.
  now destruct (contract_of_row row).
Qed.

Lemma create_order_run row (g : G) :
  create_order row g =
  match order_of_row row with
  | Ok (Built o) => (Ok (Some o), g, [])
  | Ok (TooLarge q) =>
      (Ok None, g, [Log WARNING (MsgOrderSizeExceeds q MAX_ORDER_SIZE)])
  | Raise e => (Ok None, g, [Log ERROR (MsgErrorCreatingOrder e)])
  end.
Proof.
  unfold create_order, try_except, bind, lift, ret, log.
  now destruct (order_of_row row) as [[q|o]|e].
Qed.

Lemma place_order_run c o sym g :
  place_order ib c o sym g =
  match ib_placeOrder ib c o g with
  | (Raise e, g1) =>
      (Ok None, g1,
       placing_lines o sym
       ++ [Gateway (CallPlaceOrder c o); Log ERROR (MsgErrorPlacing sym e)])
  | (Ok t, g1) =>
      match ib_sleep ib 1 g1 with
      | (Raise e, g2) =>
          (Ok None, g2,
           placing_lines o sym
           ++ [Gateway (CallPlaceOrder c o); Gateway (CallSleep 1);
               Log ERROR (MsgErrorPlacing sym e)])
      | (Ok _, g2) =>
          (Ok (Some t), g2,
           placing_lines o sym
           ++ [Gateway (CallPlaceOrder c o); Gateway (CallSleep 1);
               Log INFO (MsgOrderPlaced (orderId t));
               Log INFO (MsgStatus (status t))])
      end
  end.
Proof.
  unfold place_order, placing_lines, try_except, bind, call, log, ret.
  destruct (orderType o =? "LMT")%string;
    destruct (ib_placeOrder ib c o g) as [[t|e] g1]; simpl;
    try reflexivity;
    destruct (ib_sleep ib 1 g1) as [[u|e] g2]; reflexivity.
Qed.

(** [place_order] returns whatever the gateway does, after exactly one
    placement request and without a pause of its own. *)
Lemma place_order_returns c o sym g :
  exists r g' tr,
    returns (place_order ib c o sym) g r g' tr
    /\ placement_calls tr = [(c, o)]
    /\ logged WARNING tr = []
    /\ count_lines tr = []
    /\ pauses tr = []
    /\ Forall order_call (gateway_calls tr)
    /\ (accepts ib -> exists t, r = Some t).
Proof.
  unfold returns. rewrite place_order_run.
  pose proof (placing_lines_logs o sym) as Hl.
  pose proof (placing_lines_background o sym) as Hb.
  destruct (logs_no_calls _ Hl) as (Hg & Hp).
  destruct (ib_placeOrder ib c o g) as [[t|e] g1] eqn:Hplace;
    [destruct (ib_sleep ib 1 g1) as [[u|e] g2] eqn:Hsleep|];
    eexists _, _, _; (split; [reflexivity|]);
    unfold placement_calls, logged, pauses, gateway_calls, count_lines in *;
    rewrite !pick_app, Hg, Hp;
    fold placement_calls; fold (logged WARNING); fold count_lines;
    rewrite (background_placement _ Hb), (background_warnings _ Hb),
      (background_counts _ Hb);
    (split; [reflexivity|]); (split; [reflexivity|]);
    (split; [reflexivity|]); (split; [reflexivity|]);
    (split; [simpl; repeat constructor|]).
  - intros _. now exists t.
  - intros (_ & Hs). destruct (Hs 1 g1) as (u & g' & Hu). congruence.
  - intros (Ha & _). destruct (Ha c o g) as (t & g' & Ht). congruence.
Qed.

(** One turn of the loop, by cases on the label and on what the row
    converts to. *)
Lemma process_row_run n idx row trades g :
  process_row ib n (idx, row) trades g =
  match plus_one idx with
  | Raise e => (Raise e, g, [])
  | Ok i =>
      match contract_of_row row with
      | Raise e =>
          (Ok trades, g,
           [Log INFO (MsgProcessingOrder i n);
            Log ERROR (MsgErrorCreatingContract
                         (get_default row "Symbol" (CStr "UNKNOWN")) e)])
      | Ok c =>
          match order_of_row row with
          | Raise e =>
              (Ok trades, g,
               [Log INFO (MsgProcessingOrder i n);
                Log ERROR (MsgErrorCreatingOrder e)])
          | Ok (TooLarge q) =>
              (Ok trades, g,
               [Log INFO (MsgProcessingOrder i n);
                Log WARNING (MsgOrderSizeExceeds q MAX_ORDER_SIZE)])
          | Ok (Built o) =>
              let '(r, g', tr) := place_order ib c o (symbol c) g in
              (Ok (match r with
                   | Ok (Some t) => trades ++ [t]
                   | _ => trades
                   end),
               g',
               Log INFO (MsgProcessingOrder i n) :: tr ++ [TimeSleep 500])
          end
      end
  end.
Proof.
  unfold process_row. rewrite lift_bind.
  destruct (plus_one idx) as [i|e]; [|reflexivity].
  rewrite (bind_returns _ _ _ _ _ _ (returns_log _ _ _)).
  unfold bind at 1. rewrite create_contract_run.
  destruct (contract_of_row row) as [c|e] eqn:Hc; [|reflexivity].
  unfold bind at 1. rewrite create_order_run.
  destruct (order_of_row row) as [[q|o]|e]; try reflexivity.
  unfold bind at 1, lift. rewrite (contract_symbol _ _ Hc).
  destruct (place_order_returns c o (symbol c) g) as (r & g' & tr & Hp & _).
  unfold bind at 1. rewrite Hp. simpl.
  now destruct r.
Qed.

(** A label that is no number ends the turn, and the loop with it, before
    anything is logged. *)
Lemma turn_stops n idx row trades g e :
  plus_one idx = Raise e ->
  process_row ib n (idx, row) trades g = (Raise TypeError, g, []).
Proof.
  intros H. rewrite process_row_run, H. now rewrite (plus_one_raises _ _ H).
Qed.

(** One turn of the loop at a label that is a number: it returns, requests
    what the row leads to, pauses once per request, and adds at most one
    trade per request. *)
Lemma turn_summary n idx i row trades g :
  plus_one idx = Ok i ->
  exists added g' tr,
    returns (process_row ib n (idx, row) trades) g (trades ++ added) g' tr
    /\ placement_calls tr = row_request row
    /\ pauses tr = map (fun _ => 500) (row_request row)
    /\ Forall order_call (gateway_calls tr)
    /\ count_lines tr = []
    /\ (List.length added <= List.length (row_request row))%nat
    /\ (accepts ib -> List.length added = List.length (row_request row)).
Proof.
  intros Hi. unfold returns. rewrite process_row_run, Hi.
  unfold row_request.
  destruct (contract_of_row row) as [c|e].
  2:{ exists []. eexists _, _. rewrite app_nil_r.
      repeat (split; [reflexivity|]). split; [constructor|].
      repeat split; reflexivity. }
  destruct (order_of_row row) as [[q|o]|e].
  1,3: exists []; eexists _, _; rewrite app_nil_r;
       repeat (split; [reflexivity|]); (split; [constructor|]);
       repeat split; reflexivity.
  destruct (place_order_returns c o (symbol c) g)
    as (r & g' & tr & Hp & Hc & _ & Hn & Hs & Ho & Hacc).
  rewrite Hp. cbv beta iota.
  exists (match r with Some t => [t] | None => [] end).
  eexists _, _. split.
  { destruct r; [reflexivity|now rewrite app_nil_r]. }
  change (Log INFO (MsgProcessingOrder i n) :: tr ++ [TimeSleep 500])
    with ([Log INFO (MsgProcessingOrder i n)] ++ tr ++ [TimeSleep 500]).
  unfold placement_calls, pauses, gateway_calls, count_lines in *.
  rewrite !pick_app, Hc, Hs, Hn. simpl pick. rewrite app_nil_r.
  repeat (split; [reflexivity|]).
  split; [simpl; rewrite app_nil_r; exact Ho|]. split; [reflexivity|].
  split; [destruct r; simpl; lia|].
  intros Ha. destruct (Hacc Ha) as (t & ->). reflexivity.
Qed.

(** The loop: it gets through the items before the first label that is no
    number and raises there, or through all of them; the requests follow
    the rows it got through, each request is followed by one pause of half
    a second, and the trades added are at most the requests, all of them
    when the gateway accepts. *)
Lemma loop_summary n items trades g :
  exists added g' tr,
    for_each (process_row ib n) items trades g
    = ((if all_numbers items then Ok (trades ++ added) else Raise TypeError),
       g', tr)
    /\ placement_calls tr = flat_map row_request (map snd (reached items))
    /\ pauses tr
       = map (fun _ => 500) (flat_map row_request (map snd (reached items)))
    /\ Forall order_call (gateway_calls tr)
    /\ count_lines tr = []
    /\ (List.length added
        <= List.length (flat_map row_request (map snd (reached items))))%nat
    /\ (accepts ib ->
        List.length added
        = List.length (flat_map row_request (map snd (reached items)))).
Proof.
  revert trades g. induction items as [|[idx row] items IH]; intros trades g.
  - exists [], g, []. rewrite app_nil_r. repeat split; try reflexivity.
    constructor.
  - cbn [for_each all_numbers forallb reached fst].
    fold (all_numbers items).
    destruct (plus_one idx) as [i|e] eqn:Hi.
    + rewrite (is_number_ok _ _ Hi). cbn [andb map snd flat_map].
      destruct (turn_summary n idx i row trades g Hi)
        as (a1 & g1 & tr1 & H1 & P1 & S1 & O1 & C1 & L1 & A1).
      destruct (IH (trades ++ a1) g1)
        as (a2 & g2 & tr2 & H2 & P2 & S2 & O2 & C2 & L2 & A2).
      exists (a1 ++ a2), g2, (tr1 ++ tr2).
      split.
      { rewrite (bind_run _ _ _ _ _ _ _ _ _ H1 H2).
        now rewrite app_assoc. }
      unfold placement_calls, pauses, gateway_calls, count_lines in *.
      rewrite !pick_app, P1, P2, S1, S2, C1, C2, map_app, !length_app.
      repeat (split; [reflexivity|]).
      split; [apply Forall_app; now split|].
      split; [reflexivity|]. split; [lia|].
      intros Ha. rewrite (A1 Ha), (A2 Ha). reflexivity.
    + rewrite (is_number_raise _ _ Hi). cbn [andb map flat_map].
      exists [], g, []. split.
      { unfold bind. now rewrite (turn_stops n idx row trades g e Hi). }
      repeat split; try reflexivity. constructor.
Qed.

(** The loop over items whose labels are numbers returns normally and
    requests, in the order of the rows, what each row leads to, whatever
    the gateway answers. *)
Lemma loop_returns n items trades g :
  all_numbers items = true ->
  exists trades' g' tr,
    returns (for_each (process_row ib n) items trades) g trades' g' tr
    /\ placement_calls tr = flat_map row_request (map snd items).
Proof.
  intros Hall.
  destruct (loop_summary n items trades g) as (a & g' & tr & H & P & _).
  rewrite Hall in H. rewrite (reached_all _ Hall) in P.
  now exists (trades ++ a), g', tr.
Qed.

(** The turn of a row that translates: one request, and a trade added
    exactly when the gateway returned one and the wait after it
    returned. *)
Lemma request_turn n idx i row trades g c o :
  plus_one idx = Ok i ->
  row_request row = [(c, o)] ->
  exists added g' tr,
    returns (process_row ib n (idx, row) trades) g (trades ++ added) g' tr
    /\ placement_calls tr = [(c, o)]
    /\ logged WARNING tr = []
    /\ count_lines tr = []
    /\ (forall e g1, ib_placeOrder ib c o g = (Raise e, g1) ->
          added = [] /\ In (Log ERROR (MsgErrorPlacing (symbol c) e)) tr)
    /\ (forall t g1 u g2, ib_placeOrder ib c o g = (Ok t, g1) ->
          ib_sleep ib 1 g1 = (Ok u, g2) -> added = [t])
    /\ (List.length added <= 1)%nat.
Proof.
  intros Hi Hreq.
  unfold returns. rewrite process_row_run, Hi. unfold row_request in Hreq.
  destruct (contract_of_row row) as [c'|]; [|discriminate].
  destruct (order_of_row row) as [[q|o']|]; try discriminate.
  injection Hreq as -> ->.
  destruct (place_order_returns c o (symbol c) g)
    as (r & g2 & tr & Hp & Hc & Hw & Hn & _).
  rewrite Hp. cbv beta iota.
  assert (Hsel : placement_calls
                   (Log INFO (MsgProcessingOrder i n)
                    :: tr ++ [TimeSleep 500]) = [(c, o)]
                 /\ logged WARNING
                      (Log INFO (MsgProcessingOrder i n)
                       :: tr ++ [TimeSleep 500]) = []
                 /\ count_lines
                      (Log INFO (MsgProcessingOrder i n)
                       :: tr ++ [TimeSleep 500]) = []).
  { unfold placement_calls, logged, count_lines in *.
    change (Log INFO (MsgProcessingOrder i n) :: tr ++ [TimeSleep 500])
      with ([Log INFO (MsgProcessingOrder i n)] ++ tr ++ [TimeSleep 500]).
    rewrite !pick_app, Hc, Hw, Hn.
    repeat split; reflexivity. }
  destruct Hsel as (S1 & S2 & S3).
  pose proof (place_order_run c o (symbol c) g) as Hrun.
  unfold returns in Hp. rewrite Hp in Hrun.
  destruct (ib_placeOrder ib c o g) as [[t|e] g'] eqn:Hplace.
  - destruct (ib_sleep ib 1 g') as [[u|e] g''] eqn:Hsleep;
      injection Hrun as Hr Hg Htr; subst r.
    + exists [t]. eexists _, _. split; [reflexivity|].
      repeat (split; [assumption|]).
      split; [discriminate|].
      split; [now intros t0 g0 u0 g0' [= <- <-] _|simpl; lia].
    + exists []. eexists _, _. rewrite app_nil_r. split; [reflexivity|].
      repeat (split; [assumption|]).
      split; [discriminate|]. split; [|simpl; lia].
      intros t0 g0 u0 g0' [= <- <-] Hs. rewrite Hsleep in Hs. discriminate.
  - injection Hrun as Hr Hg Htr; subst r.
    exists []. eexists _, _. rewrite app_nil_r. split; [reflexivity|].
    repeat (split; [assumption|]).
    split; [|split; [discriminate|simpl; lia]].
    intros e0 g0 [= <- <-]. split; [reflexivity|].
    right. apply in_or_app. left. rewrite Htr.
    do 5 apply in_cons. apply in_or_app. right. simpl. tauto.
Qed.

End LoopFacts.

(* ================================================================== *)
(** * Snapshots, the report and the shutdown *)
(* ================================================================== *)

Section SnapshotFacts.
Context {G : Type} (ib : IB G).

(** The rows of the position table, one per position, in order. *)
Lemma position_table_returns (ps : list Position) (g : G) :
  returns
    (for_each
       (fun pos (_ : unit) =>
          log INFO (MsgPositionRow
                      (symbol (contract pos)) (position pos) (avgCost pos)
                      (fmul (position pos) (avgCost pos))
                      (fmul (position pos)
                            (fsub (avgCost pos) (avgCost pos)))))
       ps tt)
    g tt g (map (fun pos => Log INFO (position_row pos)) ps).
Proof.
  induction ps as [|pos ps IH]; simpl; [reflexivity|].
  change (Log INFO (position_row pos) :: map (fun p => Log INFO (position_row p)) ps)
    with ([Log INFO (position_row pos)] ++ map (fun p => Log INFO (position_row p)) ps).
  eapply returns_bind; [apply returns_log|exact IH].
Qed.

Lemma fetch_positions_run g :
  fetch_positions ib g =
  match ib_positions ib g with
  | (Raise e, g1) =>
      (Ok [], g1,
       [Log INFO MsgFetchingPositions; Gateway CallPositions;
        Log ERROR (MsgErrorFetchingPositions e)])
  | (Ok [], g1) =>
      (Ok [], g1,
       [Log INFO MsgFetchingPositions; Gateway CallPositions;
        Log INFO MsgNoOpenPositions])
  | (Ok ps, g1) =>
      (Ok ps, g1,
       [Log INFO MsgFetchingPositions; Gateway CallPositions;
        Log INFO (MsgRule 80); Log INFO MsgPositionsHeader;
        Log INFO (MsgRule 80)]
       ++ map (fun pos => Log INFO (position_row pos)) ps
       ++ [Log INFO (MsgRule 80)])
  end.
Proof.
  unfold fetch_positions, try_except.
  rewrite (bind_returns _ _ _ _ _ _ (returns_log _ _ _)).
  unfold bind at 1, call.
  destruct (ib_positions ib g) as [[ps|e] g1]; [|reflexivity].
  destruct ps as [|p ps]; [reflexivity|].
  cbv beta iota delta [is_nil].
  rewrite (bind_returns _ _ _ _ _ _ (returns_log _ _ _)).
  rewrite (bind_returns _ _ _ _ _ _ (returns_log _ _ _)).
  rewrite (bind_returns _ _ _ _ _ _ (returns_log _ _ _)).
  rewrite (bind_returns _ _ _ _ _ _ (position_table_returns (p :: ps) g1)).
  rewrite (bind_returns _ _ _ _ _ _ (returns_log _ _ _)).
  unfold ret. simpl. rewrite ?app_nil_r. reflexivity.
Qed.

Lemma fetch_positions_returns g :
  exists ps g' tr,
    returns (fetch_positions ib) g ps g' tr /\ Forall background tr.
Proof.
  unfold returns. rewrite fetch_positions_run.
  destruct (ib_positions ib g) as [[[|p ps]|e] g1];
    eexists _, _, _; (split; [reflexivity|]); background_list.
  apply Forall_forall. intros e He. apply in_map_iff in He.
  destruct He as (pos & <- & _). repeat split; reflexivity.
Qed.

Lemma fetch_account_summary_returns g :
  exists s g' tr,
    returns (fetch_account_summary ib) g s g' tr /\ Forall background tr.
Proof.
  unfold fetch_account_summary.
  destruct (ib_accountSummary ib g) as [[summary|e] g1] eqn:Hs.
  - assert (Hbody : forall (item : AccountValue) (u : unit) (g' : G),
               exists u' g'' tr,
                 returns
                   ((fun item (_ : unit) =>
                       if existsb (String.eqb (tag item)) key_metrics
                       then log INFO (MsgMetric (tag item) (value item)
                                        (value_currency item))
                       else ret tt) item u) g' u' g'' tr
                 /\ Forall background tr).
    { intros item u g'. cbv beta.
      destruct (existsb (String.eqb (tag item)) key_metrics);
        eexists _, _, _; (split; [reflexivity|background_list]). }
    destruct (for_each_Forall background _ Hbody summary tt g1)
      as ([] & g2 & tr & Hloop & Hb).
    destruct summary as [|a l].
    + eexists _, _, _. split.
      * apply returns_try_except.
        eapply returns_bind; [apply returns_log|].
        eapply returns_bind; [unfold returns, call; rewrite Hs; reflexivity|].
        eapply returns_bind; [apply returns_ret|apply returns_ret].
      * background_list.
    + eexists _, _, _. split.
      * apply returns_try_except.
        eapply returns_bind; [apply returns_log|].
        eapply returns_bind; [unfold returns, call; rewrite Hs; reflexivity|].
        eapply returns_bind; [|apply returns_ret].
        cbv beta iota delta [is_nil negb].
        eapply returns_bind; [apply returns_log|].
        eapply returns_bind; [apply returns_log|].
        eapply returns_bind; [exact Hloop|apply returns_log].
      * background_list. exact Hb.
  - eexists _, _, _. split.
    + unfold returns, try_except.
      rewrite (bind_returns _ _ _ _ _ _ (returns_log _ _ _)).
      unfold bind at 1, call. rewrite Hs. reflexivity.
    + background_list.
Qed.

Lemma disconnect_returns g :
  exists g' tr, returns (disconnect ib) g tt g' tr /\ Forall background tr.
Proof.
  unfold returns, disconnect, try_except, bind, call, log.
  destruct (ib_disconnect ib g) as [[u|e] g1];
    eexists _, _; (split; [reflexivity|]); background_list.
Qed.

Lemma shutdown_returns g :
  exists g' tr, returns (shutdown ib) g tt g' tr /\ Forall background tr.
Proof.
  destruct (disconnect_returns g) as (g' & tr & H & Hb).
  eexists _, _. split.
  - unfold shutdown. eapply returns_bind; [apply returns_log|].
    eapply returns_bind; [exact H|apply returns_log].
  - background_list. exact Hb.
Qed.

(** After the loop: nothing is placed, nothing is warned about, and the
    summary block reports one number, the length of [trades]. *)
Lemma report_returns trades g :
  exists g' tr,
    returns (report ib trades) g tt g' tr
    /\ placement_calls tr = []
    /\ logged WARNING tr = []
    /\ count_lines tr = [MsgOrdersProcessed (Z.of_nat (List.length trades))].
Proof.
  set (waiting := if negb (is_nil trades)
                  then [Log INFO MsgWaiting; TimeSleep 3000] else []).
  assert (Hw : returns
                 (if negb (is_nil trades)
                  then bind (log INFO MsgWaiting) (fun _ => time_sleep 3000)
                  else ret tt) g tt g waiting /\ Forall background waiting).
  { subst waiting. destruct trades; simpl; split;
      try reflexivity; background_list. }
  destruct Hw as (Hw & Hwb).
  destruct (fetch_positions_returns g) as (ps & g1 & tr1 & H1 & B1).
  destruct (fetch_account_summary_returns g1) as (s & g2 & tr2 & H2 & B2).
  eexists _, _. split.
  - unfold report.
    eapply returns_bind; [exact Hw|].
    eapply returns_bind; [apply returns_log|].
    eapply returns_bind; [exact H1|].
    eapply returns_bind; [exact H2|].
    eapply returns_bind; [apply returns_log|].
    eapply returns_bind; [apply returns_log|].
    eapply returns_bind; [apply returns_log|].
    eapply returns_bind; [apply returns_log|].
    apply returns_log.
  - unfold placement_calls, logged, count_lines. rewrite !pick_app.
    fold placement_calls; fold (logged WARNING); fold count_lines.
    rewrite (background_placement _ Hwb), (background_warnings _ Hwb),
      (background_counts _ Hwb), (background_placement _ B1),
      (background_warnings _ B1), (background_counts _ B1),
      (background_placement _ B2), (background_warnings _ B2),
      (background_counts _ B2).
    repeat split; reflexivity.
Qed.

End SnapshotFacts.

Section SnapshotCalls.
Context {G : Type} (ib : IB G).

Lemma fetch_positions_calls g :
  exists ps g' tr,
    returns (fetch_positions ib) g ps g' tr
    /\ gateway_calls tr = [CallPositions]
    /\ pauses tr = []
    /\ ps = match ib_positions ib g with
            | (Ok ps, _) => ps
            | (Raise _, _) => []
            end.
Proof.
  unfold returns. rewrite fetch_positions_run.
  destruct (ib_positions ib g) as [[[|p ps]|e] g1];
    eexists _, _, _; (split; [reflexivity|]);
    try (repeat split; reflexivity).
  assert (Hl : Forall is_log
                 (map (fun pos => Log INFO (position_row pos)) (p :: ps))).
  { apply Forall_forall. intros e He. apply in_map_iff in He.
    destruct He as (pos & <- & _). apply is_log_intro. }
  destruct (logs_no_calls _ Hl) as (Hg & Hp).
  unfold gateway_calls, pauses in *. rewrite !pick_app, Hg, Hp.
  repeat split; reflexivity.
Qed.

Lemma metric_lines_returns (summary : list AccountValue) (g : G) :
  returns
    (for_each
       (fun item (_ : unit) =>
          if existsb (String.eqb (tag item)) key_metrics
          then log INFO (MsgMetric (tag item) (value item) (value_currency item))
          else ret tt)
       summary tt)
    g tt g (flat_map metric_line summary).
Proof.
  induction summary as [|item summary IH]; [reflexivity|].
  cbn [for_each flat_map].
  eapply returns_bind; [|exact IH].
  unfold metric_line.
  now destruct (existsb (String.eqb (tag item)) key_metrics).
Qed.

Lemma fetch_account_summary_run g :
  fetch_account_summary ib g =
  match ib_accountSummary ib g with
  | (Raise e, g1) =>
      (Ok None, g1,
       [Log INFO MsgFetchingAccountSummary; Gateway CallAccountSummary;
        Log ERROR (MsgErrorFetchingAccountSummary e)])
  | (Ok [], g1) =>
      (Ok (Some []), g1,
       [Log INFO MsgFetchingAccountSummary; Gateway CallAccountSummary])
  | (Ok summary, g1) =>
      (Ok (Some summary), g1,
       [Log INFO MsgFetchingAccountSummary; Gateway CallAccountSummary;
        Log INFO (MsgRule 60); Log INFO MsgAccountSummaryHeader]
       ++ flat_map metric_line summary
       ++ [Log INFO (MsgRule 60)])
  end.
Proof.
  unfold fetch_account_summary, try_except.
  rewrite (bind_returns _ _ _ _ _ _ (returns_log _ _ _)).
  unfold bind at 1, call.
  destruct (ib_accountSummary ib g) as [[summary|e] g1]; [|reflexivity].
  destruct summary as [|a l]; [reflexivity|].
  cbv beta iota delta [is_nil negb].
  assert (H : returns
                (bind (log INFO (MsgRule 60)) (fun _ =>
                 bind (log INFO MsgAccountSummaryHeader) (fun _ =>
                 bind (for_each
                         (fun item (_ : unit) =>
                            if existsb (String.eqb (tag item)) key_metrics
                            then log INFO (MsgMetric (tag item) (value item)
                                             (value_currency item))
                            else ret tt) (a :: l) tt)
                   (fun _ => log INFO (MsgRule 60)))))
                g1 tt g1
                ([Log INFO (MsgRule 60)] ++ [Log INFO MsgAccountSummaryHeader]
                 ++ flat_map metric_line (a :: l) ++ [Log INFO (MsgRule 60)])).
  { eapply returns_bind; [apply returns_log|].
    eapply returns_bind; [apply returns_log|].
    eapply returns_bind; [apply metric_lines_returns|apply returns_log]. }
  rewrite (bind_returns _ _ _ _ _ _ H). unfold ret.
  rewrite app_nil_r. reflexivity.
Qed.

Lemma metric_lines_logs summary : Forall is_log (flat_map metric_line summary).
Proof.
  induction summary as [|item summary IH]; [constructor|].
  cbn [flat_map]. apply Forall_app. split; [|exact IH].
  unfold metric_line.
  destruct (existsb (String.eqb (tag item)) key_metrics); log_list.
Qed.

Lemma fetch_account_summary_calls g :
  exists s g' tr,
    returns (fetch_account_summary ib) g s g' tr
    /\ gateway_calls tr = [CallAccountSummary]
    /\ pauses tr = [].
Proof.
  unfold returns. rewrite fetch_account_summary_run.
  destruct (ib_accountSummary ib g) as [[[|a l]|e] g1];
    eexists _, _, _; (split; [reflexivity|]);
    try (repeat split; reflexivity).
  destruct (logs_no_calls _ (metric_lines_logs (a :: l))) as (Hg & Hp).
  unfold gateway_calls, pauses in *. rewrite !pick_app, Hg, Hp.
  repeat split; reflexivity.
Qed.

Lemma shutdown_calls g :
  exists g' tr,
    returns (shutdown ib) g tt g' tr
    /\ gateway_calls tr = [CallDisconnect]
    /\ pauses tr = []
    /\ Forall background tr.
Proof.
  unfold returns, shutdown, disconnect, try_except, bind, call, log.
  destruct (ib_disconnect ib g) as [[u|e] g1];
    eexists _, _; (split; [reflexivity|]);
    repeat split; try reflexivity; background_list.
Qed.

Lemma report_calls trades g :
  exists g' tr,
    returns (report ib trades) g tt g' tr
    /\ gateway_calls tr = [CallPositions; CallAccountSummary]
    /\ pauses tr = (if is_nil trades then [] else [3000])
    /\ count_lines tr = [MsgOrdersProcessed (Z.of_nat (List.length trades))].
Proof.
  set (waiting := if negb (is_nil trades)
                  then [Log INFO MsgWaiting; TimeSleep 3000] else []).
  assert (Hw : returns
                 (if negb (is_nil trades)
                  then bind (log INFO MsgWaiting) (fun _ => time_sleep 3000)
                  else ret tt) g tt g waiting).
  { subst waiting. now destruct trades. }
  destruct (fetch_positions_calls g) as (ps & g1 & tr1 & H1 & G1 & P1 & _).
  destruct (fetch_account_summary_calls g1) as (s & g2 & tr2 & H2 & G2 & P2).
  destruct (report_returns ib trades g) as (g' & tr & H & _ & _ & C).
  exists g', tr. split; [exact H|].
  assert (Htr : tr = waiting ++ [Log INFO MsgAfterTrading] ++ tr1 ++ tr2
                     ++ [Log INFO (MsgRule 80)] ++ [Log INFO MsgSummaryHeader]
                     ++ [Log INFO (MsgOrdersProcessed
                                     (Z.of_nat (List.length trades)))]
                     ++ [Log INFO MsgLogFile] ++ [Log INFO (MsgRule 80)]).
  { assert (H' : returns (report ib trades) g tt g2
                   (waiting ++ [Log INFO MsgAfterTrading] ++ tr1 ++ tr2
                    ++ [Log INFO (MsgRule 80)] ++ [Log INFO MsgSummaryHeader]
                    ++ [Log INFO (MsgOrdersProcessed
                                    (Z.of_nat (List.length trades)))]
                    ++ [Log INFO MsgLogFile] ++ [Log INFO (MsgRule 80)])).
    { unfold report.
      eapply returns_bind; [exact Hw|].
      eapply returns_bind; [apply returns_log|].
      eapply returns_bind; [exact H1|].
      eapply returns_bind; [exact H2|].
      eapply returns_bind; [apply returns_log|].
      eapply returns_bind; [apply returns_log|].
      eapply returns_bind; [apply returns_log|].
      eapply returns_bind; [apply returns_log|].
      apply returns_log. }
    unfold returns in H, H'. rewrite H in H'. now injection H'. }
  split; [|split; [|exact C]].
  - rewrite Htr. unfold gateway_calls in *. rewrite !pick_app, G1, G2.
    subst waiting. now destruct trades.
  - rewrite Htr. unfold pauses in *. rewrite !pick_app, P1, P2.
    subst waiting. now destruct trades.
Qed.

(** Both [run]s.  The first snapshot is taken; then, whatever the
    statement that yields the trades does, [run] returns: after trades,
    with the settle delay, the second snapshot, the summary and the
    shutdown; after an exception, with the error line and the shutdown
    only. *)
Lemma workflow_run (orders : M G (list Trade)) g :
  exists trA g0,
    gateway_calls trA = [CallPositions; CallAccountSummary]
    /\ pauses trA = []
    /\ Forall background trA
    /\ forall r g1 trP,
         orders g0 = (r, g1, trP) ->
         exists trB g2,
           workflow ib orders g = (Ok tt, g2, trA ++ trP ++ trB)
           /\ placement_calls trB = []
           /\ logged WARNING trB = []
           /\ match r with
              | Ok trades =>
                  gateway_calls trB
                  = [CallPositions; CallAccountSummary; CallDisconnect]
                  /\ pauses trB = (if is_nil trades then [] else [3000])
                  /\ count_lines trB
                     = [MsgOrdersProcessed (Z.of_nat (List.length trades))]
              | Raise e =>
                  gateway_calls trB = [CallDisconnect]
                  /\ pauses trB = []
                  /\ count_lines trB = []
                  /\ In (Log ERROR (MsgErrorDuringTrading e)) trB
              end.
Proof.
  destruct (fetch_positions_calls g) as (ps & ga & tr1 & H1 & G1 & P1 & _).
  destruct (fetch_positions_returns ib g) as (ps' & ga' & tr1' & H1' & B1).
  unfold returns in H1, H1'. rewrite H1 in H1'. injection H1' as <- <- <-.
  destruct (fetch_account_summary_calls ga) as (s & g0 & tr2 & H2 & G2 & P2).
  destruct (fetch_account_summary_returns ib ga) as (s' & g0' & tr2' & H2' & B2).
  unfold returns in H2, H2'. rewrite H2 in H2'. injection H2' as <- <- <-.
  exists ([Log INFO MsgBeforeTrading] ++ tr1 ++ tr2
          ++ [Log INFO MsgProcessingOrders]), g0.
  split; [unfold gateway_calls in *; now rewrite !pick_app, G1, G2|].
  split; [unfold pauses in *; now rewrite !pick_app, P1, P2|].
  split; [background_list; assumption|].
  intros r g1 trP HP.
  destruct r as [trades|e].
  - destruct (report_calls trades g1) as (gr & trR & HR & GR & PR & CR).
    destruct (report_returns ib trades g1) as (gr' & trR' & HR' & RP & RW & _).
    unfold returns in HR, HR'. rewrite HR in HR'. injection HR' as <- <-.
    destruct (shutdown_calls gr) as (g2 & trS & HS & GS & PS & BS).
    exists (trR ++ trS), g2.
    unfold gateway_calls, pauses, count_lines, placement_calls, logged in *.
    rewrite !pick_app, GR, GS, PR, PS, CR, RP, RW.
    fold count_lines; fold placement_calls; fold (logged WARNING).
    rewrite (background_counts _ BS), (background_placement _ BS),
      (background_warnings _ BS), !app_nil_r.
    split; [|repeat split; reflexivity].
    replace (([Log INFO MsgBeforeTrading] ++ tr1 ++ tr2
              ++ [Log INFO MsgProcessingOrders]) ++ trP ++ trR ++ trS)
      with (([Log INFO MsgBeforeTrading] ++ tr1 ++ tr2
             ++ [Log INFO MsgProcessingOrders] ++ trP ++ trR) ++ trS)
      by (now rewrite <- !app_assoc).
    unfold workflow.
    eapply returns_try_finally; [|exact HS].
    apply returns_try_except.
    eapply returns_bind; [apply returns_log|].
    eapply returns_bind; [exact H1|].
    eapply returns_bind; [exact H2|].
    eapply returns_bind; [apply returns_log|].
    eapply returns_bind; [exact HP|exact HR].
  - destruct (shutdown_calls g1) as (g2 & trS & HS & GS & PS & BS).
    exists ([Log ERROR (MsgErrorDuringTrading e)] ++ trS), g2.
    unfold gateway_calls, pauses, count_lines, placement_calls, logged in *.
    rewrite !pick_app, GS, PS.
    fold count_lines; fold placement_calls; fold (logged WARNING).
    rewrite (background_counts _ BS), (background_placement _ BS),
      (background_warnings _ BS).
    split; [|repeat split; try reflexivity; now left].
    replace (([Log INFO MsgBeforeTrading] ++ tr1 ++ tr2
              ++ [Log INFO MsgProcessingOrders]) ++ trP
             ++ [Log ERROR (MsgErrorDuringTrading e)] ++ trS)
      with ((([Log INFO MsgBeforeTrading] ++ tr1 ++ tr2
              ++ [Log INFO MsgProcessingOrders] ++ trP)
             ++ [Log ERROR (MsgErrorDuringTrading e)]) ++ trS)
      by (now rewrite <- !app_assoc).
    unfold workflow.
    eapply returns_try_finally; [|exact HS].
    eapply try_except_run; [|reflexivity].
    eapply bind_run; [reflexivity|].
    eapply bind_run; [exact H1|].
    eapply bind_run; [exact H2|].
    eapply bind_run; [reflexivity|].
    unfold bind. now rewrite HP.
Qed.

(** Both [run]s, given what the statement that yields the trades does from
    any state: it stops on a label or returns trades, requests [reqs] and
    pauses after each request. *)
Lemma session_summary (orders : M G (list Trade)) (stop : bool)
    (reqs : list (Contract * Order)) g :
  (forall g0, exists trades g1 tr,
      orders g0 = ((if stop then Raise TypeError else Ok trades), g1, tr)
      /\ placement_calls tr = reqs
      /\ pauses tr = map (fun _ => 500) (placement_calls tr)
      /\ Forall order_call (gateway_calls tr)
      /\ existsb positive_report (count_lines tr) = false) ->
  exists trA trP trB g2,
    workflow ib orders g = (Ok tt, g2, trA ++ trP ++ trB)
    /\ gateway_calls trA = [CallPositions; CallAccountSummary]
    /\ Forall order_call (gateway_calls trP)
    /\ gateway_calls trB
       = (if stop then [CallDisconnect]
          else [CallPositions; CallAccountSummary; CallDisconnect])
    /\ (stop = true -> In (Log ERROR (MsgErrorDuringTrading TypeError)) trB)
    /\ placement_calls (trA ++ trP ++ trB) = reqs
    /\ pauses (trA ++ trP ++ trB)
       = map (fun _ => 500) reqs
         ++ (if existsb positive_report (count_lines (trA ++ trP ++ trB))
             then [3000] else []).
Proof.
  intros Horders.
  destruct (workflow_run orders g) as (trA & g0 & GA & PA & BA & Hw).
  destruct (Horders g0) as (trades & g1 & trP & HP & P & S & O & C).
  destruct (Hw _ _ _ HP) as (trB & g2 & Hrun & PB & _ & Hr).
  exists trA, trP, trB, g2.
  split; [exact Hrun|]. split; [exact GA|]. split; [exact O|].
  assert (Hcalls : placement_calls (trA ++ trP ++ trB) = reqs).
  { unfold placement_calls in *. rewrite !pick_app, P, PB.
    fold placement_calls. rewrite (background_placement _ BA).
    simpl. apply app_nil_r. }
  assert (Hcount : count_lines (trA ++ trP ++ trB)
                   = count_lines trP ++ count_lines trB).
  { unfold count_lines. rewrite !pick_app. fold count_lines.
    now rewrite (background_counts _ BA). }
  rewrite Hcalls, Hcount, existsb_app, C. cbn [orb].
  unfold pauses in *. rewrite !pick_app, PA, S, P. cbn [app].
  destruct stop.
  - destruct Hr as (GB & PB' & CB & EB). rewrite CB, PB'.
    repeat split; try assumption; try reflexivity. now intros _.
  - destruct Hr as (GB & PB' & CB). rewrite CB, PB'.
    repeat split; try assumption; try reflexivity; try discriminate.
    f_equal. now destruct trades.
Qed.

End SnapshotCalls.

(* ================================================================== *)
(** * The batch: reading, the loop of a frame and the two workflows *)
(* ================================================================== *)

Section BatchFacts.
Context {G : Type} (ib : IB G) (fs : FileSystem) {py : Text}.

(** The loop of a frame and the line logged after it, which is not reached
    when a label stops the loop. *)
Lemma process_rows_summary df g :
  exists trades g' tr,
    process_rows ib df g
    = ((if numbered df then Ok trades else Raise TypeError), g', tr)
    /\ placement_calls tr = flat_map row_request (processed df)
    /\ pauses tr = map (fun _ => 500) (placement_calls tr)
    /\ Forall order_call (gateway_calls tr)
    /\ count_lines tr
       = (if numbered df
          then [MsgCompleted (Z.of_nat (List.length trades)) (len df)]
          else [])
    /\ (List.length trades <= List.length (placement_calls tr))%nat
    /\ (accepts ib -> List.length trades = List.length (placement_calls tr)).
Proof.
  destruct (loop_summary ib (len df) (iterrows df) [] g)
    as (trades & g' & tr & H & P & S & O & C & L & A).
  rewrite iterrows_numbered in H. fold (processed df) in P, S, L, A.
  cbn [app] in H. unfold process_rows.
  destruct (numbered df).
  - exists trades, g',
      (tr ++ [Log INFO (MsgCompleted (Z.of_nat (List.length trades)) (len df))]
          ++ []).
    split; [apply (bind_run _ _ _ _ _ _ _ _ _ H); reflexivity|].
    unfold placement_calls, pauses, gateway_calls, count_lines in *.
    rewrite !pick_app, P, S, C. simpl pick. rewrite !app_nil_r.
    repeat (split; [reflexivity|]).
    split; [exact O|]. split; [reflexivity|]. split; assumption.
  - exists trades, g', tr.
    split; [unfold bind; now rewrite H|].
    rewrite P, S. repeat (split; [reflexivity|]).
    split; [exact O|]. split; [exact C|]. split; assumption.
Qed.

(** What both scripts do with the frame they hold. *)
Lemma frame_summary (df : option DataFrame) (g : G) :
  exists trades g' tr,
    process_frame ib df g
    = ((if stops df then Raise TypeError else Ok trades), g', tr)
    /\ placement_calls tr = flat_map row_request (taken df)
    /\ pauses tr = map (fun _ => 500) (placement_calls tr)
    /\ Forall order_call (gateway_calls tr)
    /\ existsb positive_report (count_lines tr) = false
    /\ (List.length trades <= List.length (placement_calls tr))%nat
    /\ (accepts ib -> List.length trades = List.length (placement_calls tr)).
Proof.
  destruct df as [df|]; cbn [process_frame stops taken].
  - destruct (empty df) eqn:He; cbn [negb andb].
    + exists [], g. eexists. split; [reflexivity|].
      repeat split; try reflexivity. constructor.
    + destruct (process_rows_summary df g)
        as (t & g' & tr & H & P & S & O & C & L & A).
      exists t, g', tr.
      split; [now destruct (numbered df)|].
      repeat (split; [assumption|]).
      split; [|split; assumption].
      rewrite C. now destruct (numbered df).
  - exists [], g. eexists. split; [reflexivity|].
    repeat split; try reflexivity. constructor.
Qed.

Lemma trader_read_run file (g : G) :
  Trader.read_orders_from_csv fs file g =
  match read_csv fs file with
  | Ok df =>
      (Ok (Some df), g,
       [Log INFO (MsgReadingOrders file); Log INFO (MsgFoundOrders (len df));
        Log INFO (MsgColumns (columns df))])
  | Raise FileNotFoundError =>
      (Ok None, g,
       [Log INFO (MsgReadingOrders file); Log ERROR (MsgCsvNotFound file)])
  | Raise e =>
      (Ok None, g,
       [Log INFO (MsgReadingOrders file); Log ERROR (MsgErrorReadingCsv e)])
  end.
Proof.
  unfold Trader.read_orders_from_csv, try_except, bind, lift, log, ret.
  now destruct (read_csv fs file) as [df|[]].
Qed.

Lemma trader_read_logs file (g : G) :
  exists tr,
    Trader.read_orders_from_csv fs file g = (Ok (trader_frame fs file), g, tr)
    /\ Forall is_log tr /\ Forall background tr.
Proof.
  rewrite trader_read_run. unfold trader_frame.
  destruct (read_csv fs file) as [df|[]];
    eexists; (split; [reflexivity|]); split; try log_list; background_list.
Qed.

Lemma realtest_read_logs file (g : G) :
  exists tr,
    RealTest.read_orders_from_csv fs file g
    = (Ok (realtest_frame fs file), g, tr)
    /\ Forall is_log tr /\ Forall background tr.
Proof.
  unfold RealTest.read_orders_from_csv, realtest_frame,
    try_except, bind, lift, log, ret.
  destruct (RealTest.find_csv_file fs file) as [path|].
  - destruct (read_csv fs path) as [df|e];
      eexists; (split; [reflexivity|]); split; try log_list; background_list.
  - eexists; (split; [reflexivity|]); split; try log_list; background_list.
Qed.

(** A reading followed by the processing of the frame it returned. *)
Lemma read_then_process (read : M G (option DataFrame))
    (d : option DataFrame) (g : G) (tr0 : list event) :
  read g = (Ok d, g, tr0) ->
  Forall is_log tr0 -> Forall background tr0 ->
  exists trades g' tr,
    bind read (process_frame ib) g
    = ((if stops d then Raise TypeError else Ok trades), g', tr)
    /\ placement_calls tr = flat_map row_request (taken d)
    /\ pauses tr = map (fun _ => 500) (placement_calls tr)
    /\ Forall order_call (gateway_calls tr)
    /\ existsb positive_report (count_lines tr) = false
    /\ (List.length trades <= List.length (placement_calls tr))%nat
    /\ (accepts ib -> List.length trades = List.length (placement_calls tr)).
Proof.
  intros H0 L0 B0.
  destruct (logs_no_calls _ L0) as (G0 & P0).
  destruct (frame_summary d g) as (trades & g' & tr & H & P & S & O & C & L & A).
  exists trades, g', (tr0 ++ tr).
  split; [apply (bind_run _ _ _ _ _ _ _ _ _ H0 H)|].
  unfold pauses, gateway_calls, placement_calls, count_lines in *.
  rewrite !pick_app, G0, P0.
  fold placement_calls; fold count_lines.
  rewrite (background_placement _ B0), (background_counts _ B0). simpl.
  repeat split; assumption.
Qed.

Lemma trader_process_summary file (g : G) :
  exists trades g' tr,
    Trader.process_all_orders ib fs file g
    = ((if stops (trader_frame fs file) then Raise TypeError else Ok trades),
       g', tr)
    /\ placement_calls tr = flat_map row_request (taken (trader_frame fs file))
    /\ pauses tr = map (fun _ => 500) (placement_calls tr)
    /\ Forall order_call (gateway_calls tr)
    /\ existsb positive_report (count_lines tr) = false
    /\ (List.length trades <= List.length (placement_calls tr))%nat
    /\ (accepts ib -> List.length trades = List.length (placement_calls tr)).
Proof.
  destruct (trader_read_logs file g) as (tr0 & H0 & L0 & B0).
  exact (read_then_process _ _ g tr0 H0 L0 B0).
Qed.

Lemma realtest_process_summary file (g : G) :
  exists trades g' tr,
    RealTest.process_all_orders ib fs file g
    = ((if stops (realtest_frame fs file) then Raise TypeError else Ok trades),
       g', tr)
    /\ placement_calls tr
       = flat_map row_request (taken (realtest_frame fs file))
    /\ pauses tr = map (fun _ => 500) (placement_calls tr)
    /\ Forall order_call (gateway_calls tr)
    /\ existsb positive_report (count_lines tr) = false
    /\ (List.length trades <= List.length (placement_calls tr))%nat
    /\ (accepts ib -> List.length trades = List.length (placement_calls tr)).
Proof.
  destruct (realtest_read_logs file g) as (tr0 & H0 & L0 & B0).
  exact (read_then_process _ _ g tr0 H0 L0 B0).
Qed.

Lemma trader_run_workflow file :
  Trader.run ib fs file = workflow ib (Trader.process_all_orders ib fs file).
Proof. reflexivity. Qed.

Lemma realtest_run_workflow file (df : option DataFrame) :
  RealTest.run ib file df = workflow ib (process_frame ib df).
Proof. reflexivity. Qed.

(** A session of the first script. *)
Lemma trader_run_summary file (g : G) :
  exists trA trP trB g2,
    Trader.run ib fs file g = (Ok tt, g2, trA ++ trP ++ trB)
    /\ gateway_calls trA = [CallPositions; CallAccountSummary]
    /\ Forall order_call (gateway_calls trP)
    /\ gateway_calls trB
       = (if stops (trader_frame fs file) then [CallDisconnect]
          else [CallPositions; CallAccountSummary; CallDisconnect])
    /\ (stops (trader_frame fs file) = true ->
        In (Log ERROR (MsgErrorDuringTrading TypeError)) trB)
    /\ placement_calls (trA ++ trP ++ trB)
       = flat_map row_request (taken (trader_frame fs file))
    /\ pauses (trA ++ trP ++ trB)
       = map (fun _ => 500)
           (flat_map row_request (taken (trader_frame fs file)))
         ++ (if existsb positive_report (count_lines (trA ++ trP ++ trB))
             then [3000] else []).
Proof.
  rewrite trader_run_workflow. apply session_summary.
  intros g0.
  destruct (trader_process_summary file g0)
    as (t & g1 & tr & H & P & S & O & C & _).
  now exists t, g1, tr.
Qed.

(** A session of the second script on the frame it is given. *)
Lemma realtest_run_summary file (df : option DataFrame) (g : G) :
  exists trA trP trB g2,
    RealTest.run ib file df g = (Ok tt, g2, trA ++ trP ++ trB)
    /\ gateway_calls trA = [CallPositions; CallAccountSummary]
    /\ Forall order_call (gateway_calls trP)
    /\ gateway_calls trB
       = (if stops df then [CallDisconnect]
          else [CallPositions; CallAccountSummary; CallDisconnect])
    /\ (stops df = true ->
        In (Log ERROR (MsgErrorDuringTrading TypeError)) trB)
    /\ placement_calls (trA ++ trP ++ trB) = flat_map row_request (taken df)
    /\ pauses (trA ++ trP ++ trB)
       = map (fun _ => 500) (flat_map row_request (taken df))
         ++ (if existsb positive_report (count_lines (trA ++ trP ++ trB))
             then [3000] else []).
Proof.
  rewrite realtest_run_workflow. apply session_summary.
  intros g0.
  destruct (frame_summary df g0) as (t & g1 & tr & H & P & S & O & C & _).
  now exists t, g1, tr.
Qed.

End BatchFacts.

(* ================================================================== *)
(** * Reordering *)
(* ================================================================== *)

Lemma reorder_map {A B} (f : A -> B) (p : list nat) (l : list A) :
  map f (reorder p l) = reorder p (map f l).
Proof.
  unfold reorder. induction p as [|i p IH]; simpl; [reflexivity|].
  rewrite map_app, IH, nth_error_map.
  now destruct (nth_error l i).
Qed.

(* ================================================================== *)
(** * The size guard *)
(* ================================================================== *)

(** C1, as the code has it.  For a row whose quantity exceeds
    [MAX_ORDER_SIZE], [create_order] returns [None], the turn of the loop
    ends with the trades and the gateway unchanged and without any
    placement request, and the row leads to no request in any batch.  The
    program keeps no record of order states: the rejection is the warning
    line with the quantity and the limit, logged when the row reaches the
    guard (its contract was created, its action and order type are text).
    The turn is that of a row at an integer label, as the default index
    gives. *)
Theorem oversize_order_is_not_placed {G : Type} (ib : IB G) {py : Text}
    (n idx : Z) (row : Series) (trades : list Trade) (g : G) (q : Z) :
  quantity_of row = Ok q ->
  q > MAX_ORDER_SIZE ->
  row_request row = []
  /\ (exists tr0, create_order row g = (Ok None, g, tr0))
  /\ exists tr,
       process_row ib n (Label (CInt idx), row) trades g = (Ok trades, g, tr)
       /\ placement_calls tr = []
       /\ Forall is_log tr
       /\ forall c a t,
            contract_of_row row = Ok c ->
            getitem row "Action" = Ok (CStr a) ->
            get_default row "OrderType" (CStr "MKT") = CStr t ->
            tr = [Log INFO (MsgProcessingOrder (CInt (idx + 1)) n);
                  Log WARNING (MsgOrderSizeExceeds q MAX_ORDER_SIZE)].
Proof.
  intros Hq Hgt.
  split; [now apply (oversize_no_request row q)|].
  assert (Hno : forall o, order_of_row row <> Ok (Built o)).
  { intros o Ho. apply order_built in Ho. destruct Ho as (Hq' & Hle).
    rewrite Hq in Hq'. injection Hq' as Heq. lia. }
  split.
  - rewrite create_order_run.
    destruct (order_of_row row) as [[q'|o]|e] eqn:Ho.
    + now eexists.
    + now destruct (Hno o).
    + now eexists.
  - rewrite process_row_run. cbn [plus_one].
    destruct (contract_of_row row) as [c|e] eqn:Hc.
    + destruct (order_of_row row) as [[q'|o]|e] eqn:Ho.
      * eexists. split; [reflexivity|]. split; [reflexivity|].
        split; [log_list|].
        intros c' a t _ Ha Ht.
        apply order_too_large in Ho. destruct Ho as (Hq' & _).
        rewrite Hq in Hq'. now injection Hq' as <-.
      * now destruct (Hno o).
      * eexists. split; [reflexivity|]. split; [reflexivity|].
        split; [log_list|].
        intros c' a t _ Ha Ht.
        rewrite (order_of_row_guard row a q t Ha Hq Ht) in Ho.
        apply Z.gtb_gt in Hgt. rewrite Hgt in Ho. discriminate.
    + eexists. split; [reflexivity|]. split; [reflexivity|].
      split; [log_list|].
      intros c' a t Hc'. discriminate.
Qed.

Lemma oversize_order_is_not_placed_witness :
  quantity_of (combine required_columns sell_2000_msft) = Ok 2000
  /\ 2000 > MAX_ORDER_SIZE
  /\ row_request (combine required_columns sell_2000_msft) = [].
Proof.
  split; [reflexivity|]. split; [reflexivity|].
  apply (oversize_order_is_not_placed accepting_ib 1 0
           (combine required_columns sell_2000_msft) [] 0 2000);
    reflexivity.
Defined.

(** C1 as stated fails: the batch made of the oversize instruction alone
    returns an empty list; no record of the instruction, in whatever state,
    is produced, and the run leaves the warning line only. *)
Lemma oversize_order_leaves_no_record :
  Trader.process_all_orders accepting_ib (fs_with oversize_batch) CSV_FILE 0
  = (Ok [], 0,
     [Log INFO (MsgReadingOrders CSV_FILE);
      Log INFO (MsgFoundOrders 1);
      Log INFO (MsgColumns required_columns);
      Log INFO (MsgProcessingOrder (CInt 1) 1);
      Log WARNING (MsgOrderSizeExceeds 2000 1000);
      Log INFO (MsgCompleted 0 1)]).
Proof. vm_compute. reflexivity. Qed.

(* ================================================================== *)
(** * Continue on error *)
(* ================================================================== *)

(** C2.  Whatever the gateway answers to the request of a row (it raises,
    the wait after it raises, or it returns a trade of any status), the
    turn returns normally after exactly that request, and the loop goes on
    with the rows that follow: they are processed from the state the
    answer left, and each of them that translates is requested.  When the
    placement raises, no trade is added and the error is logged; a
    returned trade is kept.  The labels of the rows are numbers, as those
    of the default index are. *)
Theorem placement_failure_does_not_stop_the_batch {G : Type} (ib : IB G)
    {py : Text} (n : Z) (pre : list (label * Series)) (idx : label)
    (row : Series) (post : list (label * Series)) (trades : list Trade)
    (g : G) (c : Contract) (o : Order) :
  row_request row = [(c, o)] ->
  all_numbers (pre ++ (idx, row) :: post) = true ->
  exists t1 g1 tr1 added g2 tr2 t3 g3 tr3,
    returns (for_each (process_row ib n) pre trades) g t1 g1 tr1
    /\ returns (process_row ib n (idx, row) t1) g1 (t1 ++ added) g2 tr2
    /\ placement_calls tr2 = [(c, o)]
    /\ (forall e g', ib_placeOrder ib c o g1 = (Raise e, g') ->
          added = [] /\ In (Log ERROR (MsgErrorPlacing (symbol c) e)) tr2)
    /\ (forall t g' u g'', ib_placeOrder ib c o g1 = (Ok t, g') ->
          ib_sleep ib 1 g' = (Ok u, g'') -> added = [t])
    /\ returns (for_each (process_row ib n) post (t1 ++ added)) g2 t3 g3 tr3
    /\ placement_calls tr3 = flat_map row_request (map snd post)
    /\ returns (for_each (process_row ib n) (pre ++ (idx, row) :: post) trades)
         g t3 g3 (tr1 ++ tr2 ++ tr3).
Proof.
  intros Hreq Hall.
  rewrite all_numbers_app in Hall. apply andb_true_iff in Hall.
  destruct Hall as (Hpre & Hrest).
  cbn [all_numbers forallb fst] in Hrest. apply andb_true_iff in Hrest.
  destruct Hrest as (Hidx & Hpost). fold (all_numbers post) in Hpost.
  unfold is_number in Hidx.
  destruct (plus_one idx) as [i|] eqn:Hi; [|discriminate].
  destruct (loop_returns ib n pre trades g Hpre) as (t1 & g1 & tr1 & H1 & _).
  destruct (request_turn ib n idx i row t1 g1 c o Hi Hreq)
    as (added & g2 & tr2 & H2 & P2 & _ & _ & Hraise & Hkeep & _).
  destruct (loop_returns ib n post (t1 ++ added) g2 Hpost)
    as (t3 & g3 & tr3 & H3 & P3).
  exists t1, g1, tr1, added, g2, tr2, t3, g3, tr3.
  repeat (split; [assumption|]).
  unfold returns. rewrite for_each_app. simpl.
  eapply returns_bind; [exact H1|].
  eapply returns_bind; [exact H2|exact H3].
Qed.

Lemma placement_failure_does_not_stop_the_batch_witness :
  row_request (combine required_columns buy_100_aapl)
  = [(aapl_contract, aapl_order)]
  /\ all_numbers
       ([] ++ (Label (CInt 0), combine required_columns buy_100_aapl)
           :: [(Label (CInt 1), combine required_columns sell_50_ibm)])
     = true
  /\ exists t3 g3 tr,
       returns
         (for_each (process_row refusing_ib 2)
            ([] ++ (Label (CInt 0), combine required_columns buy_100_aapl)
                :: [(Label (CInt 1), combine required_columns sell_50_ibm)])
            [])
         0 t3 g3 tr.
Proof.
  split; [reflexivity|]. split; [reflexivity|].
  destruct (placement_failure_does_not_stop_the_batch refusing_ib 2 []
              (Label (CInt 0)) (combine required_columns buy_100_aapl)
              [(Label (CInt 1), combine required_columns sell_50_ibm)] [] 0
              aapl_contract aapl_order eq_refl eq_refl)
    as (t1 & g1 & tr1 & added & g2 & tr2 & t3 & g3 & tr3 & H).
  exists t3, g3, (tr1 ++ tr2 ++ tr3). apply H.
Defined.

(* ================================================================== *)
(** * Submission order *)
(* ================================================================== *)

(** C3, on a file whose data lines carry one field more than the header.
    The first line of the loop formats [idx + 1] outside every [try]; a
    label that is text raises there and ends the loop.  Of two lines that
    both translate, none is requested when the labels are text; and with a
    first label that is empty (a NaN, on which [idx + 1] is defined) the
    first line is requested and the second is not, while the same two
    lines in the other order lead to no request at all: the requests do
    not follow the rows, and do not follow their reordering. *)
Theorem row_order_is_lost_at_a_text_label :
  map row_request (rows text_labelled_batch)
  = [[(aapl_contract, aapl_order)]; [(ibm_contract, ibm_order)]]
  /\ placement_calls
       (trace (Trader.process_all_orders accepting_ib
                 (fs_with text_labelled_batch) CSV_FILE 0)) = []
  /\ placement_calls
       (trace (Trader.run accepting_ib (fs_with text_labelled_batch)
                 CSV_FILE 0)) = []
  /\ placement_calls
       (trace (RealTest.run accepting_ib CSV_FILE (Some text_labelled_batch)
                 0)) = []
  /\ map row_request (rows labelled_batch)
     = [[(aapl_contract, aapl_order)]; [(ibm_contract, ibm_order)]]
  /\ lines labelled_batch_swapped = reorder [1; 0]%nat (lines labelled_batch)
  /\ placement_calls
       (trace (Trader.run accepting_ib (fs_with labelled_batch) CSV_FILE 0))
     = [(aapl_contract, aapl_order)]
  /\ placement_calls
       (trace (Trader.run accepting_ib (fs_with labelled_batch_swapped)
                 CSV_FILE 0)) = []
  /\ List.concat (reorder [1; 0]%nat (map row_request (rows labelled_batch)))
     = [(ibm_contract, ibm_order); (aapl_contract, aapl_order)].
Proof. vm_compute. repeat split; reflexivity. Qed.

(* ================================================================== *)
(** * Loading *)
(* ================================================================== *)

Lemma missing_symbol_no_request {py : Text} row :
  lookup "Symbol" row = None -> row_request row = [].
Proof.
  intros H. unfold row_request, contract_of_row, getitem. now rewrite H.
Qed.

Lemma order_raises_no_request {py : Text} row e :
  order_of_row row = Raise e -> row_request row = [].
Proof.
  intros H. unfold row_request. rewrite H. now destruct (contract_of_row row).
Qed.

Lemma missing_action_no_request {py : Text} row :
  lookup "Action" row = None -> row_request row = [].
Proof.
  intros H. apply (order_raises_no_request row (KeyError "Action")).
  unfold order_of_row, getitem. now rewrite H.
Qed.

Lemma quantity_raises_no_request {py : Text} row e :
  quantity_of row = Raise e -> row_request row = [].
Proof.
  intros H. unfold row_request, order_of_row, rbind. rewrite H.
  destruct (contract_of_row row) as [c|]; [|reflexivity].
  destruct (getitem row "Action") as [x|]; [|reflexivity].
  now destruct (cell_upper x).
Qed.

(** A row without the [OrderType] column is translated as the same row
    with the order type [MKT]. *)
Lemma order_type_defaults_to_MKT {py : Text} row :
  lookup "OrderType" row = None ->
  order_of_row row = order_of_row (("OrderType", CStr "MKT") :: row).
Proof.
  intros H.
  unfold order_of_row, quantity_of, fill_order, getitem, get, get_default.
  cbn [lookup String.eqb Ascii.eqb Bool.eqb]. now rewrite H.
Qed.

(** The turn of a row for which a creation raises: the error is logged,
    the trades and the gateway are as they were. *)
Lemma skipped_turn {G : Type} (ib : IB G) {py : Text} n idx i row trades
    (g : G) :
  plus_one idx = Ok i ->
  (exists e, contract_of_row row = Raise e)
  \/ (exists e, order_of_row row = Raise e) ->
  exists m,
    process_row ib n (idx, row) trades g
    = (Ok trades, g, [Log INFO (MsgProcessingOrder i n); Log ERROR m]).
Proof.
  intros Hi H. rewrite process_row_run, Hi.
  destruct (contract_of_row row) as [c|e]; [|now eexists].
  destruct H as [(e & H)|(e & H)]; [discriminate|].
  rewrite H. now eexists.
Qed.

(** C4, as the code has it.  Reading raises nothing: a file that is not
    found gives [None] and an error line, and [process_all_orders] then
    returns the empty list without touching the gateway; a file that is
    read is returned as it is, whatever its columns and quantities.  Rows
    are judged one by one in the loop: a row without [Symbol], [Action] or
    [Quantity], or whose quantity does not convert to an integer, leads to
    no request, its turn logs an error and leaves the trades and the
    gateway as they were, and, in a frame whose labels are numbers (the
    default index), the requests of the batch are those of the other rows;
    a row without [OrderType] is translated as with the type [MKT]; a
    quantity is only compared with [MAX_ORDER_SIZE], so one that is zero or
    negative is not refused by the guard. *)
Theorem load_reports_and_rows_are_skipped {G : Type} (ib : IB G)
    {py : Text} (fs : FileSystem) (file : string) (g : G) (row : Series) :
  Trader.read_orders_from_csv fs file g
  = match read_csv fs file with
    | Ok df =>
        (Ok (Some df), g,
         [Log INFO (MsgReadingOrders file); Log INFO (MsgFoundOrders (len df));
          Log INFO (MsgColumns (columns df))])
    | Raise FileNotFoundError =>
        (Ok None, g,
         [Log INFO (MsgReadingOrders file); Log ERROR (MsgCsvNotFound file)])
    | Raise e =>
        (Ok None, g,
         [Log INFO (MsgReadingOrders file); Log ERROR (MsgErrorReadingCsv e)])
    end
  /\ match read_csv fs file with
     | Ok df =>
         numbered df = true ->
         placement_calls (trace (Trader.process_all_orders ib fs file g))
         = flat_map row_request (rows df)
     | Raise e =>
         exists tr,
           Trader.process_all_orders ib fs file g
           = (Ok [], g, tr ++ [Log WARNING MsgNoOrders])
           /\ Forall background tr
     end
  /\ (lookup "Symbol" row = None \/ lookup "Action" row = None
      \/ lookup "Quantity" row = None \/ (exists e, quantity_of row = Raise e) ->
      row_request row = []
      /\ forall n idx i trades,
           plus_one idx = Ok i ->
           exists m,
             process_row ib n (idx, row) trades g
             = (Ok trades, g,
                [Log INFO (MsgProcessingOrder i n); Log ERROR m]))
  /\ (lookup "OrderType" row = None ->
      order_of_row row = order_of_row (("OrderType", CStr "MKT") :: row))
  /\ (forall q, quantity_of row = Ok q -> q <= 0 ->
      forall q', order_of_row row <> Ok (TooLarge q')).
Proof.
  split; [apply trader_read_run|].
  split.
  - destruct (read_csv fs file) as [df|e] eqn:Hread.
    + intros Hn.
      destruct (trader_process_summary ib fs file g)
        as (t & g' & tr & H & P & _).
      rewrite H. unfold trace; cbn [snd]. rewrite P.
      unfold trader_frame. rewrite Hread, taken_requests.
      now rewrite (processed_numbered _ Hn).
    + destruct (trader_read_logs fs file g) as (tr & H & _ & B).
      unfold trader_frame in H. rewrite Hread in H.
      exists tr. split; [|exact B].
      apply (bind_run _ _ _ _ _ _ _ _ _ H). reflexivity.
  - split; [|split].
    + intros Hrow.
      assert (Hraise : (exists e, contract_of_row row = Raise e)
                       \/ (exists e, order_of_row row = Raise e)).
      { destruct Hrow as [H|[H|[H|(e & H)]]].
        - left. exists (KeyError "Symbol").
          unfold contract_of_row, getitem. now rewrite H.
        - right. exists (KeyError "Action").
          unfold order_of_row, getitem. now rewrite H.
        - right. unfold order_of_row, quantity_of, getitem, rbind. rewrite H.
          destruct (lookup "Action" row) as [a|]; [|now eexists].
          destruct (cell_upper a); now eexists.
        - right. unfold order_of_row, rbind. rewrite H.
          destruct (getitem row "Action") as [a|]; [|now eexists].
          destruct (cell_upper a); now eexists. }
      split.
      * destruct Hrow as [H|[H|[H|(e & H)]]].
        -- now apply missing_symbol_no_request.
        -- now apply missing_action_no_request.
        -- apply (quantity_raises_no_request row (KeyError "Quantity")).
           unfold quantity_of, getitem. now rewrite H.
        -- now apply (quantity_raises_no_request row e).
      * intros n idx i trades Hi.
        now apply (skipped_turn ib n idx i row trades g Hi).
    + apply order_type_defaults_to_MKT.
    + intros q Hq Hle q' Ho. apply order_too_large in Ho.
      destruct Ho as (Hq' & Hgt). rewrite Hq in Hq'. injection Hq' as Heq.
      unfold MAX_ORDER_SIZE in Hgt. lia.
Qed.

Lemma load_reports_and_rows_are_skipped_witness :
  numbered bad_quantity_batch = true
  /\ placement_calls
       (trace (Trader.process_all_orders accepting_ib
                 (fs_with bad_quantity_batch) CSV_FILE 0))
     = flat_map row_request (rows bad_quantity_batch)
  /\ row_request (combine required_columns
                    [CStr "AAPL"; CStr "BUY"; CStr "abc"; CStr "MKT"]) = []
  /\ (exists m,
        process_row accepting_ib 2
          (Label (CInt 0),
           combine required_columns
             [CStr "AAPL"; CStr "BUY"; CStr "abc"; CStr "MKT"]) [] 0
        = (Ok [], 0, [Log INFO (MsgProcessingOrder (CInt 1) 2); Log ERROR m]))
  /\ order_of_row [("Symbol", CStr "AAPL"); ("Action", CStr "BUY");
                   ("Quantity", CInt 100)]
     = order_of_row [("OrderType", CStr "MKT"); ("Symbol", CStr "AAPL");
                     ("Action", CStr "BUY"); ("Quantity", CInt 100)]
  /\ order_of_row (combine required_columns
                     [CStr "MSFT"; CStr "SELL"; CStr "-5"; CStr "MKT"])
     <> Ok (TooLarge (-5)).
Proof.
  pose proof (load_reports_and_rows_are_skipped accepting_ib
                (fs_with bad_quantity_batch) CSV_FILE 0
                (combine required_columns
                   [CStr "AAPL"; CStr "BUY"; CStr "abc"; CStr "MKT"]))
    as (_ & Hbatch & Hskip & _ & _).
  pose proof (load_reports_and_rows_are_skipped accepting_ib
                (fs_with bad_quantity_batch) CSV_FILE 0
                [("Symbol", CStr "AAPL"); ("Action", CStr "BUY");
                 ("Quantity", CInt 100)])
    as (_ & _ & _ & Hdefault & _).
  pose proof (load_reports_and_rows_are_skipped accepting_ib
                (fs_with bad_quantity_batch) CSV_FILE 0
                (combine required_columns
                   [CStr "MSFT"; CStr "SELL"; CStr "-5"; CStr "MKT"]))
    as (_ & _ & _ & _ & Hguard).
  assert (Hbad : exists e,
             quantity_of (combine required_columns
                            [CStr "AAPL"; CStr "BUY"; CStr "abc"; CStr "MKT"])
             = Raise e) by (now exists ValueError).
  destruct (Hskip (or_intror (or_intror (or_intror Hbad)))) as (Hreq & Hturn).
  split; [reflexivity|].
  split; [exact (Hbatch eq_refl)|].
  split; [exact Hreq|].
  split; [exact (Hturn 2 (Label (CInt 0)) (CInt 1) [] eq_refl)|].
  split; [exact (Hdefault eq_refl)|].
  apply (Hguard (-5)); [reflexivity|lia].
Defined.

(** C4 as stated fails: a frame whose first quantity is no number and
    whose second is negative is loaded as it is, the first row is skipped
    and the second is sent to the gateway with its negative quantity; and a
    missing file makes the reader return [None], not raise. *)
Lemma bad_quantities_do_not_abort_the_load :
  outcome (Trader.read_orders_from_csv (fs_with bad_quantity_batch) CSV_FILE 0)
  = Ok (Some bad_quantity_batch)
  /\ placement_calls
       (trace (Trader.process_all_orders accepting_ib
                 (fs_with bad_quantity_batch) CSV_FILE 0))
     = [(msft_contract,
         {| action := "SELL"; totalQuantity := -5; orderType := "MKT";
            lmtPrice := None; auxPrice := None; tif := CStr "DAY";
            account := None |})]
  /\ outcome (Trader.read_orders_from_csv fs_without CSV_FILE 0) = Ok None.
Proof. vm_compute. repeat split; reflexivity. Qed.

(* ================================================================== *)
(** * The session of the example batch *)
(* ================================================================== *)





(* ================================================================== *)
(** * The boundary of the guard, and limit orders without a price *)
(* ================================================================== *)

Lemma fill_order_fields {py : Text} row act q ot o :
  fill_order row act q ot = Ok o ->
  action o = act /\ totalQuantity o = q /\ orderType o = ot.
Proof.
  unfold fill_order, rbind. intros H.
  repeat match type of H with
         | context [match ?x with _ => _ end] => destruct x; try discriminate
         end; injection H as <-; repeat split.
Qed.

(** The optional account never makes the creation fail. *)
Lemma account_field row :
  exists acct,
    (if notna (get row "Account")
     then rbind (getitem row "Account") (fun a => Ok (Some a))
     else Ok None) = Ok acct.
Proof.
  destruct (notna (get row "Account")) eqn:H.
  - destruct (getitem_get _ _ H) as (v & -> & _). now exists (Some v).
  - now exists None.
Qed.

(** C6.  A row whose quantity equals [MAX_ORDER_SIZE] passes the guard: no
    size rejection and no warning; the order is built with that quantity,
    [create_order] returns it, and the loop sends it to the gateway.  The
    row is otherwise complete: its action and order type are text, its
    optional fields convert, its contract was created; its label is an
    integer, as the default index gives. *)
Theorem order_at_the_limit_is_accepted {G : Type} (ib : IB G) {py : Text}
    (n idx : Z) (row : Series) (trades : list Trade) (g : G)
    (a t : string) (o : Order) (c : Contract) :
  getitem row "Action" = Ok (CStr a) ->
  quantity_of row = Ok MAX_ORDER_SIZE ->
  get_default row "OrderType" (CStr "MKT") = CStr t ->
  fill_order row (upper a) MAX_ORDER_SIZE (upper t) = Ok o ->
  contract_of_row row = Ok c ->
  (forall q, order_of_row row <> Ok (TooLarge q))
  /\ order_of_row row = Ok (Built o)
  /\ totalQuantity o = MAX_ORDER_SIZE
  /\ create_order row g = (Ok (Some o), g, [])
  /\ row_request row = [(c, o)]
  /\ exists trades' g' tr,
       returns (process_row ib n (Label (CInt idx), row) trades) g trades' g' tr
       /\ placement_calls tr = [(c, o)]
       /\ logged WARNING tr = [].
Proof.
  intros Ha Hq Ht Hfill Hc.
  assert (Ho : order_of_row row = Ok (Built o)).
  { rewrite (order_of_row_guard row a MAX_ORDER_SIZE t Ha Hq Ht).
    rewrite Hfill. reflexivity. }
  assert (Hreq : row_request row = [(c, o)]).
  { unfold row_request. now rewrite Hc, Ho. }
  split; [intros q Hbad; rewrite Ho in Hbad; discriminate|].
  split; [exact Ho|].
  split; [apply (fill_order_fields _ _ _ _ _ Hfill)|].
  split; [rewrite create_order_run, Ho; reflexivity|].
  split; [exact Hreq|].
  destruct (request_turn ib n (Label (CInt idx)) (CInt (idx + 1)) row trades g
              c o eq_refl Hreq)
    as (added & g' & tr & H & P & W & _).
  now exists (trades ++ added), g', tr.
Qed.

Lemma order_at_the_limit_is_accepted_witness :
  exists o,
    create_order (G := Z)
      (combine required_columns [CStr "AAPL"; CStr "BUY"; CInt 1000; CStr "MKT"])
      0
    = (Ok (Some o), 0, [])
    /\ totalQuantity o = 1000.
Proof.
  eexists.
  pose proof (order_at_the_limit_is_accepted accepting_ib 1 0
                (combine required_columns
                   [CStr "AAPL"; CStr "BUY"; CInt 1000; CStr "MKT"])
                [] 0 "BUY" "MKT" _ aapl_contract
                eq_refl eq_refl eq_refl eq_refl eq_refl)
    as (_ & _ & Hq & Hc & _).
  split; [exact Hc|exact Hq].
Defined.

(** C7.  A row whose order type is [LMT] (in any case of letters) and whose
    limit price is absent, the column missing or the cell empty, is
    translated without an exception: [create_order] returns an order of
    type [LMT] whose limit price is left unset, and logs nothing.  The row
    is one that passes the guard and whose action is text. *)
Theorem limit_order_without_price_passes_through {G : Type} {py : Text}
    (g : G)
    (row : Series) (a t : string) (q : Z) :
  getitem row "Action" = Ok (CStr a) ->
  quantity_of row = Ok q ->
  q <= MAX_ORDER_SIZE ->
  get_default row "OrderType" (CStr "MKT") = CStr t ->
  upper t = "LMT" ->
  notna (get row "LmtPrice") = false ->
  exists o,
    order_of_row row = Ok (Built o)
    /\ create_order row g = (Ok (Some o), g, [])
    /\ orderType o = "LMT"
    /\ lmtPrice o = None
    /\ auxPrice o = None
    /\ action o = upper a
    /\ totalQuantity o = q.
Proof.
  intros Ha Hq Hle Ht Hup Hna.
  destruct (account_field row) as (acct & Hacct).
  exists {| action := upper a; totalQuantity := q; orderType := "LMT";
            lmtPrice := None; auxPrice := None;
            tif := get_default row "TimeInForce" (CStr "DAY");
            account := acct |}.
  assert (Ho : order_of_row row
               = Ok (Built {| action := upper a; totalQuantity := q;
                              orderType := "LMT"; lmtPrice := None;
                              auxPrice := None;
                              tif := get_default row "TimeInForce" (CStr "DAY");
                              account := acct |})).
  { rewrite (order_of_row_guard row a q t Ha Hq Ht), Hup.
    replace (q >? MAX_ORDER_SIZE) with false
      by (symmetry; rewrite Z.gtb_ltb; now apply Z.ltb_ge).
    unfold fill_order. rewrite Hna. simpl. unfold rbind in *.
    now rewrite Hacct. }
  split; [exact Ho|].
  split; [rewrite create_order_run, Ho; reflexivity|].
  repeat split.
Qed.

Lemma limit_order_without_price_passes_through_witness :
  exists o,
    create_order (G := Z) limit_without_price 0 = (Ok (Some o), 0, [])
    /\ orderType o = "LMT"
    /\ lmtPrice o = None.
Proof.
  destruct (limit_order_without_price_passes_through 0 limit_without_price
              "buy" "lmt" 1000 eq_refl eq_refl
              ltac:(unfold MAX_ORDER_SIZE; lia) eq_refl eq_refl eq_refl)
    as (o & _ & Hc & Ht & Hl & _).
  exists o. repeat split; assumption.
Defined.

(* ================================================================== *)
(** * The position report *)
(* ================================================================== *)

(** A finite float minus itself is [+0.0]. *)
Lemma fsub_self (f : float) :
  is_finite f = true -> fsub f f = S754_zero false.
Proof.
  destruct f as [s|s| |s m e]; try discriminate; intros _.
  - now destruct s.
  - unfold fsub, SFsub. now rewrite Z.sub_diag.
Qed.

(** A finite float times a zero is a zero. *)
Lemma fmul_zero (q z : float) :
  is_finite q = true -> is_zero z = true -> is_zero (fmul q z) = true.
Proof.
  destruct q as [s|s| |s m e]; try discriminate;
    destruct z as [s'|s'| |s' m' e']; try discriminate; reflexivity.
Qed.

(** C8.  For every position the query returns, [fetch_positions] logs one
    row, in order, whose last field, the unrealized profit and loss, is
    [position * (avgCost - avgCost)]: the average cost and the quantity are
    the only inputs, no market price is.  For a finite average cost the
    difference is [+0.0], so the field is the quantity times zero, a zero
    for every finite quantity. *)
Theorem unrealized_pnl_is_zero {G : Type} (ib : IB G) (g g1 : G)
    (ps : list Position) (pos : Position) :
  ib_positions ib g = (Ok ps, g1) ->
  In pos ps ->
  pick position_row_of (trace (fetch_positions ib g)) = map position_row ps
  /\ In (Log INFO
           (MsgPositionRow (symbol (contract pos)) (position pos) (avgCost pos)
              (fmul (position pos) (avgCost pos))
              (fmul (position pos) (fsub (avgCost pos) (avgCost pos)))))
        (trace (fetch_positions ib g))
  /\ (is_finite (avgCost pos) = true ->
      fsub (avgCost pos) (avgCost pos) = S754_zero false
      /\ (is_finite (position pos) = true ->
          is_zero (fmul (position pos) (fsub (avgCost pos) (avgCost pos)))
          = true)).
Proof.
  intros Hq Hin.
  assert (Hrows : forall l : list Position,
             pick position_row_of (map (fun p => Log INFO (position_row p)) l)
             = map position_row l).
  { induction l as [|p l IH]; simpl; [reflexivity|]. now rewrite IH. }
  assert (Htr : trace (fetch_positions ib g)
                = [Log INFO MsgFetchingPositions; Gateway CallPositions;
                   Log INFO (MsgRule 80); Log INFO MsgPositionsHeader;
                   Log INFO (MsgRule 80)]
                  ++ map (fun p => Log INFO (position_row p)) ps
                  ++ [Log INFO (MsgRule 80)]).
  { rewrite fetch_positions_run, Hq.
    destruct ps as [|p0 ps0]; [destruct Hin|reflexivity]. }
  rewrite Htr.
  split; [|split].
  - rewrite !pick_app, Hrows. simpl. apply app_nil_r.
  - apply in_or_app. right. apply in_or_app. left.
    apply in_map_iff. exists pos. split; [reflexivity|exact Hin].
  - intros Hfin. rewrite (fsub_self _ Hfin). split; [reflexivity|].
    intros Hpos. now apply fmul_zero.
Qed.

Lemma unrealized_pnl_is_zero_witness :
  pick position_row_of (trace (fetch_positions holding_ib 0))
  = [ MsgPositionRow (CStr "AAPL") (float_of_Z 100) (float_of_Z 150)
        (float_of_Z 15000) (S754_zero false);
      MsgPositionRow (CStr "MSFT") (S754_finite true 5 0)
        (S754_finite false 7205759403792794 (-56))
        (fmul (S754_finite true 5 0) (S754_finite false 7205759403792794 (-56)))
        (S754_zero true) ].
Proof.
  rewrite (proj1 (unrealized_pnl_is_zero holding_ib 0 0 two_positions
                    (List.hd (Build_Position aapl_contract S754_nan S754_nan)
                       two_positions)
                    eq_refl (or_introl eq_refl))).
  vm_compute. reflexivity.
Defined.

(* ================================================================== *)
(** * The account check of [connect] *)
(* ================================================================== *)

Lemma prefix_spec (n h : string) :
  prefix n h = true <-> exists b, h = (n ++ b)%string.
Proof.
  revert h. induction n as [|c n IH]; intros h; simpl.
  - split; [intros _; now exists h|intros _; now destruct h].
  - destruct h as [|c' h'].
    + split; [discriminate|intros (b & H); discriminate].
    + simpl. destruct (Ascii.ascii_dec c c') as [->|Hne].
      * rewrite IH. split; intros (b & H); exists b.
        -- now rewrite H.
        -- now injection H.
      * split; [discriminate|].
        intros (b & H). injection H as H1 _. now destruct Hne.
Qed.

Lemma contains_eq (n h : string) :
  contains n h
  = if prefix n h then true
    else match h with
         | EmptyString => false
         | String _ h' => contains n h'
         end.
Proof. now destruct h. Qed.

(** [contains] is the substring test. *)
Lemma contains_spec (n h : string) :
  contains n h = true <-> exists a b, h = (a ++ n ++ b)%string.
Proof.
  split.
  - induction h as [|c h IH]; rewrite contains_eq.
    + destruct (prefix n "") eqn:Hp; [|discriminate].
      intros _. apply prefix_spec in Hp. destruct Hp as (b & Hb).
      now exists ""%string, b.
    + destruct (prefix n (String c h)) eqn:Hp.
      * intros _. apply prefix_spec in Hp. destruct Hp as (b & Hb).
        now exists ""%string, b.
      * intros H. destruct (IH H) as (a & b & ->).
        now exists (String c a), b.
  - intros (a & b & ->). induction a as [|c a IH]; rewrite contains_eq.
    + assert (Hp : prefix n (n ++ b) = true) by (apply prefix_spec; now exists b).
      simpl. now rewrite Hp.
    + change (String c a ++ n ++ b)%string with (String c (a ++ n ++ b)).
      destruct (prefix n (String c (a ++ n ++ b))); [reflexivity|exact IH].
Qed.

Lemma paper_pattern_spec (acc : string) :
  paper_pattern acc = false <->
  forall pat, In pat ["paper"; "df"; "du"] ->
    ~ exists a b, lower acc = (a ++ pat ++ b)%string.
Proof.
  unfold paper_pattern. rewrite !orb_false_iff. split.
  - intros ((H1 & H2) & H3) pat [<-|[<-|[<-|[]]]] Hsub;
      apply contains_spec in Hsub; congruence.
  - intros H.
    assert (Hc : forall pat, In pat ["paper"; "df"; "du"] ->
                 contains pat (lower acc) = false).
    { intros pat Hin. destruct (contains pat (lower acc)) eqn:Hp; [|reflexivity].
      apply contains_spec in Hp. now destruct (H pat Hin). }
    repeat split; apply Hc; simpl; tauto.
Qed.

Lemma connect_run {G : Type} (ib : IB G) (self : IBConnectionManager)
    (g g1 g2 : G) (u : unit) (accounts : list string) :
  ib_connect ib (host self) (port self) (client_id self) g = (Ok u, g1) ->
  ib_managedAccounts ib g1 = (Ok accounts, g2) ->
  connect ib self g
  = (Ok true, g2,
     [Log INFO (MsgConnecting (host self) (port self));
      Gateway (CallConnect (host self) (port self) (client_id self));
      Log INFO MsgConnected;
      Gateway CallManagedAccounts;
      Log INFO (MsgConnectedAccounts accounts)]
     ++ (if (negb (is_nil accounts) && negb (existsb paper_pattern accounts))%bool
         then [Log WARNING MsgNotPaperAccount] else [])).
Proof.
  intros Hc Ha.
  unfold connect, try_except, bind, call, log, ret. rewrite Hc.
  cbv beta iota delta [PAPER_TRADING_ONLY]. rewrite Ha.
  now destruct (negb (is_nil accounts) && negb (existsb paper_pattern accounts))%bool.
Qed.

(** C9.  With the paper-only flag set (it is, in the configuration), when
    the connection is made and the account list is returned, [connect]
    returns [True]; the warning is logged exactly when the list is not
    empty and no identifier, in lower case, has ["paper"], ["df"] or ["du"]
    as a substring. *)
Theorem paper_account_check_is_advisory {G : Type} (ib : IB G)
    (self : IBConnectionManager) (g g1 g2 : G) (accounts : list string) :
  ib_connect ib (host self) (port self) (client_id self) g = (Ok tt, g1) ->
  ib_managedAccounts ib g1 = (Ok accounts, g2) ->
  PAPER_TRADING_ONLY = true
  /\ outcome (connect ib self g) = Ok true
  /\ (In (Log WARNING MsgNotPaperAccount) (trace (connect ib self g))
      <-> accounts <> []
          /\ forall acc, In acc accounts ->
             forall pat, In pat ["paper"; "df"; "du"] ->
               ~ exists a b, lower acc = (a ++ pat ++ b)%string).
Proof.
  intros Hc Ha. split; [reflexivity|].
  rewrite (connect_run ib self g g1 g2 tt accounts Hc Ha).
  split; [reflexivity|].
  unfold trace; simpl snd.
  assert (Hcond : (negb (is_nil accounts) && negb (existsb paper_pattern accounts))%bool
                  = true
                  <-> accounts <> []
                      /\ forall acc, In acc accounts ->
                         forall pat, In pat ["paper"; "df"; "du"] ->
                           ~ exists a b, lower acc = (a ++ pat ++ b)%string).
  { rewrite andb_true_iff, !negb_true_iff. split.
    - intros (Hn & He). split; [now destruct accounts|].
      intros acc Hin. apply paper_pattern_spec.
      destruct (paper_pattern acc) eqn:Hp; [|reflexivity].
      assert (existsb paper_pattern accounts = true)
        by (apply existsb_exists; now exists acc).
      congruence.
    - intros (Hn & Hall). split; [now destruct accounts|].
      destruct (existsb paper_pattern accounts) eqn:He; [|reflexivity].
      apply existsb_exists in He. destruct He as (acc & Hin & Hp).
      pose proof (proj2 (paper_pattern_spec acc) (Hall acc Hin)). congruence. }
  rewrite <- Hcond.
  destruct (negb (is_nil accounts) && negb (existsb paper_pattern accounts))%bool.
  - split; [reflexivity|]. intros _. simpl. tauto.
  - split; [|discriminate].
    intros Hin. simpl in Hin.
    repeat (destruct Hin as [Hin|Hin]; [discriminate|]).
    destruct Hin.
Qed.

Lemma paper_account_check_is_advisory_witness :
  outcome (connect refusing_ib default_manager 0) = Ok true
  /\ In (Log WARNING MsgNotPaperAccount)
        (trace (connect refusing_ib default_manager 0)).
Proof.
  destruct (paper_account_check_is_advisory refusing_ib default_manager 0 0 0
              ["U7654321"] eq_refl eq_refl) as (_ & Hout & Hwarn).
  split; [exact Hout|].
  vm_compute. do 5 right. left. reflexivity.
Defined.

(* ================================================================== *)
(** * Exceptions that leave the batch *)
(* ================================================================== *)

(** C10, on a file whose data lines carry one field more than the header,
    so that the index labels are text.  Both rows translate and neither
    creation raises, yet [process_all_orders] of both scripts raises a
    [TypeError] instead of returning a list: the first line of the loop
    formats [idx + 1] outside every [try].  Nothing was requested. *)
Theorem text_label_raises_out_of_the_batch :
  read_csv (fs_with text_labelled_batch) CSV_FILE = Ok text_labelled_batch
  /\ flat_map row_request (rows text_labelled_batch)
     = [(aapl_contract, aapl_order); (ibm_contract, ibm_order)]
  /\ Trader.process_all_orders accepting_ib (fs_with text_labelled_batch)
       CSV_FILE 0
     = (Raise TypeError, 0,
        [Log INFO (MsgReadingOrders CSV_FILE);
         Log INFO (MsgFoundOrders 2);
         Log INFO (MsgColumns required_columns)])
  /\ RealTest.process_all_orders accepting_ib (fs_with text_labelled_batch)
       CSV_FILE 0
     = (Raise TypeError, 0,
        [Log INFO (MsgReadingOrders CSV_FILE);
         Log INFO (MsgFoundOrders 2);
         Log INFO (MsgColumns required_columns)]).
Proof. vm_compute. repeat split; reflexivity. Qed.

(* ================================================================== *)
(** * Further properties: connection, contracts and orders *)
(* ================================================================== *)

(** [connect] never raises.  It returns [False] exactly when the gateway's
    [connect] raises or, once connected, its account query raises; the
    error lines logged are then the two of the handler, the failure with
    the exception and the advice to check that the gateway is running, and
    after a failed [connect] of the gateway no other method of it is
    called. *)
Theorem connect_returns_false_on_failure {G : Type} (ib : IB G)
    (self : IBConnectionManager) (g : G) :
  exists b g' tr,
    connect ib self g = (Ok b, g', tr)
    /\ (b = false <->
        (exists e g1,
            ib_connect ib (host self) (port self) (client_id self) g
            = (Raise e, g1))
        \/ (exists u g1 e g2,
               ib_connect ib (host self) (port self) (client_id self) g
               = (Ok u, g1)
               /\ ib_managedAccounts ib g1 = (Raise e, g2)))
    /\ (b = false ->
        exists e,
          logged ERROR tr = [MsgFailedToConnect e; MsgMakeSureRunning]
          /\ ((exists g1,
                  ib_connect ib (host self) (port self) (client_id self) g
                  = (Raise e, g1))
              \/ (exists u g1 g2,
                     ib_connect ib (host self) (port self) (client_id self) g
                     = (Ok u, g1)
                     /\ ib_managedAccounts ib g1 = (Raise e, g2))))
    /\ (b = true -> logged ERROR tr = [])
    /\ ((exists e g1,
            ib_connect ib (host self) (port self) (client_id self) g
            = (Raise e, g1)) ->
        gateway_calls tr
        = [CallConnect (host self) (port self) (client_id self)])
    /\ placement_calls tr = [].
Proof.
  destruct (ib_connect ib (host self) (port self) (client_id self) g)
    as [[u|e] g1] eqn:Hc.
  - destruct (ib_managedAccounts ib g1) as [[accounts|e] g2] eqn:Ha.
    + eexists _, _, _. split; [apply (connect_run ib self g g1 g2 u accounts Hc Ha)|].
      split; [split; [discriminate|]|].
      { intros [(e & g' & H)|(u' & g1' & e & g2' & H1 & H2)]; [discriminate|].
        injection H1 as <- <-. congruence. }
      split; [discriminate|].
      split; [intros _|].
      { now destruct (negb (is_nil accounts)
                      && negb (existsb paper_pattern accounts))%bool. }
      split; [intros (e & g' & H); discriminate|].
      now destruct (negb (is_nil accounts) && negb (existsb paper_pattern accounts))%bool.
    + exists false. eexists _, _. split.
      { unfold connect, try_except, bind, call, log, ret. rewrite Hc.
        cbv beta iota delta [PAPER_TRADING_ONLY]. rewrite Ha. reflexivity. }
      split; [split; [intros _|reflexivity]|].
      { right. now exists u, g1, e, g2. }
      split; [intros _; exists e; split; [reflexivity|]|].
      { right. now exists u, g1, g2. }
      split; [discriminate|].
      split; [intros (e' & g' & H); discriminate|reflexivity].
  - exists false. eexists _, _. split.
    { unfold connect, try_except, bind, call, log, ret. rewrite Hc. reflexivity. }
    split; [split; [intros _|reflexivity]|].
    { left. now exists e, g1. }
    split; [intros _; exists e; split; [reflexivity|]|].
    { left. now exists g1. }
    split; [discriminate|].
    split; reflexivity.
Qed.

Lemma connect_returns_false_on_failure_witness :
  exists g' tr,
    connect unreachable_ib default_manager 0 = (Ok false, g', tr)
    /\ logged ERROR tr
       = [MsgFailedToConnect (OtherError "connection refused");
          MsgMakeSureRunning]
    /\ gateway_calls tr = [CallConnect IB_HOST IB_PORT CLIENT_ID].
Proof.
  destruct (connect_returns_false_on_failure unreachable_ib default_manager 0)
    as (b & g' & tr & H & Hb & Herr & _ & Hcalls & _).
  assert (Hraise : exists e g1,
             ib_connect unreachable_ib (host default_manager)
               (port default_manager) (client_id default_manager) 0
             = (Raise e, g1))
    by (now exists (OtherError "connection refused"), 1).
  assert (Hfalse : b = false) by (apply Hb; now left).
  exists g', tr. split; [|split].
  - rewrite H. now rewrite Hfalse.
  - destruct (Herr Hfalse) as (e & Hlog & [(g1 & He)|(u & g1 & g2 & He & _)]).
    + rewrite Hlog. now injection He as <- _.
    + discriminate He.
  - apply Hcalls. exact Hraise.
Defined.

Lemma split_first_spec (sep : ascii) (s : string) :
  (s = split_first sep s
   \/ exists rest, s = (split_first sep s ++ String sep rest)%string)
  /\ forall a b, split_first sep s <> (a ++ String sep b)%string.
Proof.
  induction s as [|c s (IH1 & IH2)]; simpl.
  - split; [now left|]. intros [|x a] b; discriminate.
  - destruct (Ascii.eqb c sep) eqn:Hc.
    + apply Ascii.eqb_eq in Hc. subst c. split.
      * right. now exists s.
      * intros [|x a] b; discriminate.
    + split.
      * destruct IH1 as [IH1|(rest & IH1)].
        -- left. now rewrite <- IH1.
        -- right. exists rest. simpl. now rewrite <- IH1.
      * intros [|x a] b; simpl.
        -- intros [= -> _]. now rewrite Ascii.eqb_refl in Hc.
        -- intros [= _ H]. now apply (IH2 a b).
Qed.

(** A contract takes its symbol from the row as it is; its exchange is the
    text of the [Exchange] cell up to the first ["/"], so it holds no ["/"],
    and is ["SMART"] when the cell is missing or empty; its currency is
    ["USD"] when the row has no [Currency] column. *)
Theorem contract_takes_the_first_exchange (row : Series) (c : Contract) :
  contract_of_row row = Ok c ->
  lookup "Symbol" row = Some (symbol c)
  /\ match get row "Exchange" with
     | Some (CStr s) =>
         (s = exchange c \/ exists rest, s = (exchange c ++ "/" ++ rest)%string)
         /\ forall a b, exchange c <> (a ++ "/" ++ b)%string
     | _ => exchange c = "SMART"
     end
  /\ currency c = match lookup "Currency" row with
                  | Some v => v
                  | None => CStr "USD"
                  end.
Proof.
  unfold contract_of_row, rbind, getitem, get.
  destruct (lookup "Symbol" row) as [sym|]; [|discriminate].
  destruct (lookup "Exchange" row) as [x|] eqn:Hx; simpl.
  - destruct x as [s|z|f|b]; simpl.
    + intros [= <-]. simpl. split; [reflexivity|].
      split; [|reflexivity]. apply (split_first_spec "/" s).
    + discriminate.
    + destruct (negb (is_nan f)); [discriminate|].
      intros [= <-]. repeat split.
    + discriminate.
  - intros [= <-]. repeat split.
Qed.

Lemma contract_takes_the_first_exchange_witness :
  exists c,
    contract_of_row stop_limit_row = Ok c /\ exchange c = "SMART".
Proof.
  eexists. split; [reflexivity|].
  destruct (contract_takes_the_first_exchange stop_limit_row _ eq_refl)
    as (_ & _ & _).
  reflexivity.
Defined.

(** [create_contract] gives [None] exactly when the row has no [Symbol]
    column or its [Exchange] cell holds a value that is present and is not
    text; it then logs one error line and nothing else. *)
Theorem contract_creation_fails_exactly_when {G : Type} (row : Series) (g : G) :
  (outcome (create_contract row g) = Ok None
   <-> lookup "Symbol" row = None
       \/ exists x, lookup "Exchange" row = Some x
                    /\ notna (Some x) = true
                    /\ forall s, x <> CStr s)
  /\ (outcome (create_contract row g) = Ok None ->
      exists e,
        trace (create_contract row g)
        = [Log ERROR (MsgErrorCreatingContract
                        (get_default row "Symbol" (CStr "UNKNOWN")) e)]).
Proof.
  rewrite create_contract_run.
  unfold contract_of_row, rbind, getitem, get.
  destruct (lookup "Symbol" row) as [sym|].
  - destruct (lookup "Exchange" row) as [x|]; simpl.
    + destruct x as [s|z|f|b]; simpl.
      * split; [split; [discriminate|]|discriminate].
        intros [H|(x & [= <-] & _ & H)]; [discriminate|]. now destruct (H s).
      * split; [split; [intros _|reflexivity]|intros _; now eexists].
        right. exists (CInt z). repeat split. discriminate.
      * destruct (is_nan f) eqn:Hn; simpl.
        -- split; [split; [discriminate|]|discriminate].
           intros [H|(x & [= <-] & Hna & _)]; [discriminate|].
           simpl in Hna. rewrite Hn in Hna. discriminate.
        -- split; [split; [intros _|reflexivity]|intros _; now eexists].
           right. exists (CFloat f). simpl. rewrite Hn.
           repeat split. discriminate.
      * split; [split; [intros _|reflexivity]|intros _; now eexists].
        right. exists (CBool b). repeat split. discriminate.
    + split; [split; [discriminate|]|discriminate].
      intros [H|(x & H & _)]; discriminate.
  - split; [split; [intros _; now left|reflexivity]|intros _; now eexists].
Qed.

Lemma contract_creation_fails_exactly_when_witness :
  outcome (create_contract (G := Z) [("Action", CStr "BUY")] 0) = Ok None.
Proof.
  apply (proj1 (contract_creation_fails_exactly_when
                  [("Action", CStr "BUY")] 0)).
  left. reflexivity.
Defined.

Lemma upper_char_not_lower (c : ascii) : is_lower_char (upper_char c) = false.
Proof.
  destruct c as [[] [] [] [] [] [] [] []]; reflexivity.
Qed.

Lemma upper_no_lower (s : string) :
  Forall (fun ch => is_lower_char ch = false) (list_ascii_of_string (upper s)).
Proof.
  induction s as [|c s IH]; simpl; constructor.
  - apply upper_char_not_lower.
  - exact IH.
Qed.

Lemma order_built_fields {py : Text} row o :
  order_of_row row = Ok (Built o) ->
  exists a t,
    getitem row "Action" = Ok (CStr a)
    /\ get_default row "OrderType" (CStr "MKT") = CStr t
    /\ fill_order row (upper a) (totalQuantity o) (upper t) = Ok o
    /\ action o = upper a
    /\ orderType o = upper t.
Proof.
  unfold order_of_row, rbind.
  destruct (getitem row "Action") as [[a|z|f|b]|]; try discriminate. simpl.
  destruct (quantity_of row) as [q|]; [|discriminate].
  destruct (get_default row "OrderType" (CStr "MKT")) as [t|z|f|b];
    try discriminate. simpl.
  destruct (q >? MAX_ORDER_SIZE); [discriminate|].
  destruct (fill_order row (upper a) q (upper t)) as [o'|] eqn:Hfill;
    [|discriminate].
  intros [= <-]. destruct (fill_order_fields _ _ _ _ _ Hfill) as (Ha & Hq & Ht).
  exists a, t. rewrite Hq. repeat split; assumption.
Qed.

(** The action and the order type of every order that is built are in upper
    case: they hold no lower-case letter, however the row spells them. *)
Theorem built_order_is_upper_case {py : Text} (row : Series) (o : Order) :
  order_of_row row = Ok (Built o) ->
  Forall (fun ch => is_lower_char ch = false) (list_ascii_of_string (action o))
  /\ Forall (fun ch => is_lower_char ch = false)
       (list_ascii_of_string (orderType o)).
Proof.
  intros H. destruct (order_built_fields row o H) as (a & t & _ & _ & _ & -> & ->).
  split; apply upper_no_lower.
Qed.

Lemma built_order_is_upper_case_witness :
  exists o,
    order_of_row stop_limit_row = Ok (Built o)
    /\ action o = "SELL" /\ orderType o = "STP LMT".
Proof.
  eexists. split; [reflexivity|].
  destruct (built_order_is_upper_case stop_limit_row _ eq_refl) as (_ & _).
  split; reflexivity.
Defined.

(** The prices of a built order follow its type: a limit price only for type
    [LMT], a stop price only for [STP] and [STP LMT]; so no order carries
    both, and a stop-limit order never carries a limit price, whatever the
    [LmtPrice] cell of its row holds. *)
Theorem prices_follow_the_order_type {py : Text} (row : Series) (o : Order) :
  order_of_row row = Ok (Built o) ->
  (lmtPrice o <> None -> orderType o = "LMT")
  /\ (auxPrice o <> None -> orderType o = "STP" \/ orderType o = "STP LMT")
  /\ (lmtPrice o = None \/ auxPrice o = None)
  /\ (orderType o = "STP LMT" -> lmtPrice o = None).
Proof.
  intros H. destruct (order_built_fields row o H) as (a & t & _ & _ & Hfill & _ & _).
  unfold fill_order, rbind in Hfill.
  destruct (upper t =? "LMT")%string eqn:Hl;
    destruct (upper t =? "STP")%string eqn:Hs;
    destruct (upper t =? "STP LMT")%string eqn:Hsl;
    try apply String.eqb_eq in Hl; try apply String.eqb_eq in Hs;
    try apply String.eqb_eq in Hsl;
    try (rewrite Hl in Hs; discriminate);
    try (rewrite Hl in Hsl; discriminate);
    try (rewrite Hs in Hsl; discriminate);
    simpl in Hfill;
    repeat match type of Hfill with
           | context [match ?x with _ => _ end] => destruct x; try discriminate
           end;
    injection Hfill as <-; simpl;
    repeat split; try tauto; try congruence; try discriminate.
Qed.

Lemma prices_follow_the_order_type_witness :
  exists o,
    order_of_row stop_limit_row = Ok (Built o)
    /\ orderType o = "STP LMT"
    /\ lmtPrice o = None
    /\ auxPrice o = Some (float_of_Z 100).
Proof.
  eexists. split; [reflexivity|]. split; [reflexivity|].
  split; [|reflexivity].
  apply (prices_follow_the_order_type stop_limit_row _ eq_refl).
  reflexivity.
Defined.

(** [create_contract] and [create_order] return an object or [None] for
    every row, log at most, and leave the gateway alone; a row for which
    either gives [None] is passed over: its turn, at a label that is a
    number, returns with the trades and the gateway unchanged, and its
    trace holds log lines only. *)
Theorem creation_never_raises {G : Type} (ib : IB G) {py : Text}
    (n : Z) (idx : label) (i : cell) (row : Series) (trades : list Trade)
    (g : G) :
  (exists r tr, create_contract row g = (Ok r, g, tr) /\ Forall is_log tr)
  /\ (exists r tr, create_order row g = (Ok r, g, tr) /\ Forall is_log tr)
  /\ (plus_one idx = Ok i ->
      outcome (create_contract row g) = Ok None
      \/ outcome (create_order row g) = Ok None ->
      exists tr,
        process_row ib n (idx, row) trades g = (Ok trades, g, tr)
        /\ Forall is_log tr).
Proof.
  split; [|split].
  - rewrite create_contract_run. destruct (contract_of_row row);
      eexists _, _; (split; [reflexivity|]); log_list.
  - rewrite create_order_run. destruct (order_of_row row) as [[q|o]|e];
      eexists _, _; (split; [reflexivity|]); log_list.
  - intros Hi.
    rewrite create_contract_run, create_order_run, process_row_run, Hi.
    destruct (contract_of_row row) as [c|e].
    + destruct (order_of_row row) as [[q|o]|e].
      * intros _. eexists. split; [reflexivity|]. log_list.
      * intros [H|H]; discriminate.
      * intros _. eexists. split; [reflexivity|]. log_list.
    + intros _. eexists. split; [reflexivity|]. log_list.
Qed.

Lemma creation_never_raises_witness :
  exists tr,
    process_row accepting_ib 2
      (Label (CInt 1), combine required_columns sell_2000_msft) [] 0
    = (Ok [], 0, tr).
Proof.
  destruct (proj2 (proj2
              (creation_never_raises accepting_ib 2 (Label (CInt 1)) (CInt 2)
                 (combine required_columns sell_2000_msft) [] 0))
              eq_refl (or_intror eq_refl))
    as (tr & H & _).
  now exists tr.
Defined.

(* ================================================================== *)
(** * Further properties: the batch and the session *)
(* ================================================================== *)

Lemma request_within_limit {py : Text} row c o :
  In (c, o) (row_request row) -> totalQuantity o <= MAX_ORDER_SIZE.
Proof.
  unfold row_request.
  destruct (contract_of_row row) as [c'|]; [|simpl; intros []].
  destruct (order_of_row row) as [[q|o']|] eqn:Ho; simpl;
    [intros []| |intros []].
  intros [[= <- <-]|[]]. now apply (order_built row o').
Qed.

Lemma requests_within_limit {py : Text} rs c o :
  In (c, o) (flat_map row_request rs) -> totalQuantity o <= MAX_ORDER_SIZE.
Proof.
  intros H. apply in_flat_map in H. destruct H as (row & _ & H).
  now apply (request_within_limit row c).
Qed.

(** No order larger than [MAX_ORDER_SIZE] is ever sent: every placement
    request of a session, in either script, for every file, frame and
    gateway, has a quantity of at most 1000. *)
Theorem no_oversize_order_reaches_the_gateway {G : Type} (ib : IB G)
    {py : Text} (fs : FileSystem) (file : string) (df : option DataFrame)
    (g : G) (c : Contract) (o : Order) :
  In (c, o) (placement_calls (trace (Trader.run ib fs file g)))
  \/ In (c, o) (placement_calls (trace (RealTest.run ib file df g))) ->
  totalQuantity o <= MAX_ORDER_SIZE.
Proof.
  destruct (trader_run_summary ib fs file g)
    as (trA & trP & trB & g1 & H1 & _ & _ & _ & _ & P1 & _).
  destruct (realtest_run_summary ib file df g)
    as (trA' & trP' & trB' & g2 & H2 & _ & _ & _ & _ & P2 & _).
  rewrite H1, H2. unfold trace; simpl snd.
  rewrite P1, P2. intros [H|H]; now apply requests_within_limit in H.
Qed.

Lemma no_oversize_order_reaches_the_gateway_witness :
  totalQuantity aapl_order <= MAX_ORDER_SIZE.
Proof.
  apply (no_oversize_order_reaches_the_gateway accepting_ib
           (fs_with example_batch) CSV_FILE None 0 aapl_contract aapl_order).
  left. vm_compute. left. reflexivity.
Defined.

(** [process_all_orders], in both scripts, requests the orders of the rows
    its loop gets through, pauses half a second once for every placement
    request and for nothing else (a row that is passed over costs no
    pause), and the only gateway methods it calls are the placement and the
    wait after it.  It raises, a [TypeError], exactly when the frame is
    iterated and one of its index labels is no number; otherwise it returns
    at most one trade per request, exactly one when the gateway answers
    every placement and wait. *)
Theorem one_pause_and_one_trade_per_request {G : Type} (ib : IB G)
    {py : Text} (fs : FileSystem) (file : string) (g : G) :
  (exists r g' tr,
      Trader.process_all_orders ib fs file g = (r, g', tr)
      /\ placement_calls tr
         = flat_map row_request (taken (trader_frame fs file))
      /\ pauses tr = map (fun _ => 500) (placement_calls tr)
      /\ Forall order_call (gateway_calls tr)
      /\ match r with
         | Ok trades =>
             stops (trader_frame fs file) = false
             /\ (List.length trades <= List.length (placement_calls tr))%nat
             /\ (accepts ib ->
                 List.length trades = List.length (placement_calls tr))
         | Raise e => stops (trader_frame fs file) = true /\ e = TypeError
         end)
  /\ (exists r g' tr,
         RealTest.process_all_orders ib fs file g = (r, g', tr)
         /\ placement_calls tr
            = flat_map row_request (taken (realtest_frame fs file))
         /\ pauses tr = map (fun _ => 500) (placement_calls tr)
         /\ Forall order_call (gateway_calls tr)
         /\ match r with
            | Ok trades =>
                stops (realtest_frame fs file) = false
                /\ (List.length trades <= List.length (placement_calls tr))%nat
                /\ (accepts ib ->
                    List.length trades = List.length (placement_calls tr))
            | Raise e =>
                stops (realtest_frame fs file) = true /\ e = TypeError
            end).
Proof.
  split.
  - destruct (trader_process_summary ib fs file g)
      as (trades & g' & tr & H & P & S & O & _ & L & A).
    eexists _, g', tr. split; [exact H|].
    repeat (split; [assumption|]).
    destruct (stops (trader_frame fs file)); repeat split; assumption.
  - destruct (realtest_process_summary ib fs file g)
      as (trades & g' & tr & H & P & S & O & _ & L & A).
    eexists _, g', tr. split; [exact H|].
    repeat (split; [assumption|]).
    destruct (stops (realtest_frame fs file)); repeat split; assumption.
Qed.

Lemma one_pause_and_one_trade_per_request_witness :
  exists trades g' tr,
    Trader.process_all_orders accepting_ib (fs_with example_batch) CSV_FILE 0
    = (Ok trades, g', tr)
    /\ List.length trades = List.length (placement_calls tr).
Proof.
  destruct (proj1 (one_pause_and_one_trade_per_request accepting_ib
                     (fs_with example_batch) CSV_FILE 0))
    as (r & g' & tr & H & _ & _ & _ & Hr).
  assert (Hok : exists trades, r = Ok trades).
  { assert (Hout : outcome
                     (Trader.process_all_orders accepting_ib
                        (fs_with example_batch) CSV_FILE 0)
                   = r) by (now rewrite H).
    vm_compute in Hout. rewrite <- Hout. now eexists. }
  destruct Hok as (trades & ->). destruct Hr as (_ & _ & Hacc).
  exists trades, g', tr. split; [exact H|]. apply Hacc.
  split; intros; now eexists _, _.
Defined.

(** The second script also looks for the file beside the script: when the
    working directory does not hold it and the script's directory does,
    [process_all_orders] of the second script processes that file; with
    numbers for index labels, the requests are those of all its rows. *)
Theorem realtest_finds_the_file_beside_the_script {G : Type} (ib : IB G)
    {py : Text} (fs : FileSystem) (file : string) (df : DataFrame) (g : G) :
  path_exists fs file = false ->
  path_exists fs (path_join fs (script_dir fs) file) = true ->
  read_csv fs (path_join fs (script_dir fs) file) = Ok df ->
  RealTest.find_csv_file fs file = Some (path_join fs (script_dir fs) file)
  /\ outcome (RealTest.read_orders_from_csv (G := G) fs file g) = Ok (Some df)
  /\ placement_calls (trace (RealTest.process_all_orders ib fs file g))
     = flat_map row_request (processed df)
  /\ (numbered df = true ->
      placement_calls (trace (RealTest.process_all_orders ib fs file g))
      = flat_map row_request (rows df)).
Proof.
  intros Hcwd Hdir Hread.
  assert (Hfind : RealTest.find_csv_file fs file
                  = Some (path_join fs (script_dir fs) file)).
  { unfold RealTest.find_csv_file. now rewrite Hcwd, Hdir. }
  assert (Hframe : realtest_frame fs file = Some df).
  { unfold realtest_frame. now rewrite Hfind, Hread. }
  split; [exact Hfind|].
  split.
  { destruct (realtest_read_logs fs file g) as (tr & H & _).
    rewrite H, Hframe. reflexivity. }
  destruct (realtest_process_summary ib fs file g)
    as (trades & g' & tr & H & P & _).
  rewrite H. unfold trace; cbn [snd]. rewrite P, Hframe, taken_requests.
  split; [reflexivity|].
  intros Hn. now rewrite (processed_numbered _ Hn).
Qed.

Lemma realtest_finds_the_file_beside_the_script_witness :
  placement_calls
    (trace (RealTest.process_all_orders accepting_ib
              {| read_csv := fun name =>
                   if (name =? "/opt/trader/orders.csv")%string
                   then Ok example_batch else Raise FileNotFoundError;
                 path_exists := fun name =>
                   (name =? "/opt/trader/orders.csv")%string;
                 path_join := posix_join;
                 script_dir := "/opt/trader" |}
              "orders.csv" 0))
  = flat_map row_request (rows example_batch).
Proof.
  apply (realtest_finds_the_file_beside_the_script accepting_ib
           {| read_csv := fun name =>
                if (name =? "/opt/trader/orders.csv")%string
                then Ok example_batch else Raise FileNotFoundError;
              path_exists := fun name =>
                (name =? "/opt/trader/orders.csv")%string;
              path_join := posix_join;
              script_dir := "/opt/trader" |}
           "orders.csv" example_batch 0); reflexivity.
Defined.

(** A file that holds a header and no row, or no column at all, is not
    iterated: [process_all_orders] logs the warning and returns the empty
    list, with the gateway untouched. *)
Theorem empty_frame_is_not_processed {G : Type} (ib : IB G) {py : Text}
    (fs : FileSystem) (file : string) (df : DataFrame) (g : G) :
  read_csv fs file = Ok df ->
  empty df = true ->
  Trader.process_all_orders ib fs file g
  = (Ok [], g,
     [Log INFO (MsgReadingOrders file); Log INFO (MsgFoundOrders (len df));
      Log INFO (MsgColumns (columns df)); Log WARNING MsgNoOrders]).
Proof.
  intros Hread He.
  unfold Trader.process_all_orders, bind. rewrite trader_read_run, Hread, He.
  reflexivity.
Qed.

Lemma empty_frame_is_not_processed_witness :
  outcome (Trader.process_all_orders accepting_ib
             (fs_with (frame required_columns [])) CSV_FILE 0)
  = Ok [].
Proof.
  assert (H : read_csv (fs_with (frame required_columns [])) CSV_FILE
              = Ok (frame required_columns []))
    by (vm_compute; reflexivity).
  rewrite (empty_frame_is_not_processed accepting_ib _ CSV_FILE _ 0 H eq_refl).
  reflexivity.
Defined.

(** When the working directory holds the file and reading it does not fail
    with [FileNotFoundError], [process_all_orders] of the second script
    ends as that of the first does: with the same result, the same final
    state of the gateway, the same calls of the gateway, in the same order,
    and the same pauses.  (Their log lines are worded differently.) *)
Theorem scripts_process_alike {G : Type} (ib : IB G) {py : Text}
    (fs : FileSystem) (file : string) (g : G) :
  path_exists fs file = true ->
  read_csv fs file <> Raise FileNotFoundError ->
  fst (RealTest.process_all_orders ib fs file g)
  = fst (Trader.process_all_orders ib fs file g)
  /\ gateway_calls (trace (RealTest.process_all_orders ib fs file g))
     = gateway_calls (trace (Trader.process_all_orders ib fs file g))
  /\ pauses (trace (RealTest.process_all_orders ib fs file g))
     = pauses (trace (Trader.process_all_orders ib fs file g)).
Proof.
  intros Hex Hnf.
  assert (Hframe : realtest_frame fs file = trader_frame fs file).
  { unfold realtest_frame, trader_frame, RealTest.find_csv_file.
    now rewrite Hex. }
  destruct (realtest_read_logs (G := G) fs file g) as (trR & HR & LR & _).
  destruct (trader_read_logs (G := G) fs file g) as (trT & HT & LT & _).
  rewrite Hframe in HR.
  destruct (process_frame ib (trader_frame fs file) g) as [[r g'] tr] eqn:Hp.
  assert (H1 : RealTest.process_all_orders ib fs file g = (r, g', trR ++ tr))
    by (apply (bind_run _ _ _ _ _ _ _ _ _ HR Hp)).
  assert (H2 : Trader.process_all_orders ib fs file g = (r, g', trT ++ tr))
    by (apply (bind_run _ _ _ _ _ _ _ _ _ HT Hp)).
  rewrite H1, H2. unfold trace; cbn [fst snd].
  destruct (logs_no_calls _ LR) as (GR & PR).
  destruct (logs_no_calls _ LT) as (GT & PT).
  unfold gateway_calls, pauses in *. rewrite !pick_app, GR, GT, PR, PT.
  repeat split.
Qed.

Lemma scripts_process_alike_witness :
  fst (RealTest.process_all_orders accepting_ib (fs_here example_batch)
         CSV_FILE 0)
  = fst (Trader.process_all_orders accepting_ib (fs_here example_batch)
           CSV_FILE 0).
Proof.
  apply scripts_process_alike.
  - vm_compute. reflexivity.
  - vm_compute. discriminate.
Defined.

(** [fetch_account_summary] never raises.  It returns the gateway's summary
    as it is and logs, in order, the items whose tag is one of the four key
    metrics and no other item; when the query raises it returns [None] and
    logs the error. *)
Theorem account_summary_lists_the_key_metrics {G : Type} (ib : IB G) (g : G) :
  match ib_accountSummary ib g with
  | (Ok summary, g1) =>
      outcome (fetch_account_summary ib g) = Ok (Some summary)
      /\ pick metric_of (trace (fetch_account_summary ib g))
         = map (fun item => (tag item, value item, value_currency item))
             (filter (fun item => existsb (String.eqb (tag item)) key_metrics)
                summary)
  | (Raise e, g1) =>
      outcome (fetch_account_summary ib g) = Ok None
      /\ logged ERROR (trace (fetch_account_summary ib g))
         = [MsgErrorFetchingAccountSummary e]
  end.
Proof.
  rewrite fetch_account_summary_run.
  destruct (ib_accountSummary ib g) as [[summary|e] g1]; [|now split].
  assert (Hm : forall l : list AccountValue,
             pick metric_of (flat_map metric_line l)
             = map (fun item => (tag item, value item, value_currency item))
                 (filter (fun item => existsb (String.eqb (tag item)) key_metrics)
                    l)).
  { induction l as [|item l IH]; [reflexivity|].
    cbn [flat_map filter]. rewrite pick_app, IH. unfold metric_line.
    now destruct (existsb (String.eqb (tag item)) key_metrics). }
  destruct summary as [|a l]; [now split|].
  split; [reflexivity|].
  unfold trace; cbn [snd]. rewrite !pick_app, Hm.
  change (pick metric_of
            [Log INFO MsgFetchingAccountSummary; Gateway CallAccountSummary;
             Log INFO (MsgRule 60); Log INFO MsgAccountSummaryHeader])
    with (@nil (string * string * string)).
  change (pick metric_of [Log INFO (MsgRule 60)])
    with (@nil (string * string * string)).
  rewrite app_nil_r. reflexivity.
Qed.

(** [fetch_positions] never raises and queries the gateway once.  It returns
    the positions the gateway returned; a query that raises gives the empty
    list, the result of an account without positions. *)
Theorem positions_query_failure_reads_as_empty {G : Type} (ib : IB G) (g : G) :
  outcome (fetch_positions ib g)
  = Ok (match ib_positions ib g with
        | (Ok ps, _) => ps
        | (Raise _, _) => []
        end)
  /\ gateway_calls (trace (fetch_positions ib g)) = [CallPositions]
  /\ logged ERROR (trace (fetch_positions ib g))
     = match ib_positions ib g with
       | (Ok _, _) => []
       | (Raise e, _) => [MsgErrorFetchingPositions e]
       end.
Proof.
  rewrite fetch_positions_run.
  destruct (ib_positions ib g) as [[[|p l]|e] g1];
    try (repeat split; reflexivity).
  unfold outcome, trace; cbn [fst snd].
  split; [reflexivity|].
  assert (Hl : Forall is_log
                 (map (fun pos => Log INFO (position_row pos)) (p :: l))).
  { apply Forall_forall. intros e He. apply in_map_iff in He.
    destruct He as (pos & <- & _). apply is_log_intro. }
  assert (Hrows : forall l' : list Position,
             pick (logged_at ERROR)
               (map (fun pos => Log INFO (position_row pos)) l') = []).
  { induction l' as [|q l' IH]; [reflexivity|exact IH]. }
  destruct (logs_no_calls _ Hl) as (Hg & _).
  unfold gateway_calls, logged in *. rewrite !pick_app, Hrows, Hg.
  split; reflexivity.
Qed.

(** A session of either script, for every file, frame and gateway, returns
    normally and is made of three parts: the first snapshot (positions, then
    account summary), the orders (placements and the waits after them, no
    other call of the gateway), and the end, whose last call is always the
    disconnection.  The end takes the second snapshot, also when no order
    was placed, unless the loop stopped at an index label that is no
    number: then the error is logged and the gateway is only
    disconnected. *)
Theorem session_brackets_the_orders_with_snapshots {G : Type} (ib : IB G)
    {py : Text} (fs : FileSystem) (file : string) (df : option DataFrame)
    (g : G) :
  (exists trA trP trB g',
      Trader.run ib fs file g = (Ok tt, g', trA ++ trP ++ trB)
      /\ gateway_calls trA = [CallPositions; CallAccountSummary]
      /\ Forall order_call (gateway_calls trP)
      /\ gateway_calls trB
         = (if stops (trader_frame fs file) then [CallDisconnect]
            else [CallPositions; CallAccountSummary; CallDisconnect])
      /\ (stops (trader_frame fs file) = true ->
          In (Log ERROR (MsgErrorDuringTrading TypeError)) trB))
  /\ (exists trA trP trB g',
         RealTest.run ib file df g = (Ok tt, g', trA ++ trP ++ trB)
         /\ gateway_calls trA = [CallPositions; CallAccountSummary]
         /\ Forall order_call (gateway_calls trP)
         /\ gateway_calls trB
            = (if stops df then [CallDisconnect]
               else [CallPositions; CallAccountSummary; CallDisconnect])
         /\ (stops df = true ->
             In (Log ERROR (MsgErrorDuringTrading TypeError)) trB)).
Proof.
  split.
  - destruct (trader_run_summary ib fs file g)
      as (trA & trP & trB & g2 & Hrun & GA & OP & GB & EB & _).
    now exists trA, trP, trB, g2.
  - destruct (realtest_run_summary ib file df g)
      as (trA & trP & trB & g2 & Hrun & GA & OP & GB & EB & _).
    now exists trA, trP, trB, g2.
Qed.

Lemma session_brackets_the_orders_with_snapshots_witness :
  exists trA trP trB g',
    Trader.run accepting_ib (fs_with text_labelled_batch) CSV_FILE 0
    = (Ok tt, g', trA ++ trP ++ trB)
    /\ gateway_calls trB = [CallDisconnect]
    /\ In (Log ERROR (MsgErrorDuringTrading TypeError)) trB.
Proof.
  destruct (proj1 (session_brackets_the_orders_with_snapshots accepting_ib
                     (fs_with text_labelled_batch) CSV_FILE None 0))
    as (trA & trP & trB & g' & H & _ & _ & GB & EB).
  exists trA, trP, trB, g'. split; [exact H|].
  split; [exact GB|exact (EB eq_refl)].
Defined.


(** In a frame whose index labels are numbers (those of the default index
    are), the placement requests of a batch are the requests its rows lead
    to, in the order of the rows, in [process_all_orders] and in both
    [run]s, for every gateway; so the rows taken in another order [p], under
    labels that are numbers again, give the per-row requests taken in that
    same order. *)
Theorem placement_follows_row_order {G : Type} (ib : IB G) {py : Text}
    (fs fs' : FileSystem) (file : string) (df df' : DataFrame) (g : G)
    (p : list nat) :
  read_csv fs file = Ok df ->
  read_csv fs' file = Ok df' ->
  columns df' = columns df ->
  values df' = reorder p (values df) ->
  numbered df = true ->
  numbered df' = true ->
  placement_calls (trace (Trader.process_all_orders ib fs file g))
  = flat_map row_request (rows df)
  /\ placement_calls (trace (Trader.run ib fs file g))
     = flat_map row_request (rows df)
  /\ placement_calls (trace (RealTest.run ib file (Some df) g))
     = flat_map row_request (rows df)
  /\ placement_calls (trace (Trader.run ib fs' file g))
     = List.concat (reorder p (map row_request (rows df)))
  /\ placement_calls (trace (RealTest.run ib file (Some df') g))
     = List.concat (reorder p (map row_request (rows df))).
Proof.
  intros Hfs Hfs' Hcols Hvals Hn Hn'.
  assert (Hperm : flat_map row_request (rows df')
                  = List.concat (reorder p (map row_request (rows df)))).
  { unfold rows. rewrite Hcols, Hvals, flat_map_concat_map.
    now rewrite !reorder_map. }
  assert (Hf : trader_frame fs file = Some df)
    by (unfold trader_frame; now rewrite Hfs).
  assert (Hf' : trader_frame fs' file = Some df')
    by (unfold trader_frame; now rewrite Hfs').
  destruct (trader_process_summary ib fs file g) as (t & g1 & tr & H & P & _).
  destruct (trader_run_summary ib fs file g)
    as (a2 & p2 & b2 & g2 & H2 & _ & _ & _ & _ & P2 & _).
  destruct (realtest_run_summary ib file (Some df) g)
    as (a3 & p3 & b3 & g3 & H3 & _ & _ & _ & _ & P3 & _).
  destruct (trader_run_summary ib fs' file g)
    as (a4 & p4 & b4 & g4 & H4 & _ & _ & _ & _ & P4 & _).
  destruct (realtest_run_summary ib file (Some df') g)
    as (a5 & p5 & b5 & g5 & H5 & _ & _ & _ & _ & P5 & _).
  rewrite H, H2, H3, H4, H5. unfold trace; simpl snd.
  rewrite P, P2, P3, P4, P5, Hf, Hf', !taken_requests.
  rewrite !(processed_numbered _ Hn), !(processed_numbered _ Hn'), Hperm.
  repeat split; reflexivity.
Qed.

Lemma placement_follows_row_order_witness :
  placement_calls
    (trace (Trader.run accepting_ib
              (fs_with (frame required_columns [sell_2000_msft; buy_100_aapl]))
              CSV_FILE 0))
  = List.concat (reorder [1; 0]%nat (map row_request (rows example_batch))).
Proof.
  assert (H1 : read_csv (fs_with example_batch) CSV_FILE = Ok example_batch)
    by (vm_compute; reflexivity).
  assert (H2 : read_csv
                 (fs_with (frame required_columns
                             [sell_2000_msft; buy_100_aapl]))
                 CSV_FILE
               = Ok (frame required_columns [sell_2000_msft; buy_100_aapl]))
    by (vm_compute; reflexivity).
  exact (proj1 (proj2 (proj2 (proj2
           (placement_follows_row_order accepting_ib _ _ CSV_FILE
              example_batch _ 0 [1; 0]%nat H1 H2 eq_refl eq_refl
              eq_refl eq_refl))))).
Defined.

(* ================================================================== *)
(** * Further properties: the entry points and the preview *)
(* ================================================================== *)

Lemma core_events_app (tr1 tr2 : list entry_event) :
  core_events (tr1 ++ tr2) = core_events tr1 ++ core_events tr2.
Proof.
  induction tr1 as [|[e|lvl m|p|] tr1 IH]; simpl; now rewrite ?IH.
Qed.

Lemma core_events_map (tr : list event) : core_events (map Core tr) = tr.
Proof. induction tr as [|e tr IH]; simpl; now rewrite ?IH. Qed.

Section EntryFacts.
Context {G : Type} (ib : IB G) (fs : FileSystem).

Lemma ebind_returns {A B} (m : E G A) (k : A -> E G B) g a g1 tr1 :
  m g = (Ok a, g1, tr1) ->
  ebind m k g = (let '(r, g2, tr2) := k a g1 in (r, g2, tr1 ++ tr2)).
Proof. unfold ebind. now intros ->. Qed.

Lemma core_returns {A} (m : M G A) g a g1 tr :
  m g = (Ok a, g1, tr) -> core m g = (Ok a, g1, map Core tr).
Proof. unfold core. now intros ->. Qed.

(** [connect] returns, and its first call of the gateway is [connect]. *)
Lemma connect_returns self g :
  exists b g' tr rest,
    connect ib self g = (Ok b, g', tr)
    /\ gateway_calls tr
       = CallConnect (host self) (port self) (client_id self) :: rest
    /\ placement_calls tr = [].
Proof.
  unfold connect, try_except, bind, call, log, ret.
  destruct (ib_connect ib (host self) (port self) (client_id self) g)
    as [[u|e] g1]; [|now eexists _, _, _, _].
  cbv beta iota delta [PAPER_TRADING_ONLY].
  destruct (ib_managedAccounts ib g1) as [[accounts|e] g2];
    [|now eexists _, _, _, _].
  destruct (negb (is_nil accounts) && negb (existsb paper_pattern accounts))%bool;
    now eexists _, _, _, _.
Qed.

Lemma initialize_run g b g1 trc :
  connect ib default_manager g = (Ok b, g1, trc) ->
  initialize ib g
  = (Ok b, g1,
     [Core (Log INFO (MsgRule 80)); EntryLog INFO MsgTitle;
      Core (Log INFO (MsgRule 80)); EntryLog INFO MsgSafetyMode]
     ++ map Core trc).
Proof.
  intros Hc. unfold initialize, ebind, core, entry_log, log, eret. simpl.
  change {| host := IB_HOST; port := IB_PORT; client_id := CLIENT_ID |}
    with default_manager.
  rewrite Hc. destruct b; simpl; now rewrite app_nil_r.
Qed.

Lemma banner_returns {A} (answer : string) (k : string -> E G A) g :
  ebind (print (PrintRule 80)) (fun _ =>
  ebind (print PrintTitle) (fun _ =>
  ebind (print (PrintRule 80)) (fun _ =>
  ebind (print (PrintMode PAPER_TRADING_ONLY)) (fun _ =>
  ebind (print (PrintCsvFile CSV_FILE)) (fun _ =>
  ebind (print (PrintConnection IB_HOST IB_PORT)) (fun _ =>
  ebind (print (PrintRule 80)) (fun _ =>
  ebind (input answer) k))))))) g
  = (let '(r, g', tr) := k answer g in
     (r, g',
      [Print (PrintRule 80); Print PrintTitle; Print (PrintRule 80);
       Print (PrintMode PAPER_TRADING_ONLY); Print (PrintCsvFile CSV_FILE);
       Print (PrintConnection IB_HOST IB_PORT); Print (PrintRule 80); Input]
      ++ tr)).
Proof.
  unfold ebind, print, input. now destruct (k answer g) as [[[r|e] g'] tr].
Qed.

End EntryFacts.

(** The first script asks before it touches anything: its [main] calls the
    gateway if and only if the answer, stripped and in lower case, is
    ["yes"]; on any other answer it returns with the gateway as it was,
    having printed the banner and the cancellation and logged nothing. *)
Theorem trader_main_asks_first {G : Type} (ib : IB G) (fs : FileSystem)
    {py : Text} (answer : string) (g : G) :
  (gateway_calls (core_events (entry_trace (trader_main ib fs answer g))) <> []
   <-> response_of answer = "yes")
  /\ (response_of answer <> "yes" ->
      trader_main ib fs answer g
      = (Ok tt, g,
         [Print (PrintRule 80); Print PrintTitle; Print (PrintRule 80);
          Print (PrintMode PAPER_TRADING_ONLY); Print (PrintCsvFile CSV_FILE);
          Print (PrintConnection IB_HOST IB_PORT); Print (PrintRule 80);
          Input; Print PrintCancelled])).
Proof.
  unfold trader_main. rewrite banner_returns. fold (response_of answer).
  destruct (response_of answer =? "yes")%string eqn:Hr.
  - apply String.eqb_eq in Hr. cbv beta iota delta [negb].
    split; [|intros H; now destruct H].
    split; [intros _; exact Hr|intros _].
    destruct (connect_returns ib default_manager g)
      as (b & g1 & trc & rest & Hc & Hg & _).
    rewrite (ebind_returns _ _ _ _ _ _ (initialize_run ib g b g1 trc Hc)).
    destruct ((if b then core (Trader.run ib fs CSV_FILE)
               else entry_log ERROR MsgFailedToInitialize) g1)
      as [[r g2] tr2].
    unfold entry_trace; cbn [snd].
    rewrite !core_events_app, core_events_map.
    unfold gateway_calls in *. rewrite !pick_app, Hg.
    cbn [core_events pick gateway_of app]. discriminate.
  - apply String.eqb_neq in Hr. cbv beta iota delta [negb].
    split; [split; [|intros H; now destruct Hr]|].
    + unfold print, entry_trace; cbn [snd]. intros H. now destruct H.
    + intros _. reflexivity.
Qed.

Lemma trader_main_asks_first_witness :
  response_of " No " <> "yes"
  /\ exists tr,
       trader_main accepting_ib (fs_with example_batch) " No " 0 = (Ok tt, 0, tr)
       /\ core_events tr = [].
Proof.
  assert (Hno : response_of " No " <> "yes") by (vm_compute; discriminate).
  split; [exact Hno|].
  eexists. split.
  - exact (proj2 (trader_main_asks_first accepting_ib (fs_with example_batch)
                    " No " 0) Hno).
  - reflexivity.
Defined.

(** After the answer ["yes"], the first script connects and, when [connect]
    returned [False], stops there: it logs that it failed to initialize and
    makes no further call, no snapshot, no order and no disconnection; when
    [connect] returned [True], what follows is the session [run] of
    [CSV_FILE] from the state the connection left. *)
Theorem trader_main_runs_only_when_connected {G : Type} (ib : IB G)
    (fs : FileSystem) {py : Text} (answer : string) (g g1 : G) (b : bool)
    (trc : list event) :
  response_of answer = "yes" ->
  connect ib default_manager g = (Ok b, g1, trc) ->
  if b then
    core_events (entry_trace (trader_main ib fs answer g))
    = [Log INFO (MsgRule 80); Log INFO (MsgRule 80)] ++ trc
      ++ trace (Trader.run ib fs CSV_FILE g1)
    /\ fst (trader_main ib fs answer g)
       = (Ok tt, snd (fst (Trader.run ib fs CSV_FILE g1)))
  else
    trader_main ib fs answer g
    = (Ok tt, g1,
       [Print (PrintRule 80); Print PrintTitle; Print (PrintRule 80);
        Print (PrintMode PAPER_TRADING_ONLY); Print (PrintCsvFile CSV_FILE);
        Print (PrintConnection IB_HOST IB_PORT); Print (PrintRule 80); Input]
       ++ ([Core (Log INFO (MsgRule 80)); EntryLog INFO MsgTitle;
            Core (Log INFO (MsgRule 80)); EntryLog INFO MsgSafetyMode]
           ++ map Core trc)
       ++ [EntryLog ERROR MsgFailedToInitialize]).
Proof.
  intros Hr Hc. unfold trader_main. rewrite banner_returns.
  fold (response_of answer). rewrite Hr. cbv beta iota delta [negb String.eqb Ascii.eqb Bool.eqb].
  rewrite (ebind_returns _ _ _ _ _ _ (initialize_run ib g b g1 trc Hc)).
  destruct b.
  - destruct (trader_run_summary ib fs CSV_FILE g1)
      as (trA & trP & trB & g2 & Hrun & _).
    rewrite (core_returns _ _ _ _ _ Hrun), Hrun.
    unfold entry_trace, trace; cbn [fst snd]. split; [|reflexivity].
    rewrite !core_events_app, core_events_map.
    cbn [core_events app]. now rewrite core_events_map.
  - reflexivity.
Qed.

Lemma trader_main_runs_only_when_connected_witness :
  gateway_calls
    (core_events
       (entry_trace (trader_main unreachable_ib (fs_with example_batch)
                       " YES " 0)))
  = [CallConnect IB_HOST IB_PORT CLIENT_ID].
Proof.
  assert (Hr : response_of " YES " = "yes") by (vm_compute; reflexivity).
  rewrite (trader_main_runs_only_when_connected unreachable_ib
             (fs_with example_batch) " YES " 0 1 false _ Hr eq_refl).
  vm_compute. reflexivity.
Defined.

Lemma row_lines_cons idx row (items : list (label * Series)) :
  row_lines ((idx, row) :: items)
  = match plus_one idx with
    | Ok i => trade_line i row :: row_lines items
    | Raise _ => []
    end.
Proof.
  unfold row_lines. cbn [reached fst]. unfold is_number.
  destruct (plus_one idx) as [i|e] eqn:Hi; [|reflexivity].
  cbn [flat_map fst snd]. now rewrite Hi.
Qed.

(** With numbers for labels the preview has one line for every item, in
    order. *)
Lemma row_lines_all (items : list (label * Series)) :
  all_numbers items = true ->
  Forall2
    (fun item m =>
       exists i, plus_one (fst item) = Ok i /\ m = trade_line i (snd item))
    items (row_lines items).
Proof.
  induction items as [|[idx row] items IH]; [constructor|].
  cbn [all_numbers forallb fst]. fold (all_numbers items).
  rewrite row_lines_cons. unfold is_number.
  destruct (plus_one idx) as [i|e] eqn:Hi; [|discriminate].
  intros Hall. constructor; [now exists i|now apply IH].
Qed.

Lemma core_events_lines (ms : list entry_message) :
  core_events (map (EntryLog INFO) ms) = [].
Proof. induction ms as [|m ms IH]; [reflexivity|exact IH]. Qed.

Section PreviewFacts.
Context {G : Type} (fs : FileSystem).

(** The loop of the preview: a line for each item, up to the first label
    that is no number, where it raises. *)
Lemma preview_lines_run (items : list (label * Series)) (g : G) :
  efor_each
    (fun (item : label * Series) (_ : unit) =>
       let '(idx, row) := item in
       ebind (core (lift (plus_one idx)))
         (fun i => entry_log INFO (trade_line i row)))
    items tt g
  = ((if all_numbers items then Ok tt else Raise TypeError), g,
     map (EntryLog INFO) (row_lines items)).
Proof.
  induction items as [|[idx row] items IH]; [reflexivity|].
  cbn [efor_each all_numbers forallb fst]. fold (all_numbers items).
  rewrite row_lines_cons. unfold is_number.
  unfold ebind at 1. unfold ebind at 1, core at 1, lift at 1, entry_log at 1.
  destruct (plus_one idx) as [i|e] eqn:Hi.
  - cbn [map app andb]. rewrite IH. reflexivity.
  - cbn [map andb]. now rewrite (plus_one_raises _ _ Hi).
Qed.

Lemma display_orders_preview_run (df : option DataFrame) (g : G) :
  display_orders_preview df g
  = ((if stops df then Raise TypeError else Ok tt), g,
     match df with
     | None => [EntryLog INFO MsgNoTrades]
     | Some d =>
         if empty d then [EntryLog INFO MsgNoTrades]
         else
           [Core (Log INFO (MsgRule 80));
            EntryLog INFO (MsgTradesToProcess (len d));
            Core (Log INFO (MsgRule 80))]
           ++ map (EntryLog INFO) (row_lines (iterrows d))
           ++ (if numbered d then [Core (Log INFO (MsgRule 80))] else [])
     end).
Proof.
  destruct df as [d|]; [|reflexivity]. unfold display_orders_preview, stops.
  destruct (empty d); [reflexivity|]. cbn [negb andb].
  unfold ebind at 1 2 3, core at 1 2, entry_log at 1, log. cbn [map app].
  unfold ebind at 1. rewrite preview_lines_run, iterrows_numbered.
  destruct (numbered d); cbn [negb]; [|now rewrite app_nil_r].
  unfold core, log. reflexivity.
Qed.

(** The preview of the second script: the reading, then the lines of the
    frame; the gateway is left alone and nothing is asked. *)
Lemma preview_trades_run (file : string) (g : G) :
  exists trc tr,
    RealTest.read_orders_from_csv fs file g
    = (Ok (realtest_frame fs file), g, trc)
    /\ Forall is_log trc
    /\ preview_trades fs file g
       = ((if stops (realtest_frame fs file) then Raise TypeError
           else Ok (realtest_frame fs file)), g, tr)
    /\ Forall is_log (core_events tr)
    /\ ~ In Input tr.
Proof.
  destruct (realtest_read_logs (G := G) fs file g) as (trc & Hread & Hl & _).
  set (d := realtest_frame fs file) in *.
  pose (shown := match d with
                 | None => [EntryLog INFO MsgNoTrades]
                 | Some d0 =>
                     if empty d0 then [EntryLog INFO MsgNoTrades]
                     else
                       [Core (Log INFO (MsgRule 80));
                        EntryLog INFO (MsgTradesToProcess (len d0));
                        Core (Log INFO (MsgRule 80))]
                       ++ map (EntryLog INFO) (row_lines (iterrows d0))
                       ++ (if numbered d0
                           then [Core (Log INFO (MsgRule 80))] else [])
                 end).
  assert (Hprev : preview_trades fs file g
                  = ((if stops d then Raise TypeError else Ok d), g,
                     map Core trc ++ shown)).
  { unfold preview_trades.
    rewrite (ebind_returns _ _ _ _ _ _ (core_returns _ _ _ _ _ Hread)).
    unfold ebind. rewrite display_orders_preview_run.
    destruct (stops d); cbn [eret]; [reflexivity|].
    rewrite app_nil_r. reflexivity. }
  assert (Hshown : Forall is_log (core_events shown) /\ ~ In Input shown).
  { subst shown. destruct d as [d0|].
    - destruct (empty d0).
      + split; [constructor|]. intros [H|[]]. discriminate.
      + split.
        * rewrite !core_events_app, core_events_lines.
          destruct (numbered d0); cbn [core_events app]; log_list.
        * intros H. apply in_app_or in H. destruct H as [H|H].
          { simpl in H. repeat (destruct H as [H|H]; [discriminate|]).
            destruct H. }
          apply in_app_or in H. destruct H as [H|H].
          { apply in_map_iff in H. destruct H as (m & H & _). discriminate. }
          destruct (numbered d0); simpl in H;
            repeat (destruct H as [H|H]; [discriminate|]); destruct H.
    - split; [constructor|]. intros [H|[]]. discriminate. }
  destruct Hshown as (Hlog & Hin).
  exists trc, (map Core trc ++ shown).
  split; [exact Hread|]. split; [exact Hl|]. split; [exact Hprev|].
  split.
  - rewrite core_events_app, core_events_map. apply Forall_app. now split.
  - intros H. apply in_app_or in H. destruct H as [H|H]; [|now apply Hin].
    apply in_map_iff in H. destruct H as (e & H & _). discriminate.
Qed.

End PreviewFacts.

(** The preview leaves the gateway alone.  For a frame with rows it logs
    one line per row, in the order of the file, whatever columns the frame
    has (a missing [Action], [Quantity] or [Symbol] shows as ["N/A"], a
    missing [OrderType] as ["MKT"]), the rows that the loop will pass over
    included; the line of a row shows [idx + 1], so the rows are numbered
    from one under the default index, and at a label that is no number the
    preview raises a [TypeError], after the lines of the rows before it.
    For no frame or an empty one it logs that there are no trades, and no
    line of a row. *)
Theorem preview_lists_every_row {G : Type} (df : option DataFrame) (g : G) :
  exists tr,
    display_orders_preview df g
    = ((if stops df then Raise TypeError else Ok tt), g, tr)
    /\ gateway_calls (core_events tr) = []
    /\ preview_lines tr
       = match df with
         | None => []
         | Some d => if empty d then [] else row_lines (iterrows d)
         end
    /\ (forall d, df = Some d -> numbered d = true ->
        Forall2
          (fun item m =>
             exists i,
               plus_one (fst item) = Ok i /\ m = trade_line i (snd item))
          (iterrows d) (row_lines (iterrows d)))
    /\ (In (EntryLog INFO MsgNoTrades) tr
        <-> match df with None => True | Some d => empty d = true end).
Proof.
  rewrite display_orders_preview_run. eexists. split; [reflexivity|].
  assert (Hlines : forall (ms : list entry_message) (tail : list entry_event),
             (forall m, In m ms -> exists i a q s t l, m = MsgTradeLine i a q s t l) ->
             preview_lines (map (EntryLog INFO) ms ++ tail)
             = ms ++ preview_lines tail
             /\ (In (EntryLog INFO MsgNoTrades) (map (EntryLog INFO) ms ++ tail)
                 -> In (EntryLog INFO MsgNoTrades) tail)).
  { induction ms as [|m ms IH]; intros tail Hms; [now split|].
    destruct (Hms m (or_introl eq_refl)) as (i & a & q & s & t & l & ->).
    destruct (IH tail (fun m' H => Hms m' (or_intror H))) as (IH1 & IH2).
    cbn [map app preview_lines]. rewrite IH1. split; [reflexivity|].
    intros [H|H]; [discriminate|now apply IH2]. }
  assert (Hrows : forall items : list (label * Series),
             forall m, In m (row_lines items) ->
                       exists i a q s t l, m = MsgTradeLine i a q s t l).
  { intros items m H. unfold row_lines in H. apply in_flat_map in H.
    destruct H as (item & _ & H).
    destruct (plus_one (fst item)) as [i|]; [|destruct H].
    destruct H as [<-|[]]. unfold trade_line. now eexists _, _, _, _, _, _. }
  split; [|split; [|split]].
  - destruct df as [d|]; [|reflexivity].
    destruct (empty d); [reflexivity|].
    rewrite !core_events_app, core_events_lines.
    now destruct (numbered d).
  - destruct df as [d|]; [|reflexivity].
    destruct (empty d); [reflexivity|].
    cbn [app preview_lines].
    rewrite (proj1 (Hlines _ _ (Hrows (iterrows d)))).
    destruct (numbered d); cbn [preview_lines]; apply app_nil_r.
  - intros d _ Hn. apply row_lines_all. now rewrite iterrows_numbered.
  - destruct df as [d|].
    + destruct (empty d).
      * split; [reflexivity|]. intros _. now left.
      * split; [|discriminate].
        intros [H|[H|[H|H]]]; try discriminate.
        apply (proj2 (Hlines _ _ (Hrows (iterrows d)))) in H.
        destruct (numbered d); simpl in H;
          repeat (destruct H as [H|H]; [discriminate|]); destruct H.
    + split; [reflexivity|]. intros _. now left.
Qed.

Lemma preview_lists_every_row_witness :
  Forall2
    (fun item m =>
       exists i, plus_one (fst item) = Ok i /\ m = trade_line i (snd item))
    (iterrows example_batch) (row_lines (iterrows example_batch)).
Proof.
  destruct (preview_lists_every_row (G := Z) (Some example_batch) 0)
    as (tr & _ & _ & _ & Hall & _).
  exact (Hall example_batch eq_refl eq_refl).
Defined.

(** The preview and the order disagree on the spelling of the type.  The
    preview shows a limit price exactly when the [OrderType] cell is the
    text ["LMT"] as it is and the price is present, while [create_order]
    compares the type in upper case: so the limit the preview shows is the
    one the order carries, but an order whose type is spelled otherwise
    (["lmt"], ["Lmt"]) carries a limit price the preview did not show. *)
Theorem preview_shows_the_limit_of_exact_LMT_only {py : Text} (i : cell)
    (row : Series) (o : Order) :
  order_of_row row = Ok (Built o) ->
  (line_limit (trade_line i row) <> None
   <-> get_default row "OrderType" (CStr "MKT") = CStr "LMT"
       /\ notna (get row "LmtPrice") = true)
  /\ (forall p, line_limit (trade_line i row) = Some p ->
        exists f, py_float p = Ok f /\ lmtPrice o = Some f)
  /\ (lmtPrice o <> None ->
      get_default row "OrderType" (CStr "MKT") <> CStr "LMT" ->
      line_limit (trade_line i row) = None).
Proof.
  intros Ho.
  destruct (order_built_fields row o Ho) as (a & t & _ & Ht & Hfill & _ & _).
  unfold trade_line, line_limit. rewrite Ht. unfold is_LMT.
  assert (Hshow : (if ((t =? "LMT")%string && notna (get row "LmtPrice"))%bool
                   then get row "LmtPrice" else None) <> None
                  <-> CStr t = CStr "LMT" /\ notna (get row "LmtPrice") = true).
  { destruct (t =? "LMT")%string eqn:He.
    - apply String.eqb_eq in He. subst t. simpl.
      destruct (notna (get row "LmtPrice")) eqn:Hn.
      + split; [now split|intros _].
        destruct (get row "LmtPrice"); [discriminate|discriminate Hn].
      + split; [intros H; now destruct H|intros (_ & H); discriminate].
    - apply String.eqb_neq in He. simpl.
      split; [intros H; now destruct H|intros ([= H] & _); now destruct He]. }
  split; [exact Hshow|]. split.
  - intros p Hp.
    destruct (t =? "LMT")%string eqn:He; [|discriminate].
    apply String.eqb_eq in He. subst t.
    destruct (notna (get row "LmtPrice")) eqn:Hn; [|discriminate].
    simpl in Hp.
    unfold fill_order, rbind in Hfill.
    change (upper "LMT") with "LMT" in Hfill. rewrite Hn in Hfill.
    simpl in Hfill. unfold getitem in Hfill. unfold get in Hp.
    rewrite Hp in Hfill.
    destruct (py_float p) as [f|]; [|discriminate]. exists f.
    split; [reflexivity|].
    repeat match type of Hfill with
           | context [match ?x with _ => _ end] => destruct x; try discriminate
           end; now injection Hfill as <-.
  - intros _ Hne.
    destruct (t =? "LMT")%string eqn:He; [|reflexivity].
    apply String.eqb_eq in He. subst t. now destruct Hne.
Qed.

Lemma preview_shows_the_limit_of_exact_LMT_only_witness :
  exists o,
    order_of_row (combine (columns lower_case_limit_batch)
                    [CStr "AAPL"; CStr "buy"; CInt 10; CStr "lmt";
                     CFloat (float_of_Z 150)])
    = Ok (Built o)
    /\ lmtPrice o = Some (float_of_Z 150)
    /\ line_limit
         (trade_line (CInt 1)
            (combine (columns lower_case_limit_batch)
               [CStr "AAPL"; CStr "buy"; CInt 10; CStr "lmt";
                CFloat (float_of_Z 150)]))
       = None.
Proof.
  pose (row := combine (columns lower_case_limit_batch)
                 [CStr "AAPL"; CStr "buy"; CInt 10; CStr "lmt";
                  CFloat (float_of_Z 150)]).
  pose (o := {| action := "BUY"; totalQuantity := 10; orderType := "LMT";
                lmtPrice := Some (float_of_Z 150); auxPrice := None;
                tif := CStr "DAY"; account := None |}).
  assert (Ho : order_of_row row = Ok (Built o)) by reflexivity.
  exists o. split; [exact Ho|]. split; [reflexivity|].
  apply (proj2 (proj2 (preview_shows_the_limit_of_exact_LMT_only (CInt 1) row o Ho)));
    discriminate.
Defined.

(** The second script connects and previews before it asks.  When [connect]
    returned [False] it logs that it failed to initialize and stops: it
    reads no file and asks nothing.  When [connect] returned [True] it reads
    and previews the file.  If the preview raises (the frame is iterated
    and an index label is no number), [main] has no handler: the
    [TypeError] leaves it, nothing is asked and the gateway is left
    connected.  Otherwise it asks, and then: on the answer ["yes"]
    (stripped, in lower case) it runs the session on the frame the preview
    read, so the orders requested are those of the previewed rows; on any
    other answer it places nothing and only disconnects.  In both cases the
    last call of the gateway is the disconnection. *)
Theorem realtest_main_previews_then_asks {G : Type} (ib : IB G)
    (fs : FileSystem) {py : Text} (answer : string) (g g1 : G) (b : bool)
    (trc : list event) :
  connect ib default_manager g = (Ok b, g1, trc) ->
  if b then
    if stops (realtest_frame fs CSV_FILE) then
      exists tr,
        realtest_main ib fs answer g = (Raise TypeError, g1, tr)
        /\ ~ In Input tr
        /\ gateway_calls (core_events tr) = gateway_calls trc
    else
      exists g2 tr calls,
        realtest_main ib fs answer g = (Ok tt, g2, tr)
        /\ In Input tr
        /\ placement_calls (core_events tr)
           = (if (response_of answer =? "yes")%string
              then flat_map row_request (taken (realtest_frame fs CSV_FILE))
              else [])
        /\ gateway_calls (core_events tr) = calls ++ [CallDisconnect]
        /\ (response_of answer <> "yes" ->
            gateway_calls (core_events tr)
            = gateway_calls trc ++ [CallDisconnect])
  else
    realtest_main ib fs answer g
    = (Ok tt, g1,
       [Core (Log INFO (MsgRule 80)); EntryLog INFO MsgSessionStarted;
        Core (Log INFO (MsgRule 80))]
       ++ ([Core (Log INFO (MsgRule 80)); EntryLog INFO MsgTitle;
            Core (Log INFO (MsgRule 80)); EntryLog INFO MsgSafetyMode]
           ++ map Core trc)
       ++ [EntryLog ERROR MsgFailedToInitialize]).
Proof.
  intros Hc. unfold realtest_main.
  rewrite (ebind_returns (core (log INFO (MsgRule 80))) _ g tt g
             [Core (Log INFO (MsgRule 80))] eq_refl).
  rewrite (ebind_returns (entry_log INFO MsgSessionStarted) _ g tt g
             [EntryLog INFO MsgSessionStarted] eq_refl).
  rewrite (ebind_returns (core (log INFO (MsgRule 80))) _ g tt g
             [Core (Log INFO (MsgRule 80))] eq_refl).
  rewrite (ebind_returns _ _ _ _ _ _ (initialize_run ib g b g1 trc Hc)).
  destruct b; cbv beta iota delta [negb]; [|reflexivity].
  destruct (preview_trades_run (G := G) fs CSV_FILE g1)
    as (trr & trp & Hread & Hl & Hprev & Hpl & Hni).
  assert (Hpc : placement_calls (core_events trp) = []
                /\ gateway_calls (core_events trp) = []).
  { split; [apply pick_logs; auto|apply (logs_no_calls _ Hpl)]. }
  destruct Hpc as (Hpp & Hpg).
  destruct (connect_returns ib default_manager g)
    as (b' & g1' & trc' & rest & Hc' & _ & Hcp).
  rewrite Hc in Hc'. injection Hc' as <- <- <-.
  set (d := realtest_frame fs CSV_FILE) in *.
  destruct (stops d) eqn:Hstop.
  - unfold ebind at 1. rewrite Hprev.
    eexists. split; [reflexivity|]. split.
    + intros H. simpl in H.
      repeat (destruct H as [H|H]; [discriminate|]).
      apply in_app_or in H. destruct H as [H|H].
      * apply in_map_iff in H. destruct H as (e & H & _). discriminate.
      * now apply Hni.
    + rewrite !core_events_app, !core_events_map.
      unfold gateway_calls in *. rewrite !pick_app, Hpg.
      cbn [core_events pick gateway_of app]. now rewrite !app_nil_r.
  - rewrite (ebind_returns _ _ _ _ _ _ Hprev).
    rewrite (ebind_returns (print (PrintRule 80)) _ g1 tt g1
               [Print (PrintRule 80)] eq_refl).
    rewrite (ebind_returns (input answer) _ g1 answer g1 [Input] eq_refl).
    cbv beta zeta.
    rewrite (ebind_returns (print (PrintRule 80)) _ g1 tt g1
               [Print (PrintRule 80)] eq_refl).
    fold (response_of answer).
    destruct (response_of answer =? "yes")%string eqn:Hr;
      cbv beta iota delta [negb].
    + destruct (realtest_run_summary ib CSV_FILE d g1)
        as (trA & trP & trB & g2 & Hrun & GA & _ & GB & _ & Hp & _).
      rewrite Hstop in GB.
      assert (Hg : gateway_calls (trA ++ trP ++ trB)
                   = (gateway_calls trA ++ gateway_calls trP
                      ++ [CallPositions; CallAccountSummary])
                     ++ [CallDisconnect]).
      { unfold gateway_calls in *. rewrite !pick_app, GB.
        now rewrite <- !app_assoc. }
      revert Hrun Hp Hg. generalize (trA ++ trP ++ trB).
      intros trun Hrun Hp Hg.
      rewrite (core_returns _ _ _ _ _ Hrun).
      exists g2. eexists.
      exists (gateway_calls trc ++ gateway_calls trA ++ gateway_calls trP
              ++ [CallPositions; CallAccountSummary]).
      split; [reflexivity|].
      split; [repeat first [ apply in_or_app; left; solve [simpl; tauto]
                           | apply in_or_app; right ]|].
      rewrite !core_events_app, !core_events_map.
      unfold placement_calls, gateway_calls in *.
      rewrite !pick_app, Hpp, Hpg, Hcp, Hp, Hg.
      cbn [core_events pick placement_of gateway_of app].
      split; [|split].
      * reflexivity.
      * now rewrite !app_assoc.
      * intros Hne. apply String.eqb_eq in Hr. now destruct Hne.
    + destruct (shutdown_calls ib g1) as (g2 & trs & Hs & Gs & _ & Bs).
      unfold returns in Hs.
      rewrite (ebind_returns (entry_log INFO MsgCancelled) _ g1 tt g1
                 [EntryLog INFO MsgCancelled] eq_refl).
      rewrite (core_returns _ _ _ _ _ Hs).
      exists g2. eexists. exists (gateway_calls trc).
      split; [reflexivity|].
      split; [repeat first [ apply in_or_app; left; solve [simpl; tauto]
                           | apply in_or_app; right ]|].
      rewrite !core_events_app, !core_events_map.
      unfold placement_calls, gateway_calls in *.
      rewrite !pick_app, Hpp, Hpg, Hcp, Gs.
      fold placement_calls. rewrite (background_placement _ Bs).
      cbn [core_events pick placement_of gateway_of app].
      repeat split; reflexivity.
Qed.

Lemma realtest_main_previews_then_asks_witness :
  (exists g2 tr,
      realtest_main accepting_ib (fs_here lower_case_limit_batch) "n" 0
      = (Ok tt, g2, tr)
      /\ gateway_calls (core_events tr)
         = [CallConnect IB_HOST IB_PORT CLIENT_ID; CallManagedAccounts;
            CallDisconnect])
  /\ (exists tr,
         realtest_main accepting_ib (fs_here text_labelled_batch) "yes" 0
         = (Raise TypeError, 0, tr)
         /\ gateway_calls (core_events tr)
            = [CallConnect IB_HOST IB_PORT CLIENT_ID; CallManagedAccounts]).
Proof.
  split.
  - destruct (realtest_main_previews_then_asks accepting_ib
                (fs_here lower_case_limit_batch) "n" 0 0 true _ eq_refl)
      as (g2 & tr & calls & H & _ & _ & _ & Hdecl).
    exists g2, tr. split; [exact H|].
    rewrite Hdecl; [reflexivity|]. vm_compute. discriminate.
  - destruct (realtest_main_previews_then_asks accepting_ib
                (fs_here text_labelled_batch) "yes" 0 0 true _ eq_refl)
      as (tr & H & _ & Hcalls).
    exists tr. split; [exact H|]. rewrite Hcalls. reflexivity.
Defined.
